(** * The MCP tool-calling clients: a shallow embedding

    The repository holds three copies of one client class, [MCPClient]:
    - [DraftClient]: src/oai2.ts, first document (lines 1-500), a client
      half-way between the Anthropic and the OpenAI wire formats;
    - [OpenAIClient]: src/oai2.ts, second document (lines 500-970);
    - [AnthropicClient]: src/unnamed/part_001 (lines 523-988);
    and a stand-alone converter, [Transformer] (src/unnamed/part_001,
    lines 380-522).

    The clients are asynchronous, but every [await] is sequential: one
    call is awaited to completion before the next statement runs.  The
    embedding is therefore a state-and-exception monad over the client
    object, the outside world and a log of the external calls made. *)

From Stdlib Require Import ZArith List String Ascii Lia Bool DecimalString.
From Stdlib Require Import QArith Qround.
From stdpp Require Import base option list strings gmap.
Import ListNotations.
Local Open Scope list_scope.
Set Warnings "-register-all".

(** ** JavaScript values

    The payloads that cross the process boundary are JSON documents.
    [undefined] is [None : option value].  Numbers are the integral ones
    (printed in decimal, which agrees with JavaScript below 10^21);
    an object is its list of own properties in enumeration order. *)

Inductive value : Type :=
| JNull
| JBool (b : bool)
| JNum (n : Z)
| JStr (s : string)
| JArr (items : list value)
| JObj (fields : list (string * value)).

Record Error : Type := mkError { name : string; message : string }.

(** [new Error(msg)], [new TypeError(msg)] *)
Definition new_Error (msg : string) : Error := mkError "Error" msg.
Definition new_TypeError (msg : string) : Error := mkError "TypeError" msg.

(** [String(error)], as a template literal renders an error:
    Error.prototype.toString. *)
Definition Error_toString (e : Error) : string :=
  if String.eqb (name e) EmptyString then message e
  else if String.eqb (message e) EmptyString then name e
  else name e +:+ ": " +:+ message e.

(** The completion of an expression that always completes: normally
    with a value, or abruptly with a thrown error. *)
Inductive completion (A : Type) : Type :=
| Normal (a : A)
| Thrown (e : Error).
Arguments Normal {A} a.
Arguments Thrown {A} e.

(** The outcome of a method that loops: a value, an exception, or no
    result within the number of iterations the embedding follows. *)
Inductive outcome (A : Type) : Type :=
| Return (a : A)
| Throw (e : Error)
| Diverge.
Arguments Return {A} a.
Arguments Throw {A} e.
Arguments Diverge {A}.

(** Truthiness, as tested by [if (x)], [x || y] and [x && y]. *)
Definition truthy (v : option value) : bool :=
  match v with
  | None => false
  | Some JNull => false
  | Some (JBool b) => b
  | Some (JNum n) => negb (n =? 0)%Z
  | Some (JStr s) => negb (String.eqb s EmptyString)
  | Some (JArr _) => true
  | Some (JObj _) => true
  end.

Fixpoint assoc (k : string) (fields : list (string * value)) : option value :=
  match fields with
  | [] => None
  | (k', v) :: rest => if String.eqb k k' then Some v else assoc k rest
  end.

(** Property read [v.k] for the property names the clients read
    ([content], [type], [text]): an own property of an object, [undefined]
    on a primitive or an array, a TypeError on [null]. *)
Definition prop (v : value) (k : string) : completion (option value) :=
  match v with
  | JNull =>
      Thrown (new_TypeError
                ("Cannot read properties of null (reading '" +:+ k +:+ "')"))
  | JObj fields => Normal (assoc k fields)
  | _ => Normal None
  end.

Definition string_of_Z (n : Z) : string := NilZero.string_of_int (Z.to_int n).

(** [sep.join] over strings. *)
Fixpoint join_strings (sep : string) (l : list string) : string :=
  match l with
  | [] => EmptyString
  | [s] => s
  | s :: rest => s +:+ sep +:+ join_strings sep rest
  end.

(** The abstract operation ToString on a value; inside [join], [null] and
    [undefined] elements are rendered as the empty string. *)
Fixpoint ToString (v : value) : string :=
  match v with
  | JNull => "null"
  | JBool true => "true"
  | JBool false => "false"
  | JNum n => string_of_Z n
  | JStr s => s
  | JArr items =>
      join_strings ","
        (map (fun x => match x with JNull => EmptyString | _ => ToString x end) items)
  | JObj _ => "[object Object]"
  end.

Definition join_element (x : option value) : string :=
  match x with
  | None => EmptyString
  | Some JNull => EmptyString
  | Some v => ToString v
  end.

(** [Array.prototype.join] *)
Definition Array_join (sep : string) (l : list (option value)) : string :=
  join_strings sep (map join_element l).

Definition hex_digit (n : nat) : ascii :=
  if (n <? 10)%nat then ascii_of_nat (48 + n) else ascii_of_nat (87 + n).

(** JSON's rendering of one character of a string literal. *)
Definition escape_char (c : ascii) : string :=
  let n := nat_of_ascii c in
  if (n =? 34)%nat then String "\" (String "034" EmptyString)
  else if (n =? 92)%nat then "\\"
  else if (n =? 8)%nat then "\b"
  else if (n =? 9)%nat then "\t"
  else if (n =? 10)%nat then "\n"
  else if (n =? 12)%nat then "\f"
  else if (n =? 13)%nat then "\r"
  else if (n <? 32)%nat then
    "\u00" +:+ String (hex_digit (n / 16)) (String (hex_digit (n mod 16)) EmptyString)
  else String c EmptyString.

Fixpoint escape (s : string) : string :=
  match s with
  | EmptyString => EmptyString
  | String c rest => escape_char c +:+ escape rest
  end.

Definition quote (s : string) : string :=
  String "034" (escape s +:+ String "034" EmptyString).

(** [JSON.stringify(v)] with no indentation. *)
Fixpoint JSON_stringify (v : value) : string :=
  match v with
  | JNull => "null"
  | JBool true => "true"
  | JBool false => "false"
  | JNum n => string_of_Z n
  | JStr s => quote s
  | JArr items => "[" +:+ join_strings "," (map JSON_stringify items) +:+ "]"
  | JObj fields =>
      "{" +:+ join_strings ","
                (map (fun kv => quote (fst kv) +:+ ":" +:+ JSON_stringify (snd kv))
                     fields)
          +:+ "}"
  end.

(** ** Normalising a tool result

    The same statements appear in all three [ask] methods
    (oai2.ts 281-295 and 776-790, part_001 772-786).

<<
    let resultContent = '';
    if (toolResult.content) {
      if (Array.isArray(toolResult.content)) {
        resultContent = toolResult.content
          .map((item: any) => item.type === 'text' ? item.text : JSON.stringify(item))
          .join('\n');
      } else {
        resultContent = typeof toolResult.content === 'string'
          ? toolResult.content
          : JSON.stringify(toolResult.content);
      }
    } else {
      resultContent = JSON.stringify(toolResult);
    }
>> *)

Definition newline : string := String "010" EmptyString.

Definition is_text_type (ty : option value) : bool :=
  match ty with
  | Some (JStr s) => String.eqb s "text"
  | _ => false
  end.

(** The callback of [map]. *)
Definition render_item (item : value) : completion (option value) :=
  match prop item "type" with
  | Normal ty =>
      if is_text_type ty then prop item "text"
      else Normal (Some (JStr (JSON_stringify item)))
  | Thrown e => Thrown e
  end.

(** [Array.prototype.map]; the first exception of the callback ends it. *)
Fixpoint Array_map (f : value -> completion (option value)) (l : list value)
  : completion (list (option value)) :=
  match l with
  | [] => Normal []
  | x :: rest =>
      match f x with
      | Normal y =>
          match Array_map f rest with
          | Normal ys => Normal (y :: ys)
          | Thrown e => Thrown e
          end
      | Thrown e => Thrown e
      end
  end.

Definition resultContent (toolResult : value) : completion string :=
  match prop toolResult "content" with
  | Normal content =>
      if truthy content then
        match content with
        | Some (JArr items) =>
            match Array_map render_item items with
            | Normal rendered => Normal (Array_join newline rendered)
            | Thrown e => Thrown e
            end
        | Some (JStr s) => Normal s
        | Some other => Normal (JSON_stringify other)
        | None => Normal (JSON_stringify toolResult)
        end
      else Normal (JSON_stringify toolResult)
  | Thrown e => Thrown e
  end.

(** The text [ask] stores for the completion [r] of the SDK's tool
    call: the normalised payload, or ["Error: "] and the message of the
    error that [callTool] or the normalisation throws. *)
Definition tool_text (r : completion value) : string :=
  match r with
  | Thrown e => "Error: " +:+ "Tool call failed: " +:+ Error_toString e
  | Normal payload =>
      match resultContent payload with
      | Normal t => t
      | Thrown e => "Error: " +:+ message e
      end
  end.

(** ** The tool catalog and its provider schemas *)

Module Tool.
(** An entry of [result.tools] as the tool server lists it. *)
Record t : Type := mk {
  name : string;
  description : option string;
  inputSchema : option value
}.
End Tool.

Module OpenAITool.
Record function_t : Type := mkFunction {
  name : string;
  description : string;
  parameters : value
}.
Record t : Type := mk { type : string; function : function_t }.
End OpenAITool.

Module AnthropicTool.
Record t : Type := mk {
  name : string;
  description : string;
  input_schema : value
}.
End AnthropicTool.

(** [tool.description || `Execute ${tool.name}`] *)
Definition description_or_default (tool : Tool.t) : string :=
  match Tool.description tool with
  | Some d => if truthy (Some (JStr d)) then d else "Execute " +:+ Tool.name tool
  | None => "Execute " +:+ Tool.name tool
  end.

(** [tool.inputSchema || dflt] *)
Definition inputSchema_or (dflt : value) (tool : Tool.t) : value :=
  match Tool.inputSchema tool with
  | Some schema => if truthy (Some schema) then schema else dflt
  | None => dflt
  end.

(** oai2.ts 613-626 *)
Definition openai_default_parameters : value :=
  JObj [("type", JStr "object"); ("properties", JObj []); ("required", JArr [])].

Definition convertMCPToolsToOpenAI (availableTools : list Tool.t) : list OpenAITool.t :=
  map (fun tool =>
         OpenAITool.mk "function"
           (OpenAITool.mkFunction
              (Tool.name tool)
              (description_or_default tool)
              (inputSchema_or openai_default_parameters tool)))
      availableTools.

(** oai2.ts 119-128, part_001 634-643 *)
Definition anthropic_default_input_schema : value :=
  JObj [("type", JStr "object"); ("properties", JObj [])].

Definition convertMCPToolsToAnthropic (availableTools : list Tool.t) : list AnthropicTool.t :=
  map (fun tool =>
         AnthropicTool.mk
           (Tool.name tool)
           (description_or_default tool)
           (inputSchema_or anthropic_default_input_schema tool))
      availableTools.

(** The stand-alone converter of part_001 (lines 380-522), plain
    JavaScript: it copies the three fields, present or not. *)
Module Transformer.
Record function_t : Type := mkFunction {
  name : string;
  description : option string;
  parameters : option value
}.
Record t : Type := mk { type : string; function : function_t }.

(** part_001 481-490 *)
Definition transformMCPToolsToOpenAI (mcpTools : list Tool.t) : list t :=
  map (fun tool =>
         mk "function"
            (mkFunction (Tool.name tool) (Tool.description tool) (Tool.inputSchema tool)))
      mcpTools.
End Transformer.

(** ** The host: the world outside the client

    The MCP SDK client, [JSON.parse] and [fetch] are not part of the
    repository.  Each external call takes the world to a new world and
    either resolves with a value or rejects with an error. *)

Class Host : Type := {
  World : Type;
  (** [JSON.parse(text)]: a SyntaxError or the parsed value *)
  JSON_parse : string -> completion value;
  (** [this.client.connect(this.transport)] *)
  sdk_connect : World -> World * completion unit;
  (** [this.client.close()] *)
  sdk_close : World -> World * completion unit;
  (** [this.client.listTools()]; the inner option is [result.tools] *)
  sdk_listTools : World -> World * completion (option (list Tool.t));
  (** [this.client.callTool({name, arguments})] *)
  sdk_callTool : World -> string -> value -> World * completion value
}.

(** The object [fetch] resolves with. *)
Record Response (Body : Type) : Type := mkResponse {
  ok : bool;
  status : Z;
  text : string;          (* response.text() *)
  json : completion Body  (* response.json(), narrowed to the part the caller reads *)
}.
Arguments mkResponse {Body}.
Arguments ok {Body}.
Arguments status {Body}.
Arguments text {Body}.
Arguments json {Body}.

Section Runtime.
(** [Msg]: an entry of the conversation history; [Req]: the body sent
    to the completion endpoint. *)
Context {H : Host} {Msg Req : Type}.

(** The fields of the class (oai2.ts 38-44 and 531-540, part_001 560-566). *)
Record MCPClient : Type := mkClient {
  model : string;
  maxTokens : Z;
  availableTools : list Tool.t;
  conversationHistory : list Msg;
  isConnected : bool
}.

Definition set_availableTools (tools : list Tool.t) (c : MCPClient) : MCPClient :=
  mkClient (model c) (maxTokens c) tools (conversationHistory c) (isConnected c).
Definition set_conversationHistory (h : list Msg) (c : MCPClient) : MCPClient :=
  mkClient (model c) (maxTokens c) (availableTools c) h (isConnected c).
Definition set_isConnected (b : bool) (c : MCPClient) : MCPClient :=
  mkClient (model c) (maxTokens c) (availableTools c) (conversationHistory c) b.

(** The external calls a run makes, oldest first. *)
Inductive event : Type :=
| EvConnect
| EvClose
| EvListTools
| EvCallTool (name : string) (arguments : value)
| EvFetch (request : Req).

Record machine : Type := mkMachine {
  this : MCPClient;
  world : World;
  calls : list event
}.

Definition history (s : machine) : list Msg := conversationHistory (this s).

(** The machine after [this.conversationHistory.push(m)]. *)
Definition pushed (m : Msg) (s : machine) : machine :=
  mkMachine (set_conversationHistory (conversationHistory (this s) ++ [m]) (this s))
            (world s) (calls s).

(** The machine after an external call that left the world [w]. *)
Definition called (ev : event) (w : World) (s : machine) : machine :=
  mkMachine (this s) w (calls s ++ [ev]).

Definition is_fetch (ev : event) : bool :=
  match ev with EvFetch _ => true | _ => false end.

(** The number of completion requests in a call log. *)
Definition fetches (evs : list event) : nat := length (filter is_fetch evs).

(** The tool invocations in a call log, oldest first. *)
Definition invocations (evs : list event) : list (string * value) :=
  omap (fun ev => match ev with EvCallTool n a => Some (n, a) | _ => None end) evs.

Definition M (A : Type) : Type := machine -> outcome A * machine.

#[export] Instance M_ret : MRet M := fun A a s => (Return a, s).
#[export] Instance M_bind : MBind M := fun A B f m s =>
  match m s with
  | (Return a, s') => f a s'
  | (Throw e, s') => (Throw e, s')
  | (Diverge, s') => (Diverge, s')
  end.

Definition throw {A} (e : Error) : M A := fun s => (Throw e, s).
Definition diverge {A} : M A := fun s => (Diverge, s).

(** [try { body } catch (error) { handler }] *)
Definition try_catch {A} (body : M A) (handler : Error -> M A) : M A :=
  fun s =>
    match body s with
    | (Throw e, s') => handler e s'
    | r => r
    end.

Definition read_this : M MCPClient := fun s => (Return (this s), s).
Definition modify_this (f : MCPClient -> MCPClient) : M unit :=
  fun s => (Return tt, mkMachine (f (this s)) (world s) (calls s)).

(** [await call]: the call is logged, the world moves on, a rejection
    becomes an exception. *)
Definition await {A} (ev : event) (call : World -> World * completion A) : M A :=
  fun s =>
    let '(w, r) := call (world s) in
    let s' := mkMachine (this s) w (calls s ++ [ev]) in
    match r with
    | Thrown e => (Throw e, s')
    | Normal a => (Return a, s')
    end.

(** An expression that touches neither the client nor the world. *)
Definition pure {A} (r : completion A) : M A :=
  match r with
  | Thrown e => throw e
  | Normal a => mret a
  end.

(** [for (const x of l) { body }] *)
Fixpoint for_of {A} (l : list A) (body : A -> M unit) : M unit :=
  match l with
  | [] => mret tt
  | x :: rest => body x ;; for_of rest body
  end.

(** The same loop when its body updates a local variable [acc]. *)
Fixpoint for_of_acc {A B} (l : list A) (acc : B) (body : A -> B -> M B) : M B :=
  match l with
  | [] => mret acc
  | x :: rest => acc' ← body x acc; for_of_acc rest acc' body
  end.

(** [this.conversationHistory.push(m)] *)
Definition push_history (m : Msg) : M unit :=
  modify_this (fun c => set_conversationHistory (conversationHistory c ++ [m]) c).

(** [loadTools] (oai2.ts 107-117 and 601-611, part_001 622-632) *)
Definition loadTools : M unit :=
  try_catch
    (result ← await EvListTools sdk_listTools;
     modify_this (set_availableTools (default [] result)))
    (fun error => modify_this (set_availableTools [])).

(** [connect] (oai2.ts 77-97 and 571-591, part_001 595-612) *)
Definition connect : M unit :=
  c ← read_this;
  if isConnected c then throw (new_Error "Client is already connected")
  else
    try_catch
      (await EvConnect sdk_connect ;;
       modify_this (set_isConnected true) ;;
       loadTools)
      (fun error =>
         throw (new_Error ("Failed to connect to MCP server: " +:+ Error_toString error))).

(** [disconnect] *)
Definition disconnect : M unit :=
  c ← read_this;
  if isConnected c then
    await EvClose sdk_close ;;
    modify_this (set_isConnected false)
  else mret tt.

(** [callTool] (oai2.ts 162-179 and 661-678, part_001 674-688) *)
Definition callTool (name : string) (arguments_ : value) : M value :=
  c ← read_this;
  if negb (isConnected c) then throw (new_Error "Client is not connected")
  else
    try_catch
      (await (EvCallTool name arguments_) (fun w => sdk_callTool w name arguments_))
      (fun error => throw (new_Error ("Tool call failed: " +:+ Error_toString error))).

(** [clearHistory], [getHistory], [get tools]: the array-level view;
    the identity of the arrays is the subject of [Module Arrays]. *)
Definition clearHistory : M unit := modify_this (set_conversationHistory []).
Definition getHistory : M (list Msg) := c ← read_this; mret (conversationHistory c).
Definition tools : M (list Tool.t) := c ← read_this; mret (availableTools c).
End Runtime.

Arguments MCPClient Msg : clear implicits.
Arguments event Req : clear implicits.
Arguments machine {H} Msg Req.
Arguments M {H} Msg Req A.

(** ** The OpenAI client (oai2.ts, second document) *)

Module OpenAIMessage.
Inductive role_t : Type := user | assistant | system | tool.
Record function_t : Type := mkFunction { name : string; arguments : string }.
Record tool_call : Type := mkToolCall {
  id : string;
  type : string;
  function : function_t
}.
(** [interface OpenAIMessage] (oai2.ts 504-516); [content: null] is
    [None], an absent optional field is [None]. *)
Record t : Type := mk {
  role : role_t;
  content : option string;
  tool_calls : option (list tool_call);
  tool_call_id : option string
}.
End OpenAIMessage.

Module OpenAIRequest.
(** [requestBody] of [callOpenAI]; [tools] and [tool_choice] are set
    only for a non-empty tool list. *)
Record t : Type := mk {
  model : string;
  max_tokens : Z;
  messages : list OpenAIMessage.t;
  tools : option (list OpenAITool.t);
  tool_choice : option string
}.
End OpenAIRequest.

Module OpenAIObject.
(** The object a message of the history is: the keys of the object
    literal that [ask] pushes, as [JSON.stringify(requestBody)] sends
    them. *)
Definition role_name (r : OpenAIMessage.role_t) : string :=
  match r with
  | OpenAIMessage.user => "user"
  | OpenAIMessage.assistant => "assistant"
  | OpenAIMessage.system => "system"
  | OpenAIMessage.tool => "tool"
  end.

Definition of_tool_call (tc : OpenAIMessage.tool_call) : value :=
  JObj [("id", JStr (OpenAIMessage.id tc));
        ("type", JStr (OpenAIMessage.type tc));
        ("function",
         JObj [("name", JStr (OpenAIMessage.name (OpenAIMessage.function tc)));
               ("arguments", JStr (OpenAIMessage.arguments (OpenAIMessage.function tc)))])].

Definition of_message (m : OpenAIMessage.t) : value :=
  JObj ([("role", JStr (role_name (OpenAIMessage.role m)));
         ("content", match OpenAIMessage.content m with
                     | Some c => JStr c
                     | None => JNull
                     end)]
          ++ match OpenAIMessage.tool_calls m with
             | Some tcs => [("tool_calls", JArr (map of_tool_call tcs))]
             | None => []
             end
          ++ match OpenAIMessage.tool_call_id m with
             | Some i => [("tool_call_id", JStr i)]
             | None => []
             end).
End OpenAIObject.

(** [content || fallback] for [content : string | null] *)
Definition content_or (content : option string) (fallback : string) : string :=
  match content with
  | Some s => if truthy (Some (JStr s)) then s else fallback
  | None => fallback
  end.

Module OpenAIClient.
Section Client.
Context {H : Host}.
(** [fetch(`${this.baseUrl}/chat/completions`, ...)]; the body read
    from a success reply is [result.choices[0].message]. *)
Variable fetch :
  World -> OpenAIRequest.t -> World * completion (Response OpenAIMessage.t).

Local Abbreviation M := (M OpenAIMessage.t OpenAIRequest.t).

(** [requestBody] (oai2.ts 629-639) *)
Definition requestBody (c : MCPClient OpenAIMessage.t)
           (messages : list OpenAIMessage.t) (tools : list OpenAITool.t)
  : OpenAIRequest.t :=
  match tools with
  | [] => OpenAIRequest.mk (model c) (maxTokens c) messages None None
  | _ :: _ => OpenAIRequest.mk (model c) (maxTokens c) messages (Some tools) (Some "auto")
  end.

(** oai2.ts 628-659 *)
Definition callOpenAI (messages : list OpenAIMessage.t) (tools : list OpenAITool.t)
  : M OpenAIMessage.t :=
  c ← read_this;
  let requestBody := requestBody c messages tools in
  response ← await (EvFetch requestBody) (fun w => fetch w requestBody);
  if negb (ok response) then
    let error := text response in
    throw (new_Error ("OpenAI API error: " +:+ string_of_Z (status response)
                        +:+ " " +:+ error))
  else pure (json response).

Definition user_message (question : string) : OpenAIMessage.t :=
  OpenAIMessage.mk OpenAIMessage.user (Some question) None None.
Definition assistant_tool_message (response : OpenAIMessage.t) : OpenAIMessage.t :=
  OpenAIMessage.mk OpenAIMessage.assistant (OpenAIMessage.content response)
    (OpenAIMessage.tool_calls response) None.
Definition assistant_message (response : OpenAIMessage.t) : OpenAIMessage.t :=
  OpenAIMessage.mk OpenAIMessage.assistant (OpenAIMessage.content response) None None.
Definition tool_message (content id : string) : OpenAIMessage.t :=
  OpenAIMessage.mk OpenAIMessage.tool (Some content) None (Some id).

(** The body of [for (const toolCall of response.tool_calls)]
    (oai2.ts 769-809). *)
Definition dispatch (toolCall : OpenAIMessage.tool_call) : M unit :=
  try_catch
    (args ← pure (JSON_parse
                      (OpenAIMessage.arguments (OpenAIMessage.function toolCall)));
     toolResult ← callTool (OpenAIMessage.name (OpenAIMessage.function toolCall)) args;
     content ← pure (resultContent toolResult);
     push_history (tool_message content (OpenAIMessage.id toolCall)))
    (fun error =>
       push_history
         (tool_message ("Error: " +:+ message error) (OpenAIMessage.id toolCall))).

(** [response.tool_calls && response.tool_calls.length > 0] *)
Definition requests_tools (response : OpenAIMessage.t) : bool :=
  match OpenAIMessage.tool_calls response with
  | Some (_ :: _) => true
  | _ => false
  end.

(** One iteration of the [while] loop of [ask] (oai2.ts 761-812): the
    tool requests of [response] are dispatched and the next reply is
    fetched. *)
Definition round (openaiTools : list OpenAITool.t) (response : OpenAIMessage.t)
  : M OpenAIMessage.t :=
  push_history (assistant_tool_message response) ;;
  for_of (default [] (OpenAIMessage.tool_calls response)) dispatch ;;
  c ← read_this;
  callOpenAI (conversationHistory c) openaiTools.

(** The [while] loop of [ask] (oai2.ts 760-813); [fuel] is the number
    of iterations the embedding follows before it reports [Diverge]. *)
Fixpoint ask_while (fuel : nat) (openaiTools : list OpenAITool.t)
         (response : OpenAIMessage.t) : M OpenAIMessage.t :=
  if requests_tools response then
    match fuel with
    | O => diverge
    | S fuel' =>
        response' ← round openaiTools response;
        ask_while fuel' openaiTools response'
    end
  else mret response.

(** [ask] (oai2.ts 743-829) *)
Definition ask (fuel : nat) (question : string) : M string :=
  c ← read_this;
  if negb (isConnected c) then throw (new_Error "Client is not connected")
  else
    try_catch
      (push_history (user_message question) ;;
       c ← read_this;
       let openaiTools := convertMCPToolsToOpenAI (availableTools c) in
       response ← callOpenAI (conversationHistory c) openaiTools;
       response ← ask_while fuel openaiTools response;
       push_history (assistant_message response) ;;
       mret (content_or (OpenAIMessage.content response) EmptyString))
      (fun error => throw error).

(** [getOpenAITools] (oai2.ts 849-851) *)
Definition getOpenAITools : M (list OpenAITool.t) :=
  c ← read_this; mret (convertMCPToolsToOpenAI (availableTools c)).
End Client.
End OpenAIClient.

(** ** The draft client (oai2.ts, first document)

    Its [ask] calls [this.convertMCPToolsToOpenAI()] and
    [this.callOpenAI(...)], which the class does not define (it defines
    the Anthropic pair), and reads the reply as
    [response.choices[0].message].  Both members are parameters here:
    the converter as a function of the client, the completion call as an
    external call whose result is narrowed to that message. *)

Module DraftClient.
Section Client.
Context {H : Host} {Tools : Type}.
Variable convertMCPToolsToOpenAI : MCPClient OpenAIMessage.t -> Tools.
Variable callOpenAI_endpoint :
  World -> list OpenAIMessage.t -> Tools -> World * completion OpenAIMessage.t.

Local Abbreviation Req := (list OpenAIMessage.t * Tools)%type.
Local Abbreviation M := (M OpenAIMessage.t Req).

Definition callOpenAI (messages : list OpenAIMessage.t) (tools : Tools)
  : M OpenAIMessage.t :=
  await (EvFetch (messages, tools)) (fun w => callOpenAI_endpoint w messages tools).

(** The body of [for (const toolCall of assistantMessage.tool_calls)]
    (oai2.ts 274-314). *)
Definition dispatch (toolCall : OpenAIMessage.tool_call) : M unit :=
  try_catch
    (args ← pure (JSON_parse
                      (OpenAIMessage.arguments (OpenAIMessage.function toolCall)));
     toolResult ← callTool (OpenAIMessage.name (OpenAIMessage.function toolCall)) args;
     content ← pure (resultContent toolResult);
     push_history (OpenAIClient.tool_message content (OpenAIMessage.id toolCall)))
    (fun error =>
       push_history
         (OpenAIClient.tool_message ("Error: " +:+ message error)
            (OpenAIMessage.id toolCall))).

(** [response.choices[0].message.tool_calls]: any array, also an empty
    one, is truthy. *)
Definition requests_tools (message : OpenAIMessage.t) : bool :=
  match OpenAIMessage.tool_calls message with
  | Some _ => true
  | None => false
  end.

(** One iteration of the [while] loop of [ask] (oai2.ts 264-318). *)
Definition round (openaiTools : Tools) (assistantMessage : OpenAIMessage.t)
  : M OpenAIMessage.t :=
  push_history (OpenAIClient.assistant_tool_message assistantMessage) ;;
  for_of (default [] (OpenAIMessage.tool_calls assistantMessage)) dispatch ;;
  c ← read_this;
  callOpenAI (conversationHistory c) openaiTools.

(** The [while] loop of [ask] (oai2.ts 263-319). *)
Fixpoint ask_while (fuel : nat) (openaiTools : Tools)
         (assistantMessage : OpenAIMessage.t) : M OpenAIMessage.t :=
  if requests_tools assistantMessage then
    match fuel with
    | O => diverge
    | S fuel' =>
        response' ← round openaiTools assistantMessage;
        ask_while fuel' openaiTools response'
    end
  else mret assistantMessage.

(** [ask] (oai2.ts 244-336) *)
Definition ask (fuel : nat) (question : string) : M string :=
  c ← read_this;
  if negb (isConnected c) then throw (new_Error "Client is not connected")
  else
    try_catch
      (push_history (OpenAIClient.user_message question) ;;
       c ← read_this;
       let openaiTools := convertMCPToolsToOpenAI c in
       response ← callOpenAI (conversationHistory c) openaiTools;
       finalMessage ← ask_while fuel openaiTools response;
       push_history (OpenAIClient.assistant_message finalMessage) ;;
       mret (content_or (OpenAIMessage.content finalMessage) "No response content"))
      (fun error => throw error).
End Client.
End DraftClient.

(** ** The Anthropic client (unnamed/part_001, lines 523-988) *)

Module AnthropicMessage.
Inductive role_t : Type := user | assistant.
(** An element of a [content] array ([interface AnthropicMessage],
    part_001 536-548), by its [type] tag; [is_error] is absent ([None])
    or present. *)
Inductive block : Type :=
| text (text : string)
| tool_use (id name : string) (input : value)
| tool_result (tool_use_id content : string) (is_error : option bool).
Inductive content_t : Type :=
| Str (s : string)
| Blocks (blocks : list block).
Record t : Type := mk { role : role_t; content : content_t }.
End AnthropicMessage.

Module AnthropicResponse.
(** The fields [ask] reads of the parsed reply. *)
Record t : Type := mk {
  content : list AnthropicMessage.block;
  stop_reason : string
}.
End AnthropicResponse.

Module AnthropicRequest.
Record t : Type := mk {
  model : string;
  max_tokens : Z;
  messages : list AnthropicMessage.t;
  tools : option (list AnthropicTool.t)
}.
End AnthropicRequest.

Module AnthropicClient.
Section Client.
Context {H : Host}.
(** [fetch('https://api.anthropic.com/v1/messages', ...)] *)
Variable fetch :
  World -> AnthropicRequest.t -> World * completion (Response AnthropicResponse.t).

Local Abbreviation M := (M AnthropicMessage.t AnthropicRequest.t).

(** [requestBody] (part_001 646-654) *)
Definition requestBody (c : MCPClient AnthropicMessage.t)
           (messages : list AnthropicMessage.t) (tools : list AnthropicTool.t)
  : AnthropicRequest.t :=
  match tools with
  | [] => AnthropicRequest.mk (model c) (maxTokens c) messages None
  | _ :: _ => AnthropicRequest.mk (model c) (maxTokens c) messages (Some tools)
  end.

(** part_001 645-672 *)
Definition callAnthropic (messages : list AnthropicMessage.t)
           (tools : list AnthropicTool.t) : M AnthropicResponse.t :=
  c ← read_this;
  let requestBody := requestBody c messages tools in
  response ← await (EvFetch requestBody) (fun w => fetch w requestBody);
  if negb (ok response) then
    let error := text response in
    throw (new_Error ("Anthropic API error: " +:+ string_of_Z (status response)
                        +:+ " " +:+ error))
  else pure (json response).

(** The body of [for (const contentBlock of response.content)]
    (part_001 766-803); [toolResults] is the local array it pushes to. *)
Definition dispatch (contentBlock : AnthropicMessage.block)
           (toolResults : list AnthropicMessage.block)
  : M (list AnthropicMessage.block) :=
  match contentBlock with
  | AnthropicMessage.tool_use id name input =>
      try_catch
        (toolResult ← callTool name input;
         content ← pure (resultContent toolResult);
         mret (toolResults ++ [AnthropicMessage.tool_result id content None]))
        (fun error =>
           mret (toolResults ++
                   [AnthropicMessage.tool_result id ("Error: " +:+ message error)
                      (Some true)]))
  | _ => mret toolResults
  end.

Definition assistant_message (response : AnthropicResponse.t) : AnthropicMessage.t :=
  AnthropicMessage.mk AnthropicMessage.assistant
    (AnthropicMessage.Blocks (AnthropicResponse.content response)).

(** One iteration of the [while] loop of [ask] (part_001 758-816):
    [Some] next reply, or [None] at the [break]. *)
Definition round (anthropicTools : list AnthropicTool.t)
           (response : AnthropicResponse.t) : M (option AnthropicResponse.t) :=
  push_history (assistant_message response) ;;
  toolResults ← for_of_acc (AnthropicResponse.content response) [] dispatch;
  match toolResults with
  | _ :: _ =>
      push_history
        (AnthropicMessage.mk AnthropicMessage.user
           (AnthropicMessage.Blocks toolResults)) ;;
      c ← read_this;
      response' ← callAnthropic (conversationHistory c) anthropicTools;
      mret (Some response')
  | [] => mret None
  end.

(** The [while] loop of [ask] (part_001 757-817). *)
Fixpoint ask_while (fuel : nat) (anthropicTools : list AnthropicTool.t)
         (response : AnthropicResponse.t) : M AnthropicResponse.t :=
  if String.eqb (AnthropicResponse.stop_reason response) "tool_use" then
    match fuel with
    | O => diverge
    | S fuel' =>
        next ← round anthropicTools response;
        match next with
        | Some response' => ask_while fuel' anthropicTools response'
        | None => mret response
        end
    end
  else mret response.

(** [finalResponse += contentBlock.text] over the text blocks. *)
Fixpoint finalResponse (blocks : list AnthropicMessage.block) : string :=
  match blocks with
  | [] => EmptyString
  | AnthropicMessage.text t :: rest => t +:+ finalResponse rest
  | _ :: rest => finalResponse rest
  end.

(** [ask] (part_001 741-839) *)
Definition ask (fuel : nat) (question : string) : M string :=
  c ← read_this;
  if negb (isConnected c) then throw (new_Error "Client is not connected")
  else
    try_catch
      (push_history
         (AnthropicMessage.mk AnthropicMessage.user (AnthropicMessage.Str question)) ;;
       c ← read_this;
       let anthropicTools := convertMCPToolsToAnthropic (availableTools c) in
       response ← callAnthropic (conversationHistory c) anthropicTools;
       response ← ask_while fuel anthropicTools response;
       push_history (assistant_message response) ;;
       mret (finalResponse (AnthropicResponse.content response)))
      (fun error => throw error).
End Client.
End AnthropicClient.

(** ** Arrays as objects: [getHistory] and [get tools]

    [return [...this.conversationHistory]] (oai2.ts 343-345 and 836-838,
    part_001 846-848) and [return [...this.availableTools]] (oai2.ts
    351-353 and 844-846, part_001 854-856) build a new array object.
    Arrays live in a heap, the two private fields hold references, and
    the elements of an array (references to message and tool objects)
    are copied as they are. *)

Module Arrays.
Section Heap.
Context {Elem : Type}.
Local Abbreviation loc := nat.
Local Abbreviation heap := (gmap loc (list Elem)).

Record object : Type := mkObject {
  conversationHistory : loc;
  availableTools : loc
}.

(** The elements read by the spread [...a]. *)
Definition spread (h : heap) (a : loc) : list Elem := default [] (h !! a).

(** An array literal allocates a new array object. *)
Definition array_literal (elements : list Elem) (h : heap) : loc * heap :=
  let r := fresh (dom h) in (r, <[r := elements]> h).

Definition getHistory (this : object) (h : heap) : loc * heap :=
  array_literal (spread h (conversationHistory this)) h.

Definition tools (this : object) (h : heap) : loc * heap :=
  array_literal (spread h (availableTools this)) h.

(** Any in-place mutation of the array [a] ([push], [pop], [splice],
    [a[i] = x], [a.length = n], [sort], ...): its elements change, its
    identity does not. *)
Definition mutate (a : loc) (f : list Elem -> list Elem) (h : heap) : heap :=
  alter f a h.

(** [this.conversationHistory.push(x)] *)
Definition push (this : object) (x : Elem) (h : heap) : heap :=
  mutate (conversationHistory this) (fun l => l ++ [x]) h.

(** [this.conversationHistory = []] *)
Definition clearHistory (this : object) (h : heap) : object * heap :=
  let '(r, h') := array_literal [] h in
  (mkObject r (availableTools this), h').

(** The client's two fields refer to allocated arrays. *)
Definition allocated (this : object) (h : heap) : Prop :=
  is_Some (h !! conversationHistory this) /\ is_Some (h !! availableTools this).
End Heap.
End Arrays.

(** ** Concrete hosts, for running the clients *)

Module Demo.
Definition calculator_payload : value :=
  JObj [("content", JArr [JObj [("type", JStr "text"); ("text", JStr "Result: 2 + 2 = 4")]])].

Definition unknown_tool (name : string) : Error :=
  mkError "McpError" ("MCP error -32601: Unknown tool: " +:+ name).

(** A host whose tool server knows one tool, [calculator], and whose
    listing call fails.  [JSON_parse] agrees with [JSON.parse] on the two
    texts the runs below use: [{}] parses to the empty object, [{] is a
    syntax error.  The world counts the tool rounds the model still
    wants. *)
#[export] Instance host : Host := {|
  World := nat;
  JSON_parse := fun text =>
    if String.eqb text "{}" then Normal (JObj [])
    else Thrown (mkError "SyntaxError" "Unexpected end of JSON input");
  sdk_connect := fun w => (w, Normal tt);
  sdk_close := fun w => (w, Normal tt);
  sdk_listTools := fun w =>
    (w, Thrown (mkError "McpError" "MCP error -32000: Connection closed"));
  sdk_callTool := fun w name arguments_ =>
    if String.eqb name "calculator" then (w, Normal calculator_payload)
    else (w, Thrown (unknown_tool name))
|}.

Definition calculator : Tool.t :=
  Tool.mk "calculator" (Some "Perform basic mathematical calculations") None.

Definition connected {Msg : Type} (history : list Msg) : MCPClient Msg :=
  mkClient "model" 4000%Z [calculator] history true.

Definition start {Msg Req : Type} (rounds : nat) (history : list Msg) : machine Msg Req :=
  mkMachine (connected history) rounds [].

(** A client that has not connected yet. *)
Definition created {Msg Req : Type} : machine Msg Req :=
  mkMachine (mkClient "model" 4000%Z [] [] false) 0%nat [].

(** *** Completion endpoints in the OpenAI format *)

Definition tool_request (id name arguments_ : string) : OpenAIMessage.t :=
  OpenAIMessage.mk OpenAIMessage.assistant None
    (Some [OpenAIMessage.mkToolCall id "function"
             (OpenAIMessage.mkFunction name arguments_)])
    None.

Definition calculator_request : OpenAIMessage.t :=
  tool_request "call_1" "calculator" "{}".

Definition final (content : option string) : OpenAIMessage.t :=
  OpenAIMessage.mk OpenAIMessage.assistant content None None.

Definition success {Body : Type} (body : Body) : Response Body :=
  mkResponse true 200%Z EmptyString (Normal body).

(** A model that asks for the calculator on every round. *)
Definition always_tools (w : World) (request : OpenAIRequest.t)
  : World * completion (Response OpenAIMessage.t) :=
  (w, Normal (success calculator_request)).

(** A model that asks for the calculator as many times as the world
    says, then answers. *)
Definition tools_then_done (w : World) (request : OpenAIRequest.t)
  : World * completion (Response OpenAIMessage.t) :=
  match w with
  | O => (O, Normal (success (final (Some "The answer is 4."))))
  | S w' => (w', Normal (success calculator_request))
  end.

(** A model that asks once for what [first] says, then answers. *)
Definition once (first : OpenAIMessage.t) (w : World) (request : OpenAIRequest.t)
  : World * completion (Response OpenAIMessage.t) :=
  match w with
  | O => (O, Normal (success (final (Some "Sorry."))))
  | S w' => (w', Normal (success first))
  end.

(** An endpoint that rejects the credential. *)
Definition unauthorized (w : World) (request : OpenAIRequest.t)
  : World * completion (Response OpenAIMessage.t) :=
  (w, Normal (mkResponse false 401%Z "invalid_api_key"
                (Thrown (mkError "SyntaxError" "Unexpected token")))).

(** An endpoint that answers the first request and fails the second. *)
Definition fails_later (w : World) (request : OpenAIRequest.t)
  : World * completion (Response OpenAIMessage.t) :=
  match w with
  | O => (O, Normal (mkResponse false 500%Z "overloaded"
                       (Thrown (mkError "SyntaxError" "Unexpected token"))))
  | S w' => (w', Normal (success calculator_request))
  end.


(** *** The two members the draft client lacks *)




(** *** Completion endpoints in the Anthropic format *)



Definition anthropic_answers (reply : AnthropicResponse.t) (w : World)
           (request : AnthropicRequest.t)
  : World * completion (Response AnthropicResponse.t) :=
  (w, Normal (success reply)).

Definition anthropic_once (first : AnthropicResponse.t) (w : World)
           (request : AnthropicRequest.t)
  : World * completion (Response AnthropicResponse.t) :=
  match w with
  | O => (O, Normal (success (AnthropicResponse.mk [AnthropicMessage.text "Sorry."] "end_turn")))
  | S w' => (w', Normal (success first))
  end.
End Demo.
(** ** The machine a dispatch leaves *)

Section Dispatched.
Context {H : Host} {Req : Type}.

(** The machine a connected client is left in by the dispatch of one
    tool call in the OpenAI format (the loop body of oai2.ts 274-314 and
    769-809). *)
Definition dispatched (s : machine OpenAIMessage.t Req)
           (toolCall : OpenAIMessage.tool_call) : machine OpenAIMessage.t Req :=
  let name := OpenAIMessage.name (OpenAIMessage.function toolCall) in
  match JSON_parse (OpenAIMessage.arguments (OpenAIMessage.function toolCall)) with
  | Thrown e =>
      pushed (OpenAIClient.tool_message ("Error: " +:+ message e)
                (OpenAIMessage.id toolCall)) s
  | Normal args =>
      let '(w, r) := sdk_callTool (world s) name args in
      pushed (OpenAIClient.tool_message (tool_text r) (OpenAIMessage.id toolCall))
             (called (EvCallTool name args) w s)
  end.

(** The invocation a tool call leads to, if its arguments parse. *)
Definition invocation_of (toolCall : OpenAIMessage.tool_call) : option (string * value) :=
  match JSON_parse (OpenAIMessage.arguments (OpenAIMessage.function toolCall)) with
  | Thrown _ => None
  | Normal args => Some (OpenAIMessage.name (OpenAIMessage.function toolCall), args)
  end.

(** The [is_error] field of the tool result the Anthropic client
    builds: present, and [true], in the [catch] branch only. *)
Definition is_error_of (r : completion value) : option bool :=
  match r with
  | Normal payload =>
      match resultContent payload with
      | Normal _ => None
      | Thrown _ => Some true
      end
  | Thrown _ => Some true
  end.

(** The same for a content block of the Anthropic format (the loop body
    of part_001 766-803): the local array [toolResults] and the machine. *)
Definition dispatched_block
           (st : list AnthropicMessage.block * machine AnthropicMessage.t Req)
           (contentBlock : AnthropicMessage.block)
  : list AnthropicMessage.block * machine AnthropicMessage.t Req :=
  match contentBlock with
  | AnthropicMessage.tool_use id name input =>
      let '(w, r) := sdk_callTool (world st.2) name input in
      (st.1 ++ [AnthropicMessage.tool_result id (tool_text r) (is_error_of r)],
       called (EvCallTool name input) w st.2)
  | _ => st
  end.

(** The machine at the end of the dispatch phase of one round of the
    OpenAI format: the assistant turn, then one dispatch per call. *)
Definition after_dispatch (response : OpenAIMessage.t)
           (s : machine OpenAIMessage.t Req) : machine OpenAIMessage.t Req :=
  fold_left dispatched (default [] (OpenAIMessage.tool_calls response))
            (pushed (OpenAIClient.assistant_tool_message response) s).

Definition tool_use_id_of (b : AnthropicMessage.block) : option string :=
  match b with
  | AnthropicMessage.tool_use id _ _ => Some id
  | _ => None
  end.

Definition tool_result_id_of (b : AnthropicMessage.block) : option string :=
  match b with
  | AnthropicMessage.tool_result id _ _ => Some id
  | _ => None
  end.

Definition block_invocation_of (b : AnthropicMessage.block) : option (string * value) :=
  match b with
  | AnthropicMessage.tool_use _ name input => Some (name, input)
  | _ => None
  end.
End Dispatched.

(** ** The statements of the specification

    The rules of the specification in its own words, to be compared
    with the code. *)

(** The [content] of a tool result. *)
Definition content_of (payload : value) : option value :=
  match payload with
  | JObj fields => assoc "content" fields
  | _ => None
  end.

(** What an item of a content array contributes: its [text] when its
    [type] is ['text'] (nothing when it has none), its JSON
    serialization otherwise. *)
Definition item_text (item : value) : string :=
  match item with
  | JObj fields =>
      if is_text_type (assoc "type" fields) then
        match assoc "text" fields with
        | Some (JStr t) => t
        | Some JNull | None => EmptyString
        | Some other => ToString other
        end
      else JSON_stringify item
  | _ => JSON_stringify item
  end.

(** The normalization rule of the specification (4.3): a content array
    is joined, a bare string is used as it is, anything else is the
    serialization of the whole payload. *)
Definition spec_resultContent (payload : value) : string :=
  match content_of payload with
  | Some (JArr items) => join_strings newline (map item_text items)
  | Some (JStr s) => s
  | _ => JSON_stringify payload
  end.

(** The description of the specification (4.1): the default replaces an
    absent description only. *)
Definition spec_description (tool : Tool.t) : string :=
  match Tool.description tool with
  | Some d => d
  | None => "Execute " +:+ Tool.name tool
  end.

(** [r], allocated in [h'], is a fresh copy of the array [a] of [h]:
    [r] is new, holds the elements of [a], every array of [h] is as it
    was, and stays so under any mutation of [r]. *)
Definition fresh_copy_of {Elem : Type} (a : nat) (h : gmap nat (list Elem))
           (r : nat) (h' : gmap nat (list Elem)) : Prop :=
  h !! r = None
  /\ Arrays.spread h' r = Arrays.spread h a
  /\ (forall b, is_Some (h !! b) -> h' !! b = h !! b)
  /\ (forall f b, is_Some (h !! b) -> Arrays.mutate r f h' !! b = h !! b).

(** ** The completion requests of a run *)

(** The bodies of the completion requests in a call log, oldest first. *)
Definition requests {Req : Type} (evs : list (event Req)) : list Req :=
  omap (fun ev => match ev with EvFetch body => Some body | _ => None end) evs.

(** An entry of [transformMCPToolsToOpenAI] that holds what an entry of
    [convertMCPToolsToOpenAI] holds. *)
Definition as_transformed (entry : OpenAITool.t) : Transformer.t :=
  Transformer.mk (OpenAITool.type entry)
    (Transformer.mkFunction
       (OpenAITool.name (OpenAITool.function entry))
       (Some (OpenAITool.description (OpenAITool.function entry)))
       (Some (OpenAITool.parameters (OpenAITool.function entry)))).

(** ** The calculator server (unnamed/part_001, lines 1-152)

    Numbers are the integral ones, on which [+], [-] and [*] are exact
    up to 2^53; the text of a quotient that is not an integer is a
    parameter of [handler]. *)

Module CalculatorServer.
(** The result of [calculate]: an integer, or the quotient [a / b] of
    two integers, [b] not 0. *)
Inductive number : Type :=
| Integer (z : Z)
| Quotient (a b : Z).

(** [v === s] for a string literal [s]. *)
Definition is_string (v : value) (s : string) : bool :=
  match v with
  | JStr t => String.eqb t s
  | _ => false
  end.

(** [calculate] (part_001 50-66); the [switch] compares with [===]. *)
Definition calculate (operation : value) (a b : Z) : completion number :=
  if is_string operation "add" then Normal (Integer (a + b))
  else if is_string operation "subtract" then Normal (Integer (a - b))
  else if is_string operation "multiply" then Normal (Integer (a * b))
  else if is_string operation "divide" then
    if (b =? 0)%Z then Thrown (new_Error "Cannot divide by zero")
    else Normal (Quotient a b)
  else Thrown (new_Error ("Unknown operation: " +:+ ToString operation)).

(** The sign in the result text (part_001 100). *)
Definition sign (operation : value) : string :=
  if is_string operation "add" then "+"
  else if is_string operation "subtract" then "-"
  else if is_string operation "multiply" then "×"
  else "÷".

Definition text_payload (text : string) (isError : bool) : value :=
  JObj ([("content", JArr [JObj [("type", JStr "text"); ("text", JStr text)]])]
          ++ if isError then [("isError", JBool true)] else []).

Section Handler.
(** [String(a / b)] for a quotient that is not an integer. *)
Variable fraction_text : Z -> Z -> string.

(** [`${result}`] *)
Definition number_text (n : number) : string :=
  match n with
  | Integer z => string_of_Z z
  | Quotient a b =>
      if (a mod b =? 0)%Z then string_of_Z (a / b) else fraction_text a b
  end.

(** [const { operation, a, b } = request.params.arguments] *)
Definition destructure (arguments_ : option value)
  : completion (option value * option value * option value) :=
  match arguments_ with
  | None =>
      Thrown (new_TypeError
                "Cannot destructure property 'operation' of 'request.params.arguments' as it is undefined.")
  | Some JNull =>
      Thrown (new_TypeError
                "Cannot destructure property 'operation' of 'request.params.arguments' as it is null.")
  | Some (JObj fields) =>
      Normal (assoc "operation" fields, assoc "a" fields, assoc "b" fields)
  | Some _ => Normal (None, None, None)
  end.

(** The handler of tool calls (part_001 77-122). *)
Definition handler (name : string) (arguments_ : option value) : completion value :=
  if negb (String.eqb name "calculator") then
    Thrown (new_Error ("Unknown tool: " +:+ name))
  else
    match destructure arguments_ with
    | Thrown e => Thrown e
    | Normal (operation, a, b) =>
        match truthy operation, operation, a, b with
        | true, Some operation, Some (JNum a), Some (JNum b) =>
            match calculate operation a b with
            | Normal result =>
                Normal (text_payload
                          ("Result: " +:+ string_of_Z a +:+ " " +:+ sign operation +:+ " "
                             +:+ string_of_Z b +:+ " = " +:+ number_text result)
                          false)
            | Thrown error =>
                Normal (text_payload ("Error: " +:+ message error) true)
            end
        | _, _, _, _ =>
            Thrown (new_Error
                      "Invalid arguments. Required: operation (string), a (number), b (number)")
        end
    end.
End Handler.
End CalculatorServer.

(** ** The simple server (unnamed/part_000)

    [eval] and the formatting of the current time are parameters. *)

Module SimpleServer.
Inductive ErrorCode : Type := MethodNotFound | InternalError | InvalidParams.

(** What a handler throws: an [McpError], or another error. *)
Inductive thrown : Type :=
| Mcp (code : ErrorCode) (message : string)
| Js (e : Error).

Inductive result (A : Type) : Type :=
| Done (a : A)
| Raise (t : thrown).
Arguments Done {A} a.
Arguments Raise {A} t.

(** A property of [args] in a destructuring pattern: a TypeError when
    [args] is [undefined] or [null]. *)
Definition field (args : option value) (k : string) : result (option value) :=
  match args with
  | None =>
      Raise (Js (new_TypeError ("Cannot destructure property '" +:+ k
                                  +:+ "' of 'args' as it is undefined.")))
  | Some JNull =>
      Raise (Js (new_TypeError ("Cannot destructure property '" +:+ k
                                  +:+ "' of 'args' as it is null.")))
  | Some (JObj fields) => Done (assoc k fields)
  | Some _ => Done None
  end.

(** [`${x}`] *)
Definition template (x : option value) : string :=
  match x with
  | None => "undefined"
  | Some v => ToString v
  end.

Definition text_content (text : string) : value :=
  JObj [("content", JArr [JObj [("type", JStr "text"); ("text", JStr text)]])].

Definition is_celsius (unit : option value) : bool :=
  match unit with
  | Some (JStr u) => String.eqb u "celsius"
  | _ => false
  end.

(** [mockWeather] (part_000 135-142) *)
Record Weather : Type := mkWeather {
  location : option value;
  temperature : Z;
  condition : string;
  humidity : Z;
  windSpeed : Z;
  unit : string
}.

Definition mockWeather (location unit : option value) : Weather :=
  mkWeather location (if is_celsius unit then 22 else 72) "Partly cloudy" 65 8
            (if is_celsius unit then "°C" else "°F").

(** [handleGetWeather] (part_000 130-158); the default of [unit] applies
    to an absent property.  The lines of the text are separated by a
    newline. *)
Definition handleGetWeather (args : option value) : result value :=
  match field args "location" with
  | Raise t => Raise t
  | Done location =>
      match field args "unit" with
      | Raise t => Raise t
      | Done unit0 =>
          let unit := match unit0 with None => Some (JStr "celsius") | Some u => Some u end in
          let w := mockWeather location unit in
          Done (text_content
                  ("Weather in " +:+ template location +:+ ":" +:+ newline
                     +:+ "Temperature: " +:+ string_of_Z (temperature w) +:+ SimpleServer.unit w
                     +:+ newline
                     +:+ "Condition: " +:+ condition w +:+ newline
                     +:+ "Humidity: " +:+ string_of_Z (humidity w) +:+ "%" +:+ newline
                     +:+ "Wind Speed: " +:+ string_of_Z (windSpeed w) +:+ " "
                     +:+ (if is_celsius unit then "km/h" else "mph")))
      end
  end.

(** The characters that [/[^0-9+\-*/.() ]/g] keeps. *)
Definition allowed (c : ascii) : bool :=
  let n := nat_of_ascii c in
  ((48 <=? n) && (n <=? 57))%nat
  || (n =? 43)%nat || (n =? 45)%nat || (n =? 42)%nat || (n =? 47)%nat
  || (n =? 46)%nat || (n =? 40)%nat || (n =? 41)%nat || (n =? 32)%nat.

(** [expression.replace(/[^0-9+\-*/.() ]/g, '')] *)
Fixpoint sanitize (expression : string) : string :=
  match expression with
  | EmptyString => EmptyString
  | String c rest => if allowed c then String c (sanitize rest) else sanitize rest
  end.

Section Handlers.
(** [`${eval(code)}`]: the text of the value, or the error [eval] throws. *)
Variable js_eval : string -> completion string.
(** [now.toLocaleString('en-US', { timeZone, ... })], which throws a
    RangeError for a time zone it does not know. *)
Variable toLocaleString : string -> completion string.

(** [handleCalculate] (part_000 160-191) *)
Definition handleCalculate (args : option value) : result value :=
  match field args "expression" with
  | Raise t => Raise t
  | Done expression =>
      let attempt : completion string :=
        match expression with
        | Some (JStr e) =>
            let sanitizedExpression := sanitize e in
            if negb (String.eqb sanitizedExpression e) then
              Thrown (new_Error "Invalid characters in expression")
            else js_eval sanitizedExpression
        | None =>
            Thrown (new_TypeError "Cannot read properties of undefined (reading 'replace')")
        | Some JNull =>
            Thrown (new_TypeError "Cannot read properties of null (reading 'replace')")
        | Some _ => Thrown (new_TypeError "expression.replace is not a function")
        end in
      match attempt with
      | Normal r => Done (text_content (template expression +:+ " = " +:+ r))
      | Thrown error =>
          Raise (Mcp InvalidParams ("Invalid mathematical expression: " +:+ message error))
      end
  end.

(** [handleGetTime] (part_000 193-227); a time zone that is not a string
    is passed on as its text. *)
Definition handleGetTime (args : option value) : result value :=
  match field args "timezone" with
  | Raise t => Raise t
  | Done timezone0 =>
      let timezone := match timezone0 with None => Some (JStr "UTC") | Some z => Some z end in
      match toLocaleString (template timezone) with
      | Normal timeString =>
          Done (text_content ("Current time in " +:+ template timezone +:+ ": " +:+ timeString))
      | Thrown _ => Raise (Mcp InvalidParams ("Invalid timezone: " +:+ template timezone))
      end
  end.

(** The handler of tool calls (part_000 95-125). *)
Definition callToolHandler (name : string) (args : option value) : result value :=
  let attempt :=
    if String.eqb name "get_weather" then handleGetWeather args
    else if String.eqb name "calculate" then handleCalculate args
    else if String.eqb name "get_time" then handleGetTime args
    else Raise (Mcp MethodNotFound ("Unknown tool: " +:+ name)) in
  match attempt with
  | Done payload => Done payload
  | Raise (Mcp code m) => Raise (Mcp code m)
  | Raise (Js e) => Raise (Mcp InternalError ("Tool execution failed: " +:+ message e))
  end.
End Handlers.
End SimpleServer.

(** ** The file server (unnamed/part_001, lines 185-262)

    [fs.readFile] is a parameter. *)

Module FileServer.
Section Handler.
(** [import('fs/promises')] and [fs.readFile(filepath, 'utf-8')]: the
    content of the file, or the error that any of the two rejects with. *)
Variable readFile : option value -> completion string.

(** [const { filepath } = request.params.arguments] *)
Definition destructure (arguments_ : option value) : completion (option value) :=
  match arguments_ with
  | None =>
      Thrown (new_TypeError
                "Cannot destructure property 'filepath' of 'request.params.arguments' as it is undefined.")
  | Some JNull =>
      Thrown (new_TypeError
                "Cannot destructure property 'filepath' of 'request.params.arguments' as it is null.")
  | Some (JObj fields) => Normal (assoc "filepath" fields)
  | Some _ => Normal None
  end.

(** The handler of tool calls (part_001 224-253). *)
Definition handler (name : string) (arguments_ : option value) : completion value :=
  if negb (String.eqb name "read_file") then
    Thrown (new_Error ("Unknown tool: " +:+ name))
  else
    match destructure arguments_ with
    | Thrown e => Thrown e
    | Normal filepath =>
        match readFile filepath with
        | Normal content =>
            Normal (CalculatorServer.text_payload
                      ("File content of " +:+ SimpleServer.template filepath +:+ ":"
                         +:+ newline +:+ newline +:+ content)
                      false)
        | Thrown error =>
            Normal (CalculatorServer.text_payload
                      ("Error reading file: " +:+ message error) true)
        end
    end.
End Handler.
End FileServer.

(** ** The mock weather server (unnamed/part_001, lines 274-349)

    The three random draws are parameters.  The arithmetic of the
    temperature is that of the rationals: [mockTemp * 9 / 5] is a
    multiple of 1/5, which the floating-point result is too close to
    for [Math.round] to tell apart. *)

Module WeatherServer.
(** [Math.round]: the nearest integer, a half going up. *)
Definition Math_round (x : Q) : Z := Qfloor (x + (1 # 2)).

Definition is_fahrenheit (units : option value) : bool :=
  match units with
  | Some (JStr u) => String.eqb u "fahrenheit"
  | _ => false
  end.

Definition conditions_table : list string := ["sunny"; "cloudy"; "rainy"; "snowy"].

(** [const { city, units = "celsius" } = request.params.arguments] *)
Definition destructure (arguments_ : option value)
  : completion (option value * option value) :=
  match arguments_ with
  | None =>
      Thrown (new_TypeError
                "Cannot destructure property 'city' of 'request.params.arguments' as it is undefined.")
  | Some JNull =>
      Thrown (new_TypeError
                "Cannot destructure property 'city' of 'request.params.arguments' as it is null.")
  | Some (JObj fields) =>
      Normal (assoc "city" fields,
              match assoc "units" fields with
              | None => Some (JStr "celsius")
              | Some u => Some u
              end)
  | Some _ => Normal (None, Some (JStr "celsius"))
  end.

Section Handler.
(** [Math.floor(Math.random() * 30)], [Math.floor(Math.random() * 4)]
    and [Math.floor(Math.random() * 50)], in the order the handler
    draws them. *)
Variables roll30 roll4 roll50 : nat.

Definition mockTemp : Z := Z.of_nat roll30 + 10.
Definition conditions : option value := JStr <$> nth_error conditions_table roll4.
Definition humidity : Z := Z.of_nat roll50 + 30.

Definition tempInUnits (units : option value) : Z :=
  if is_fahrenheit units then Math_round (inject_Z mockTemp * 9 / 5 + 32)%Q
  else mockTemp.

Definition unitSymbol (units : option value) : string :=
  if is_fahrenheit units then "°F" else "°C".

(** The handler of tool calls (part_001 318-342). *)
Definition handler (name : string) (arguments_ : option value) : completion value :=
  if negb (String.eqb name "get_weather") then
    Thrown (new_Error ("Unknown tool: " +:+ name))
  else
    match destructure arguments_ with
    | Thrown e => Thrown e
    | Normal (city, units) =>
        Normal (CalculatorServer.text_payload
                  (("Weather in " +:+ SimpleServer.template city +:+ ":" +:+ newline)
                     +:+ ("Temperature: " +:+ string_of_Z (tempInUnits units)
                            +:+ unitSymbol units +:+ newline)
                     +:+ ("Conditions: " +:+ SimpleServer.template conditions +:+ newline)
                     +:+ ("Humidity: " +:+ string_of_Z humidity +:+ "%" +:+ newline)
                     +:+ "(Note: This is mock data for demonstration)")
                  false)
    end.
End Handler.
End WeatherServer.

(** ** The REST gateway (llm-service.ts)

    The gateway keeps one client per session.  The class of the client
    ([MCPClient] of [./client.js]) enters through its constructor and
    its [ask]; [connect], [disconnect] and the accessors are those all
    copies of the class share.  [uuidv4] and the clock are external
    calls.  A handler is followed from its first statement to its reply
    with no other request handled in between. *)

Module Gateway.
(** [error instanceof Error ? error.message : 'Unknown error'] *)
Definition details_of (error : Error) : string := message error.

(** [sessionTimeout] (llm-service.ts 45) *)
Definition sessionTimeout : Z := 30 * 60 * 1000.

Section Api.
(** [Config], [PartialConfig]: [SessionConfig] and [Partial<SessionConfig>] *)
Context {H : Host} {Msg Req Config PartialConfig : Type}.
(** The spread [{ ...this.defaultConfig, ...config }] *)
Variable spread : Config -> option PartialConfig -> Config.
(** [new MCPClient(options)] and [client.ask(message)] *)
Variable new_MCPClient : Config -> MCPClient Msg.
Variable ask : nat -> string -> M Msg Req string.
(** [uuidv4()]; [new Date()] and [Date.now()], in milliseconds *)
Variable uuidv4 : World -> World * string.
Variable Date_now : World -> World * Z.
Variable defaultConfig : Config.

(** [SessionInfo] (llm-service.ts 34-39) *)
Record SessionInfo : Type := mkSession {
  client : MCPClient Msg;
  config : Config;
  createdAt : Z;
  lastUsed : Z
}.

Definition set_client (c : MCPClient Msg) (session : SessionInfo) : SessionInfo :=
  mkSession c (config session) (createdAt session) (lastUsed session).
Definition set_lastUsed (t : Z) (session : SessionInfo) : SessionInfo :=
  mkSession (client session) (config session) (createdAt session) t.

(** The [Map] of sessions: its entries in insertion order. *)
Fixpoint Map_get (id : string) (m : list (string * SessionInfo)) : option SessionInfo :=
  match m with
  | [] => None
  | (k, v) :: rest => if String.eqb id k then Some v else Map_get id rest
  end.

Fixpoint Map_set (id : string) (session : SessionInfo) (m : list (string * SessionInfo))
  : list (string * SessionInfo) :=
  match m with
  | [] => [(id, session)]
  | (k, v) :: rest =>
      if String.eqb id k then (k, session) :: rest else (k, v) :: Map_set id session rest
  end.

Fixpoint Map_delete (id : string) (m : list (string * SessionInfo))
  : list (string * SessionInfo) :=
  match m with
  | [] => []
  | (k, v) :: rest =>
      if String.eqb id k then Map_delete id rest else (k, v) :: Map_delete id rest
  end.

(** The gateway: its sessions, the world outside, and the external
    calls made so far, each with the session whose client made it. *)
Record api : Type := mkApi {
  sessions : list (string * SessionInfo);
  outside : World;
  log : list (string * event Req)
}.

Definition set_sessions (m : list (string * SessionInfo)) (g : api) : api :=
  mkApi m (outside g) (log g).

(** A method of the client of a session: the client after it, and the
    gateway with the world and the log moved on. *)
Definition on_client {A : Type} (id : string) (c : MCPClient Msg) (method : M Msg Req A)
           (g : api) : outcome A * MCPClient Msg * api :=
  let '(r, s) := method (mkMachine c (outside g) []) in
  (r, this s, mkApi (sessions g) (world s) (log g ++ map (pair id) (calls s))).

(** The same on the session object the map holds, which it changes. *)
Definition on_session {A : Type} (id : string) (session : SessionInfo)
           (method : M Msg Req A) (g : api) : outcome A * SessionInfo * api :=
  let '(r, c, g') := on_client id (client session) method g in
  let session' := set_client c session in
  (r, session', set_sessions (Map_set id session' (sessions g')) g').

Definition tick (g : api) : Z * api :=
  let '(w, t) := Date_now (outside g) in (t, mkApi (sessions g) w (log g)).

(** What [res.json] is given. *)
Record SessionSummary : Type := mkSummary {
  summary_sessionId : string;
  summary_createdAt : Z;
  summary_lastUsed : Z;
  summary_conversationLength : nat;
  summary_toolsCount : nat;
  summary_connected : bool
}.

Inductive body : Type :=
| ErrorBody (error : string) (details : option string)
| ChatBody (response sessionId : string) (conversationLength : nat)
           (toolsUsed : list string)
| SessionsBody (sessions : list SessionSummary) (count : nat)
| MessageBody (message : string)
| ClearedBody (message sessionId : string) (conversationLength : nat)
| ToolsBody (sessionId : string) (tools : list Tool.t) (count : nat)
| HistoryBody (sessionId : string) (history : list Msg) (length : nat).

(** A reply: the status, 200 unless [res.status] sets it, and the body. *)
Record reply : Type := mkReply { status_code : Z; json_body : body }.

Definition not_found : reply := mkReply 404 (ErrorBody "Session not found" None).

(** [createMCPAssistant(sessionConfig)] for the session [id]: the
    client is constructed and connected. *)
Definition createMCPAssistant (id : string) (options : Config) (g : api)
  : outcome unit * MCPClient Msg * api :=
  on_client id (new_MCPClient options) connect g.

(** [sessionId || uuidv4()] *)
Definition finalSessionId (sessionId : option string) (g : api) : string * api :=
  match sessionId with
  | Some id =>
      if negb (String.eqb id EmptyString) then (id, g)
      else let '(w, id') := uuidv4 (outside g) in (id', mkApi (sessions g) w (log g))
  | None => let '(w, id') := uuidv4 (outside g) in (id', mkApi (sessions g) w (log g))
  end.

(** The second half of [handleChat] (llm-service.ts 135-156), with the
    outer [catch] (158-164). *)
Definition chat_in_session (fuel : nat) (question id : string) (session : SessionInfo)
           (g : api) : outcome reply * api :=
  let '(now, g) := tick g in
  let session := set_lastUsed now session in
  let g := set_sessions (Map_set id session (sessions g)) g in
  let '(startTime, g) := tick g in
  let '(r, session, g) := on_session id session (ask fuel question) g in
  match r with
  | Return response =>
      let '(finished, g) := tick g in
      (Return (mkReply 200
                 (ChatBody response id
                    (List.length (conversationHistory (client session)))
                    (map Tool.name (availableTools (client session))))),
       g)
  | Throw error =>
      (Return (mkReply 500
                 (ErrorBody "Failed to process message" (Some (details_of error)))),
       g)
  | Diverge => (Diverge, g)
  end.

(** [handleChat] (llm-service.ts 99-165); the arguments are the three
    properties of [req.body], [sessionId] a string when present. *)
Definition handleChat (fuel : nat) (message : option value) (sessionId : option string)
           (config : option PartialConfig) (g : api) : outcome reply * api :=
  match message with
  | Some (JStr question) =>
      if String.eqb question EmptyString then
        (Return (mkReply 400 (ErrorBody "Message is required and must be a string" None)), g)
      else
        let '(id, g) := finalSessionId sessionId g in
        match Map_get id (sessions g) with
        | Some session => chat_in_session fuel question id session g
        | None =>
            let sessionConfig := spread defaultConfig config in
            let '(r, c, g) := createMCPAssistant id sessionConfig g in
            match r with
            | Return _ =>
                let '(created, g) := tick g in
                let '(used, g) := tick g in
                let session := mkSession c sessionConfig created used in
                chat_in_session fuel question id session
                  (set_sessions (Map_set id session (sessions g)) g)
            | Throw error =>
                (Return (mkReply 500
                           (ErrorBody "Failed to initialize MCP client"
                              (Some (details_of error)))),
                 g)
            | Diverge => (Diverge, g)
            end
        end
  | _ => (Return (mkReply 400 (ErrorBody "Message is required and must be a string" None)), g)
  end.

(** [listSessions] (llm-service.ts 167-178) *)
Definition summary (entry : string * SessionInfo) : SessionSummary :=
  mkSummary entry.1 (createdAt entry.2) (lastUsed entry.2)
            (List.length (conversationHistory (client entry.2)))
            (List.length (availableTools (client entry.2)))
            (isConnected (client entry.2)).

Definition listSessions (g : api) : outcome reply * api :=
  let sessions := map summary (sessions g) in
  (Return (mkReply 200 (SessionsBody sessions (List.length sessions))), g).

(** [deleteSession] (llm-service.ts 180-198) *)
Definition deleteSession (sessionId : string) (g : api) : outcome reply * api :=
  match Map_get sessionId (sessions g) with
  | None => (Return not_found, g)
  | Some session =>
      let '(r, session, g) := on_session sessionId session disconnect g in
      match r with
      | Return _ =>
          (Return (mkReply 200 (MessageBody "Session deleted successfully")),
           set_sessions (Map_delete sessionId (sessions g)) g)
      | Throw error => (Return (mkReply 500 (ErrorBody "Failed to delete session" None)), g)
      | Diverge => (Diverge, g)
      end
  end.

(** [clearSession] (llm-service.ts 200-217) *)
Definition clearSession (sessionId : string) (g : api) : outcome reply * api :=
  match Map_get sessionId (sessions g) with
  | None => (Return not_found, g)
  | Some session =>
      let '(r, session, g) := on_session sessionId session clearHistory g in
      match r with
      | Return _ =>
          let '(now, g) := tick g in
          (Return (mkReply 200 (ClearedBody "Session history cleared" sessionId 0)),
           set_sessions (Map_set sessionId (set_lastUsed now session) (sessions g)) g)
      | Throw error => (Throw error, g)
      | Diverge => (Diverge, g)
      end
  end.

(** [getSessionTools] (llm-service.ts 219-233) *)
Definition getSessionTools (sessionId : string) (g : api) : outcome reply * api :=
  match Map_get sessionId (sessions g) with
  | None => (Return not_found, g)
  | Some session =>
      let tools := availableTools (client session) in
      (Return (mkReply 200 (ToolsBody sessionId tools (List.length tools))), g)
  end.

(** [getSessionHistory] (llm-service.ts 235-250) *)
Definition getSessionHistory (sessionId : string) (g : api) : outcome reply * api :=
  match Map_get sessionId (sessions g) with
  | None => (Return not_found, g)
  | Some session =>
      let history := conversationHistory (client session) in
      (Return (mkReply 200 (HistoryBody sessionId history (List.length history))), g)
  end.

(** The periodic task of [startCleanupTask] (llm-service.ts 262-290):
    the ids are collected first, then each session is disconnected and,
    if that succeeds, deleted. *)
Definition expired (now : Z) (session : SessionInfo) : bool :=
  (sessionTimeout <? now - lastUsed session)%Z.

Definition sessionsToDelete (now : Z) (m : list (string * SessionInfo)) : list string :=
  map fst (filter (fun entry => expired now entry.2) m).

Definition cleanup_session (g : api) (sessionId : string) : api :=
  match Map_get sessionId (sessions g) with
  | None => g
  | Some session =>
      let '(r, session, g) := on_session sessionId session disconnect g in
      match r with
      | Return _ => set_sessions (Map_delete sessionId (sessions g)) g
      | _ => g
      end
  end.

Definition cleanup (g : api) : api :=
  let '(now, g) := tick g in
  fold_left cleanup_session (sessionsToDelete now (sessions g)) g.

(** [shutdown] (llm-service.ts 294-305): every client is disconnected,
    a failure being logged only, and the map is cleared. *)
Definition shutdown (g : api) : api :=
  let g' :=
    fold_left (fun g entry => (on_session entry.1 entry.2 disconnect g).2) (sessions g) g in
  mkApi [] (outside g') (log g').
End Api.
End Gateway.

(** ** Requests the servers validate *)

(** The arguments the calculator accepts: an object whose [operation]
    is truthy and whose [a] and [b] are numbers. *)
Definition calculator_arguments (arguments_ : option value)
           (operation : value) (a b : Z) : Prop :=
  exists fields,
    arguments_ = Some (JObj fields)
    /\ assoc "operation" fields = Some operation
    /\ truthy (Some operation) = true
    /\ assoc "a" fields = Some (JNum a)
    /\ assoc "b" fields = Some (JNum b).

(** The four operations of the calculator. *)
Definition known_operation (operation : value) : Prop :=
  operation = JStr "add" \/ operation = JStr "subtract"
  \/ operation = JStr "multiply" \/ operation = JStr "divide".

(** A text begins with another. *)
Definition begins_with (start text : string) : Prop :=
  exists rest, text = start +:+ rest.

(** Every character of a text passes a test. *)
Fixpoint every (test : ascii -> bool) (text : string) : bool :=
  match text with
  | EmptyString => true
  | String c rest => test c && every test rest
  end.

(** ** What a run adds *)

(** The machine [s'] is [s] with the turns [more] appended to the
    history and the calls [new] appended to the call log; the other
    fields of the client are those of [s]. *)
Definition extends {H : Host} {Msg Req : Type} (s s' : machine Msg Req)
           (more : list Msg) (new : list (event Req)) : Prop :=
  this s' = set_conversationHistory (history s ++ more) (this s)
  /\ calls s' = calls s ++ new.

(** ** More concrete hosts *)

Module DemoMore.
(** A completion endpoint that cannot be reached. *)
Definition offline (w : @World Demo.host) (request : OpenAIRequest.t)
  : @World Demo.host * completion (Response OpenAIMessage.t) :=
  (w, Thrown (mkError "TypeError" "fetch failed")).

(** A host like [Demo.host] whose listing call answers with the
    calculator and whose [close] fails in the world 1. *)
Definition listing_host : Host := {|
  World := nat;
  JSON_parse := @JSON_parse Demo.host;
  sdk_connect := fun w => (w, Normal tt);
  sdk_close := fun w =>
    match w with
    | 1%nat => (w, Thrown (mkError "Error" "Not connected"))
    | _ => (w, Normal tt)
    end;
  sdk_listTools := fun w => (w, Normal (Some [Demo.calculator]));
  sdk_callTool := @sdk_callTool Demo.host
|}.

(** A client of that host that has not connected yet. *)
Definition created {Msg Req : Type} : @machine listing_host Msg Req :=
  @mkMachine listing_host Msg Req (mkClient "model" 4000%Z [] [] false)
    (0%nat : @World listing_host) [].
End DemoMore.

(** A gateway to run: the clock stands at half an hour, the
    configuration is empty, the client is that of part_001. *)
Module DemoGateway.
Definition uuidv4 {H : Host} (w : World) : World * string := (w, "generated").
Definition Date_now {H : Host} (w : World) : World * Z := (w, 1800000%Z).
Definition spread (defaults : unit) (config : option unit) : unit := defaults.
Definition new_MCPClient (options : unit) : MCPClient AnthropicMessage.t :=
  mkClient "model" 4000%Z [] [] false.

Definition hello : AnthropicResponse.t :=
  AnthropicResponse.mk [AnthropicMessage.text "Hello."] "end_turn".

(** An endpoint that answers [hello]. *)
Definition greets {H : Host} (w : World) (request : AnthropicRequest.t)
  : World * completion (Response AnthropicResponse.t) :=
  (w, Normal (Demo.success hello)).

(** An endpoint that rejects the credential. *)
Definition unauthorized {H : Host} (w : World) (request : AnthropicRequest.t)
  : World * completion (Response AnthropicResponse.t) :=
  (w, Normal (mkResponse false 401%Z "invalid x-api-key"
                (Thrown (mkError "SyntaxError" "Unexpected token")))).

Definition earlier : AnthropicMessage.t :=
  AnthropicMessage.mk AnthropicMessage.user (AnthropicMessage.Str "earlier question").

Definition session (history : list AnthropicMessage.t) (lastUsed : Z)
  : @Gateway.SessionInfo AnthropicMessage.t unit :=
  Gateway.mkSession (Demo.connected history) tt 0%Z lastUsed.

(** Two sessions, the second one idle for a millisecond longer than
    the first. *)
Definition two (H : Host) (w : @World H)
  : @Gateway.api H AnthropicMessage.t AnthropicRequest.t unit :=
  Gateway.mkApi [("s1", session [earlier] 0%Z); ("s2", session [] (-1)%Z)] w [].

Definition none (H : Host) (w : @World H)
  : @Gateway.api H AnthropicMessage.t AnthropicRequest.t unit :=
  Gateway.mkApi [] w [].

Definition handleChat {H : Host}
           (fetch : World -> AnthropicRequest.t
                    -> World * completion (Response AnthropicResponse.t)) :=
  Gateway.handleChat spread new_MCPClient (AnthropicClient.ask fetch) uuidv4 Date_now tt.

(** A host whose tool server cannot be started. *)
Definition down : Host := {|
  World := unit;
  JSON_parse := @JSON_parse Demo.host;
  sdk_connect := fun w => (w, Thrown (mkError "Error" "spawn node ENOENT"));
  sdk_close := fun w => (w, Normal tt);
  sdk_listTools := fun w => (w, Normal None);
  sdk_callTool := fun w name arguments_ => (w, Thrown (Demo.unknown_tool name))
|}.
End DemoGateway.

(** * Facts about the pure functions *)

Lemma prop_content payload : payload <> JNull -> prop payload "content" = Normal (content_of payload).
Proof. destruct payload; simpl; congruence. Qed.

Lemma render_item_text item :
  item <> JNull -> exists r, render_item item = Normal r /\ join_element r = item_text item.
Proof.
  intros Hnn. destruct item as [| b | n | s | items | fields]; try congruence;
    try (eexists; split; [reflexivity|reflexivity]).
  unfold render_item, item_text, prop.
  destruct (is_text_type (assoc "type" fields)) eqn:Hty.
  - eexists; split; [reflexivity|].
    destruct (assoc "text" fields) as [[| | | | |]|]; reflexivity.
  - eexists; split; reflexivity.
Qed.

Lemma Array_map_render items :
  Forall (fun item => item <> JNull) items ->
  exists rendered, Array_map render_item items = Normal rendered
                   /\ map join_element rendered = map item_text items.
Proof.
  induction 1 as [| item items Hitem _ IH].
  - exists []. split; reflexivity.
  - destruct (render_item_text item Hitem) as (r & Hr & Hj).
    destruct IH as (rs & Hrs & Hjs).
    exists (r :: rs). simpl. rewrite Hr, Hrs. split; [reflexivity|].
    simpl. now rewrite Hj, Hjs.
Qed.

(** C4, as amended.  The text stored for a tool result [payload] (an
    object, or any value but [null]) is
    - when its [content] is an array with no [null] item: the items
      joined by a newline, where an item contributes its [text] when its
      [type] is ['text'] and its JSON serialization otherwise;
    - when its [content] is a string that is not empty: that string;
    - when its [content] is any other truthy value ([true], a number
      other than 0, an object): the JSON serialization of the [content];
    - when its [content] is absent or falsy ([null], [false], [0], the
      empty string): the JSON serialization of the whole payload. *)
Theorem resultContent_cases (payload : value) :
  payload <> JNull ->
  (forall items, content_of payload = Some (JArr items) ->
     Forall (fun item => item <> JNull) items ->
     resultContent payload = Normal (join_strings newline (map item_text items)))
  /\ (forall s, content_of payload = Some (JStr s) -> s <> EmptyString ->
        resultContent payload = Normal s)
  /\ (forall v, content_of payload = Some v -> truthy (Some v) = true ->
        (forall items, v <> JArr items) -> (forall s, v <> JStr s) ->
        resultContent payload = Normal (JSON_stringify v))
  /\ (truthy (content_of payload) = false ->
        resultContent payload = Normal (JSON_stringify payload)).
Proof.
  intros Hnn. unfold resultContent. rewrite (prop_content _ Hnn).
  repeat split.
  - intros items -> Hitems. simpl.
    destruct (Array_map_render items Hitems) as (rs & -> & Hj).
    unfold Array_join. now rewrite Hj.
  - intros s -> Hs. simpl. destruct s; [congruence|reflexivity].
  - intros v -> Hv Harr Hstr. rewrite Hv.
    destruct v; try reflexivity; [exfalso; eapply Hstr | exfalso; eapply Harr]; reflexivity.
  - intros ->. reflexivity.
Qed.

Lemma resultContent_cases_witness :
  let payload :=
    JObj [("content",
           JArr [JObj [("type", JStr "text"); ("text", JStr "Result: 4")];
                 JObj [("type", JStr "text"); ("text", JStr "done")]])] in
  payload <> JNull
  /\ resultContent payload = Normal ("Result: 4" +:+ newline +:+ "done").
Proof.
  intros payload.
  assert (payload <> JNull) as Hnn by discriminate.
  split; [exact Hnn|].
  destruct (resultContent_cases payload Hnn) as (Harr & _).
  refine (Harr _ eq_refl _).
  repeat constructor; discriminate.
Defined.

(** C4, as stated, fails on a payload whose [content] is an object (the
    [content] is serialized, not the payload) and on one whose [content]
    is the empty string (the payload is serialized). *)
Lemma resultContent_counterexample :
  let by_object := JObj [("content", JObj [("a", JNum 1)])] in
  let by_empty := JObj [("content", JStr EmptyString)] in
  resultContent by_object = Normal (JSON_stringify (JObj [("a", JNum 1)]))
  /\ resultContent by_object <> Normal (spec_resultContent by_object)
  /\ resultContent by_empty = Normal (JSON_stringify by_empty)
  /\ resultContent by_empty <> Normal (spec_resultContent by_empty).
Proof. vm_compute. repeat split; congruence. Qed.

Lemma description_or_default_cases tool :
  (forall d, Tool.description tool = Some d -> d <> EmptyString ->
     description_or_default tool = d)
  /\ (Tool.description tool = None \/ Tool.description tool = Some EmptyString ->
      description_or_default tool = "Execute " +:+ Tool.name tool).
Proof.
  unfold description_or_default. split.
  - intros d -> Hd. destruct d; [congruence|reflexivity].
  - intros [-> | ->]; reflexivity.
Qed.

Lemma inputSchema_or_cases dflt tool :
  (forall schema, Tool.inputSchema tool = Some schema -> truthy (Some schema) = true ->
     inputSchema_or dflt tool = schema)
  /\ (truthy (Tool.inputSchema tool) = false -> inputSchema_or dflt tool = dflt).
Proof.
  unfold inputSchema_or. split.
  - intros schema -> ->. reflexivity.
  - destruct (Tool.inputSchema tool) as [schema|]; [intros ->|]; reflexivity.
Qed.

(** C5, as amended.  Each of the three conversions yields one entry per
    tool, in catalog order, with the name of the tool, and is total.
    In [convertMCPToolsToOpenAI] and [convertMCPToolsToAnthropic] the
    description is the tool's description when that is present and not
    empty, and ["Execute "] followed by the name when it is absent or
    empty; the parameter schema is the tool's input schema when that is
    present and truthy, and the empty object schema of the client
    otherwise.  Both fields of their output are always defined. *)
Theorem provider_schema_conversion (catalog : list Tool.t) :
  length (convertMCPToolsToOpenAI catalog) = length catalog
  /\ length (convertMCPToolsToAnthropic catalog) = length catalog
  /\ length (Transformer.transformMCPToolsToOpenAI catalog) = length catalog
  /\ forall (i : nat) (tool : Tool.t), catalog !! i = Some tool ->
       (exists entry,
           convertMCPToolsToOpenAI catalog !! i = Some entry
           /\ OpenAITool.name (OpenAITool.function entry) = Tool.name tool
           /\ (forall d, Tool.description tool = Some d -> d <> EmptyString ->
                 OpenAITool.description (OpenAITool.function entry) = d)
           /\ (Tool.description tool = None \/ Tool.description tool = Some EmptyString ->
                 OpenAITool.description (OpenAITool.function entry)
                 = "Execute " +:+ Tool.name tool)
           /\ (forall schema, Tool.inputSchema tool = Some schema ->
                 truthy (Some schema) = true ->
                 OpenAITool.parameters (OpenAITool.function entry) = schema)
           /\ (truthy (Tool.inputSchema tool) = false ->
                 OpenAITool.parameters (OpenAITool.function entry)
                 = JObj [("type", JStr "object"); ("properties", JObj []);
                         ("required", JArr [])]))
       /\ (exists entry,
           convertMCPToolsToAnthropic catalog !! i = Some entry
           /\ AnthropicTool.name entry = Tool.name tool
           /\ (forall d, Tool.description tool = Some d -> d <> EmptyString ->
                 AnthropicTool.description entry = d)
           /\ (Tool.description tool = None \/ Tool.description tool = Some EmptyString ->
                 AnthropicTool.description entry = "Execute " +:+ Tool.name tool)
           /\ (forall schema, Tool.inputSchema tool = Some schema ->
                 truthy (Some schema) = true ->
                 AnthropicTool.input_schema entry = schema)
           /\ (truthy (Tool.inputSchema tool) = false ->
                 AnthropicTool.input_schema entry
                 = JObj [("type", JStr "object"); ("properties", JObj [])]))
       /\ (exists entry,
           Transformer.transformMCPToolsToOpenAI catalog !! i = Some entry
           /\ Transformer.name (Transformer.function entry) = Tool.name tool).
Proof.
  unfold convertMCPToolsToOpenAI, convertMCPToolsToAnthropic,
    Transformer.transformMCPToolsToOpenAI.
  rewrite !length_map. repeat split.
  all: eexists; rewrite list_lookup_fmap, H; simpl;
    (split; [reflexivity|]).
  3: reflexivity.
  all: split; [reflexivity|].
  all: destruct (description_or_default_cases tool) as [Hd1 Hd2].
  - destruct (inputSchema_or_cases openai_default_parameters tool) as [Hs1 Hs2].
    repeat split; assumption.
  - destruct (inputSchema_or_cases anthropic_default_input_schema tool) as [Hs1 Hs2].
    repeat split; assumption.
Qed.

Lemma provider_schema_conversion_witness :
  exists entry,
    convertMCPToolsToOpenAI [Demo.calculator] !! 0%nat = Some entry
    /\ OpenAITool.description (OpenAITool.function entry)
       = "Perform basic mathematical calculations"
    /\ OpenAITool.parameters (OpenAITool.function entry) = openai_default_parameters.
Proof.
  destruct (provider_schema_conversion [Demo.calculator]) as (_ & _ & _ & Hentry).
  destruct (Hentry 0%nat Demo.calculator eq_refl)
    as ((entry & Hlook & _ & Hdesc & _ & _ & Hdflt) & _).
  exists entry. split; [exact Hlook|]. split.
  - apply Hdesc; [reflexivity|discriminate].
  - apply Hdflt. reflexivity.
Defined.

(** C5, as stated, fails: a description that is present and empty is
    replaced by the default, and the stand-alone converter leaves an
    absent description and an absent schema undefined. *)
Lemma provider_schema_counterexample :
  let blank := Tool.mk "t" (Some EmptyString) None in
  let bare := Tool.mk "t" None None in
  map (fun e => OpenAITool.description (OpenAITool.function e))
      (convertMCPToolsToOpenAI [blank]) = ["Execute t"]
  /\ map (fun e => OpenAITool.description (OpenAITool.function e))
       (convertMCPToolsToOpenAI [blank]) <> [spec_description blank]
  /\ map (fun e => Transformer.description (Transformer.function e))
       (Transformer.transformMCPToolsToOpenAI [bare]) = [None]
  /\ map (fun e => Transformer.parameters (Transformer.function e))
       (Transformer.transformMCPToolsToOpenAI [bare]) = [None].
Proof. vm_compute. repeat split; congruence. Qed.

Section ArraysFacts.
Context {Elem : Type}.
Implicit Types (h : gmap nat (list Elem)) (a r : nat) (this : @Arrays.object).

Lemma array_literal_fresh h elements :
  h !! (Arrays.array_literal elements h).1 = None.
Proof. simpl. apply not_elem_of_dom, is_fresh. Qed.

Lemma array_literal_lookup h elements :
  (Arrays.array_literal elements h).2 !! (Arrays.array_literal elements h).1 = Some elements.
Proof. simpl. apply lookup_insert_eq. Qed.

Lemma array_literal_frame h elements a :
  is_Some (h !! a) ->
  a <> (Arrays.array_literal elements h).1
  /\ (Arrays.array_literal elements h).2 !! a = h !! a.
Proof.
  intros Ha.
  assert (a <> (Arrays.array_literal elements h).1) as Hne.
  { intros ->. rewrite array_literal_fresh in Ha. by destruct Ha. }
  split; [done|]. simpl in *. by rewrite lookup_insert_ne.
Qed.

Lemma mutate_frame h r a f :
  a <> r -> Arrays.mutate r f h !! a = h !! a.
Proof. intros Hne. unfold Arrays.mutate. by rewrite lookup_alter_ne. Qed.

Lemma spread_copy_fresh h a :
  is_Some (h !! a) ->
  fresh_copy_of a h (Arrays.array_literal (Arrays.spread h a) h).1
                    (Arrays.array_literal (Arrays.spread h a) h).2.
Proof.
  intros Ha. repeat split.
  - apply array_literal_fresh.
  - unfold Arrays.spread at 1. by rewrite array_literal_lookup.
  - intros b Hb. by apply array_literal_frame.
  - intros f b Hb. destruct (array_literal_frame h (Arrays.spread h a) b Hb) as [Hne Heq].
    by rewrite mutate_frame.
Qed.


End ArraysFacts.


(** * Facts about the runs *)

Section RuntimeFacts.
Context {H : Host} {Msg Req : Type}.
Implicit Types (s : machine Msg Req).

Lemma push_history_run (m : Msg) s : push_history m s = (Return tt, pushed m s).
Proof. reflexivity. Qed.

Lemma callTool_run name args s :
  isConnected (this s) = true ->
  callTool name args s =
    let '(w, r) := sdk_callTool (world s) name args in
    (match r with
     | Normal v => Return v
     | Thrown e => Throw (new_Error ("Tool call failed: " +:+ Error_toString e))
     end, called (EvCallTool name args) w s).
Proof.
  intros Hc. unfold callTool, mbind, M_bind, read_this, try_catch, await. simpl.
  rewrite Hc. simpl. destruct (sdk_callTool (world s) name args) as [w [v|e]]; reflexivity.
Qed.

Lemma fetches_app (l1 l2 : list (event Req)) :
  fetches (l1 ++ l2) = (fetches l1 + fetches l2)%nat.
Proof. unfold fetches. by rewrite filter_app, length_app. Qed.

Lemma fetches_one (body : Req) : fetches [EvFetch body] = 1%nat.
Proof. reflexivity. Qed.

Lemma invocations_app (l1 l2 : list (event Req)) :
  invocations (l1 ++ l2) = invocations l1 ++ invocations l2.
Proof. unfold invocations. apply omap_app. Qed.
End RuntimeFacts.

Section OpenAIFormat.
Context {H : Host} {Req : Type}.
Implicit Types (s : machine OpenAIMessage.t Req) (tc : OpenAIMessage.tool_call).

Lemma dispatched_this s tc :
  exists text,
    this (dispatched s tc)
    = set_conversationHistory
        (history s ++ [OpenAIClient.tool_message text (OpenAIMessage.id tc)]) (this s).
Proof.
  unfold dispatched. destruct (JSON_parse _) as [args|e].
  - destruct (sdk_callTool _ _ _) as [w r]. eexists; reflexivity.
  - eexists; reflexivity.
Qed.

Lemma dispatched_connected s tc :
  isConnected (this (dispatched s tc)) = isConnected (this s).
Proof. destruct (dispatched_this s tc) as [text ->]. reflexivity. Qed.

Lemma dispatched_calls s tc :
  calls (dispatched s tc)
  = calls s ++ match invocation_of tc with
               | Some (n, a) => [EvCallTool n a]
               | None => []
               end.
Proof.
  unfold dispatched, invocation_of. destruct (JSON_parse _) as [args|e].
  - destruct (sdk_callTool _ _ _) as [w r]. reflexivity.
  - simpl. by rewrite app_nil_r.
Qed.

(** The tool messages appended by a sequence of dispatches: one per
    call, in the order of the calls, each with the id of its call. *)
Lemma dispatched_all_history tcs s :
  exists results,
    this (fold_left dispatched tcs s)
    = set_conversationHistory (history s ++ results) (this s)
    /\ map OpenAIMessage.tool_call_id results = map (fun tc => Some (OpenAIMessage.id tc)) tcs
    /\ map OpenAIMessage.role results = map (fun _ => OpenAIMessage.tool) tcs.
Proof.
  revert s. induction tcs as [|tc tcs IH]; intros s.
  - exists []. simpl. unfold history. rewrite app_nil_r. by destruct (this s).
  - simpl. destruct (IH (dispatched s tc)) as (results & Hthis & Hids & Hroles).
    destruct (dispatched_this s tc) as [text Htc].
    exists (OpenAIClient.tool_message text (OpenAIMessage.id tc) :: results).
    rewrite Hthis. unfold history. rewrite Htc. simpl.
    rewrite <- app_assoc. simpl. rewrite Hids, Hroles. done.
Qed.

Lemma dispatched_all_connected tcs s :
  isConnected (this (fold_left dispatched tcs s)) = isConnected (this s).
Proof. destruct (dispatched_all_history tcs s) as (r & -> & _). reflexivity. Qed.

Lemma dispatched_all_calls tcs s :
  invocations (calls (fold_left dispatched tcs s))
  = invocations (calls s) ++ omap invocation_of tcs
  /\ fetches (calls (fold_left dispatched tcs s)) = fetches (calls s).
Proof.
  revert s. induction tcs as [|tc tcs IH]; intros s.
  - simpl. by rewrite app_nil_r.
  - simpl. destruct (IH (dispatched s tc)) as [-> ->].
    rewrite dispatched_calls, invocations_app, fetches_app, <- app_assoc.
    destruct (invocation_of tc) as [[n a]|]; simpl; split; try done; lia.
Qed.

End OpenAIFormat.

Section OpenAIFacts.
Context {H : Host}.
Variable fetch : World -> OpenAIRequest.t -> World * completion (Response OpenAIMessage.t).
Implicit Types (s : machine OpenAIMessage.t OpenAIRequest.t).

Lemma dispatch_run tc s :
  isConnected (this s) = true ->
  OpenAIClient.dispatch tc s = (Return tt, dispatched s tc).
Proof.
  intros Hc. unfold OpenAIClient.dispatch, dispatched, try_catch, mbind, M_bind.
  destruct (JSON_parse _) as [args|e]; simpl; [|reflexivity].
  rewrite (callTool_run _ _ _ Hc).
  destruct (sdk_callTool _ _ _) as [w [payload|e]]; simpl; [|reflexivity].
  destruct (resultContent payload); reflexivity.
Qed.

Lemma for_of_dispatch_run tcs s :
  isConnected (this s) = true ->
  for_of tcs OpenAIClient.dispatch s = (Return tt, fold_left dispatched tcs s).
Proof.
  revert s. induction tcs as [|tc tcs IH]; intros s Hc; [reflexivity|].
  simpl. unfold mbind, M_bind. rewrite (dispatch_run _ _ Hc).
  apply IH. by rewrite dispatched_connected.
Qed.

Lemma callOpenAI_run messages tools s :
  OpenAIClient.callOpenAI fetch messages tools s =
    let body := OpenAIClient.requestBody (this s) messages tools in
    let '(w, r) := fetch (world s) body in
    (match r with
     | Thrown e => Throw e
     | Normal response =>
         if ok response then
           match json response with
           | Normal m => Return m
           | Thrown e => Throw e
           end
         else Throw (new_Error ("OpenAI API error: " +:+ string_of_Z (status response)
                                  +:+ " " +:+ text response))
     end, called (EvFetch body) w s).
Proof.
  unfold OpenAIClient.callOpenAI, mbind, M_bind, read_this, await. simpl.
  destruct (fetch _ _) as [w [response|e]]; [|reflexivity].
  destruct (ok response); simpl; [|reflexivity].
  destruct (json response); reflexivity.
Qed.

Lemma round_run tools response s :
  isConnected (this s) = true ->
  OpenAIClient.round fetch tools response s
  = OpenAIClient.callOpenAI fetch (history (after_dispatch response s)) tools
      (after_dispatch response s).
Proof.
  intros Hc. unfold OpenAIClient.round, mbind, M_bind.
  rewrite push_history_run, for_of_dispatch_run by done. reflexivity.
Qed.

Lemma ask_while_done fuel tools response s :
  OpenAIClient.requests_tools response = false ->
  OpenAIClient.ask_while fetch fuel tools response s = (Return response, s).
Proof. intros Hr. destruct fuel; simpl; rewrite Hr; reflexivity. Qed.

Lemma ask_while_step fuel tools response s :
  OpenAIClient.requests_tools response = true ->
  OpenAIClient.ask_while fetch (S fuel) tools response s
  = (OpenAIClient.round fetch tools response
       ≫= OpenAIClient.ask_while fetch fuel tools) s.
Proof. intros Hr. simpl. rewrite Hr. reflexivity. Qed.


Lemma ask_run fuel question s :
  isConnected (this s) = true ->
  OpenAIClient.ask fetch fuel question s =
    let s1 := pushed (OpenAIClient.user_message question) s in
    let tools := convertMCPToolsToOpenAI (availableTools (this s)) in
    match OpenAIClient.callOpenAI fetch (history s1) tools s1 with
    | (Return response, s2) =>
        match OpenAIClient.ask_while fetch fuel tools response s2 with
        | (Return final, s3) =>
            (Return (content_or (OpenAIMessage.content final) EmptyString),
             pushed (OpenAIClient.assistant_message final) s3)
        | (Throw e, s3) => (Throw e, s3)
        | (Diverge, s3) => (Diverge, s3)
        end
    | (Throw e, s2) => (Throw e, s2)
    | (Diverge, s2) => (Diverge, s2)
    end.
Proof.
  intros Hc. unfold OpenAIClient.ask, mbind, M_bind, read_this, try_catch. simpl.
  rewrite Hc. simpl.
  destruct (OpenAIClient.callOpenAI _ _ _ _) as [[response|e|] s2]; try reflexivity.
  destruct (OpenAIClient.ask_while _ _ _ _ _) as [[final|e|] s3]; reflexivity.
Qed.
End OpenAIFacts.

Section DraftFacts.
Context {H : Host} {Tools : Type}.
Variable convert : MCPClient OpenAIMessage.t -> Tools.
Variable endpoint :
  World -> list OpenAIMessage.t -> Tools -> World * completion OpenAIMessage.t.
Implicit Types (s : machine OpenAIMessage.t (list OpenAIMessage.t * Tools)).

Lemma draft_dispatch_run tc s :
  isConnected (this s) = true ->
  DraftClient.dispatch tc s = (Return tt, dispatched s tc).
Proof.
  intros Hc. unfold DraftClient.dispatch, dispatched, try_catch, mbind, M_bind.
  destruct (JSON_parse _) as [args|e]; simpl; [|reflexivity].
  rewrite (callTool_run _ _ _ Hc).
  destruct (sdk_callTool _ _ _) as [w [payload|e]]; simpl; [|reflexivity].
  destruct (resultContent payload); reflexivity.
Qed.

Lemma draft_for_of_dispatch_run tcs s :
  isConnected (this s) = true ->
  for_of tcs DraftClient.dispatch s = (Return tt, fold_left dispatched tcs s).
Proof.
  revert s. induction tcs as [|tc tcs IH]; intros s Hc; [reflexivity|].
  simpl. unfold mbind, M_bind. rewrite (draft_dispatch_run _ _ Hc).
  apply IH. by rewrite dispatched_connected.
Qed.





End DraftFacts.

Section AnthropicFacts.
Context {H : Host}.
Variable fetch :
  World -> AnthropicRequest.t -> World * completion (Response AnthropicResponse.t).
Implicit Types (s : machine AnthropicMessage.t AnthropicRequest.t)
         (b : AnthropicMessage.block).

Lemma anthropic_dispatch_run b acc s :
  isConnected (this s) = true ->
  AnthropicClient.dispatch b acc s
  = (Return (dispatched_block (acc, s) b).1, (dispatched_block (acc, s) b).2).
Proof.
  intros Hc. destruct b as [t|id name input|id c e]; try reflexivity.
  unfold AnthropicClient.dispatch, dispatched_block, try_catch, mbind, M_bind.
  rewrite (callTool_run _ _ _ Hc). simpl.
  destruct (sdk_callTool _ _ _) as [w [payload|e]]; simpl; [|reflexivity].
  unfold is_error_of. destruct (resultContent payload); reflexivity.
Qed.

Lemma dispatched_block_this (st : list AnthropicMessage.block * machine AnthropicMessage.t AnthropicRequest.t) b :
  this (dispatched_block st b).2 = this st.2.
Proof.
  destruct b as [t|id name input|id c e]; try reflexivity.
  simpl. by destruct (sdk_callTool _ _ _).
Qed.

Lemma anthropic_for_of_dispatch_run blocks acc s :
  isConnected (this s) = true ->
  for_of_acc blocks acc AnthropicClient.dispatch s
  = (Return (fold_left dispatched_block blocks (acc, s)).1,
     (fold_left dispatched_block blocks (acc, s)).2).
Proof.
  revert acc s. induction blocks as [|b blocks IH]; intros acc s Hc; [reflexivity|].
  simpl. unfold mbind, M_bind. rewrite (anthropic_dispatch_run _ _ _ Hc).
  rewrite IH.
  - by destruct (dispatched_block (acc, s) b).
  - by rewrite dispatched_block_this.
Qed.

(** The tool results collected by the dispatch phase: one per tool-use
    block, in the order of the blocks, each with the id of its block;
    the history is not touched. *)
Lemma dispatched_blocks_results blocks acc s :
  let st := fold_left dispatched_block blocks (acc, s) in
  this st.2 = this s
  /\ (exists results, st.1 = acc ++ results
        /\ omap tool_result_id_of results = omap tool_use_id_of blocks
        /\ length results = length (omap tool_use_id_of blocks))
  /\ invocations (calls st.2) = invocations (calls s) ++ omap block_invocation_of blocks
  /\ fetches (calls st.2) = fetches (calls s).
Proof.
  revert acc s. induction blocks as [|b blocks IH]; intros acc s.
  - simpl. repeat split; try by rewrite ?app_nil_r.
    exists []. by rewrite app_nil_r.
  - simpl. destruct b as [t|id name input|id c e]; simpl; try apply IH.
    destruct (sdk_callTool (world s) name input) as [w r] eqn:Hcall. simpl.
    match goal with |- context [fold_left _ _ (?a, ?m)] =>
      destruct (IH a m) as (Hthis & (results & Hres & Hids & Hlen) & Hinv & Hf) end.
    repeat split.
    + by rewrite Hthis.
    + exists (AnthropicMessage.tool_result id (tool_text r) (is_error_of r) :: results).
      rewrite Hres, <- app_assoc. simpl.
      split; [done|]. split; f_equal; [exact Hids|exact Hlen].
    + rewrite Hinv. simpl. rewrite invocations_app, <- app_assoc. done.
    + rewrite Hf. simpl. rewrite fetches_app. simpl. unfold fetches at 2. simpl. lia.
Qed.

Lemma callAnthropic_run messages tools s :
  AnthropicClient.callAnthropic fetch messages tools s =
    let body := AnthropicClient.requestBody (this s) messages tools in
    let '(w, r) := fetch (world s) body in
    (match r with
     | Thrown e => Throw e
     | Normal response =>
         if ok response then
           match json response with
           | Normal m => Return m
           | Thrown e => Throw e
           end
         else Throw (new_Error ("Anthropic API error: " +:+ string_of_Z (status response)
                                  +:+ " " +:+ text response))
     end, called (EvFetch body) w s).
Proof.
  unfold AnthropicClient.callAnthropic, mbind, M_bind, read_this, await. simpl.
  destruct (fetch _ _) as [w [response|e]]; [|reflexivity].
  destruct (ok response); simpl; [|reflexivity].
  destruct (json response); reflexivity.
Qed.

Lemma anthropic_ask_while_done fuel tools response s :
  String.eqb (AnthropicResponse.stop_reason response) "tool_use" = false ->
  AnthropicClient.ask_while fetch fuel tools response s = (Return response, s).
Proof. intros Hr. destruct fuel; simpl; rewrite Hr; reflexivity. Qed.

Lemma anthropic_ask_run fuel question s :
  isConnected (this s) = true ->
  AnthropicClient.ask fetch fuel question s =
    let s1 := pushed (AnthropicMessage.mk AnthropicMessage.user
                        (AnthropicMessage.Str question)) s in
    let tools := convertMCPToolsToAnthropic (availableTools (this s)) in
    match AnthropicClient.callAnthropic fetch (history s1) tools s1 with
    | (Return response, s2) =>
        match AnthropicClient.ask_while fetch fuel tools response s2 with
        | (Return final, s3) =>
            (Return (AnthropicClient.finalResponse (AnthropicResponse.content final)),
             pushed (AnthropicClient.assistant_message final) s3)
        | (Throw e, s3) => (Throw e, s3)
        | (Diverge, s3) => (Diverge, s3)
        end
    | (Throw e, s2) => (Throw e, s2)
    | (Diverge, s2) => (Diverge, s2)
    end.
Proof.
  intros Hc. unfold AnthropicClient.ask, mbind, M_bind, read_this, try_catch. simpl.
  rewrite Hc. simpl.
  destruct (AnthropicClient.callAnthropic _ _ _ _) as [[response|e|] s2]; try reflexivity.
  destruct (AnthropicClient.ask_while _ _ _ _ _) as [[final|e|] s3]; reflexivity.
Qed.
End AnthropicFacts.

Section OpenAIRounds.
Context {H : Host}.
Variable fetch : World -> OpenAIRequest.t -> World * completion (Response OpenAIMessage.t).
Implicit Types (s : machine OpenAIMessage.t OpenAIRequest.t).

Lemma callOpenAI_effect messages tools s :
  let r := OpenAIClient.callOpenAI fetch messages tools s in
  this r.2 = this s
  /\ fetches (calls r.2) = S (fetches (calls s))
  /\ invocations (calls r.2) = invocations (calls s)
  /\ r.1 <> Diverge.
Proof.
  rewrite callOpenAI_run. cbv zeta.
  destruct (fetch _ _) as [w r]. simpl.
  rewrite fetches_app, invocations_app, app_nil_r. simpl.
  repeat split; try (unfold fetches at 2; simpl; lia).
  destruct r as [response|e]; [|done].
  destruct (ok response); [|done]. by destruct (json response).
Qed.


End OpenAIRounds.

Section DemoRuns.
Import Demo.
Implicit Types (s : machine OpenAIMessage.t OpenAIRequest.t).








End DemoRuns.

Section DraftRounds.
Context {H : Host} {Tools : Type}.
Variable convert : MCPClient OpenAIMessage.t -> Tools.
Variable endpoint :
  World -> list OpenAIMessage.t -> Tools -> World * completion OpenAIMessage.t.
Implicit Types (s : machine OpenAIMessage.t (list OpenAIMessage.t * Tools)).


End DraftRounds.

Section AnthropicRounds.
Context {H : Host}.
Variable fetch :
  World -> AnthropicRequest.t -> World * completion (Response AnthropicResponse.t).
Implicit Types (s : machine AnthropicMessage.t AnthropicRequest.t).

(** The local array and the machine at the end of the dispatch phase. *)
Lemma anthropic_round_run tools response s :
  isConnected (this s) = true ->
  AnthropicClient.round fetch tools response s =
    let st := fold_left dispatched_block (AnthropicResponse.content response)
                ([], pushed (AnthropicClient.assistant_message response) s) in
    match st.1 with
    | [] => (Return None, st.2)
    | _ :: _ =>
        let s2 := pushed (AnthropicMessage.mk AnthropicMessage.user
                            (AnthropicMessage.Blocks st.1)) st.2 in
        match AnthropicClient.callAnthropic fetch (history s2) tools s2 with
        | (Return r, s3) => (Return (Some r), s3)
        | (Throw e, s3) => (Throw e, s3)
        | (Diverge, s3) => (Diverge, s3)
        end
    end.
Proof.
  intros Hc. unfold AnthropicClient.round, mbind, M_bind.
  rewrite push_history_run, anthropic_for_of_dispatch_run by done. cbv zeta.
  destruct (fold_left _ _ _) as [[|tr trs] s1]; [reflexivity|].
  cbn [fst snd]. rewrite push_history_run. cbn [read_this].
  destruct (AnthropicClient.callAnthropic _ _ _ _) as [[r|e|] s3]; reflexivity.
Qed.

Lemma callAnthropic_effect messages tools s :
  let r := AnthropicClient.callAnthropic fetch messages tools s in
  this r.2 = this s
  /\ fetches (calls r.2) = S (fetches (calls s))
  /\ invocations (calls r.2) = invocations (calls s)
  /\ r.1 <> Diverge.
Proof.
  rewrite callAnthropic_run. cbv zeta.
  destruct (fetch _ _) as [w r]. cbn [fst snd called this calls].
  rewrite fetches_app, fetches_one, invocations_app, app_nil_r.
  repeat split; [lia|].
  destruct r as [response|e]; [|done].
  destruct (ok response); [|done]. by destruct (json response).
Qed.


End AnthropicRounds.

Section DemoRunsOther.
Import Demo.




End DemoRunsOther.

(** * The claims *)

Section AskFacts.
Context {H : Host}.
Variable fetch : World -> OpenAIRequest.t -> World * completion (Response OpenAIMessage.t).
Implicit Types (s : machine OpenAIMessage.t OpenAIRequest.t).


Lemma callOpenAI_rejected messages tools s w response :
  fetch (world s) (OpenAIClient.requestBody (this s) messages tools) = (w, Normal response) ->
  ok response = false ->
  OpenAIClient.callOpenAI fetch messages tools s
  = (Throw (new_Error ("OpenAI API error: " +:+ string_of_Z (status response)
                         +:+ " " +:+ text response)),
     called (EvFetch (OpenAIClient.requestBody (this s) messages tools)) w s).
Proof. intros Hf Hok. rewrite callOpenAI_run. cbv zeta. by rewrite Hf, Hok. Qed.

End AskFacts.

(** Scenario A of the specification (8), on the OpenAI client: one tool
    round, then the answer; the history holds exactly four turns. *)
Example scenario_A :
  let r := OpenAIClient.ask Demo.tools_then_done 5 "what is 2+2" (Demo.start 1 []) in
  r.1 = Return "The answer is 4."
  /\ history r.2
     = [OpenAIClient.user_message "what is 2+2";
        OpenAIClient.assistant_tool_message Demo.calculator_request;
        OpenAIClient.tool_message "Result: 2 + 2 = 4" "call_1";
        OpenAIClient.assistant_message (Demo.final (Some "The answer is 4."))].
Proof. vm_compute. split; reflexivity. Qed.




Section DispatchFailures.
Context {H : Host}.
Implicit Types (tc : OpenAIMessage.tool_call).

Lemma dispatch_parse_failure tc (s : machine OpenAIMessage.t OpenAIRequest.t) e :
  JSON_parse (OpenAIMessage.arguments (OpenAIMessage.function tc)) = Thrown e ->
  OpenAIClient.dispatch tc s
  = (Return tt,
     pushed (OpenAIClient.tool_message ("Error: " +:+ message e) (OpenAIMessage.id tc)) s).
Proof.
  intros Hp. unfold OpenAIClient.dispatch, try_catch, mbind, M_bind.
  rewrite Hp. reflexivity.
Qed.

Lemma dispatch_call_failure tc (s : machine OpenAIMessage.t OpenAIRequest.t) args w e :
  isConnected (this s) = true ->
  JSON_parse (OpenAIMessage.arguments (OpenAIMessage.function tc)) = Normal args ->
  sdk_callTool (world s) (OpenAIMessage.name (OpenAIMessage.function tc)) args
  = (w, Thrown e) ->
  OpenAIClient.dispatch tc s
  = (Return tt,
     pushed (OpenAIClient.tool_message
               ("Error: " +:+ "Tool call failed: " +:+ Error_toString e)
               (OpenAIMessage.id tc))
            (called (EvCallTool (OpenAIMessage.name (OpenAIMessage.function tc)) args) w s)).
Proof.
  intros Hc Hp Hcall. rewrite dispatch_run by done. unfold dispatched.
  by rewrite Hp, Hcall.
Qed.

Lemma anthropic_dispatch_call_failure id name input acc
      (s : machine AnthropicMessage.t AnthropicRequest.t) w e :
  isConnected (this s) = true ->
  sdk_callTool (world s) name input = (w, Thrown e) ->
  AnthropicClient.dispatch (AnthropicMessage.tool_use id name input) acc s
  = (Return (acc ++ [AnthropicMessage.tool_result id
                       ("Error: " +:+ "Tool call failed: " +:+ Error_toString e)
                       (Some true)]),
     called (EvCallTool name input) w s).
Proof.
  intros Hc Hcall. rewrite anthropic_dispatch_run by done.
  unfold dispatched_block. cbn [fst snd]. by rewrite Hcall.
Qed.
End DispatchFailures.

Lemma tool_use_counted id name input (blocks : list AnthropicMessage.block) :
  In (AnthropicMessage.tool_use id name input) blocks ->
  omap tool_use_id_of blocks <> [].
Proof.
  induction blocks as [|b blocks IH]; [done|].
  intros [-> | Hin]; [done|].
  destruct b; simpl; [by apply IH|done|by apply IH].
Qed.

Lemma Error_prefix (rest : string) : String.prefix "Error:" ("Error: " +:+ rest) = true.
Proof. reflexivity. Qed.

(** C2, as amended.  A tool call whose dispatch fails does not end
    [ask]: the loop body completes normally and appends a tool result
    that carries the id of the call and the text ["Error: "] followed by
    the message of the error.
    - OpenAI client, arguments that fail to parse: the tool message is
      appended and nothing else happens, so the tool is not invoked (the
      world and the call log are as they were).
    - OpenAI client, a call the SDK rejects (transport failure, unknown
      tool): the invocation is logged and the tool message appended.
      The message has the fields [role], [content] and [tool_call_id]
      only, so the failure shows in its text alone.
    - Anthropic client, a call the SDK rejects: the [tool_result] block
      is pushed with [is_error: true].
    In both clients the round then goes on to the next completion
    request, sent with the history that holds these results. *)
Theorem failed_tool_call_becomes_a_result (H : Host) :
  (forall tc (s : machine OpenAIMessage.t OpenAIRequest.t) e,
      JSON_parse (OpenAIMessage.arguments (OpenAIMessage.function tc)) = Thrown e ->
      let text := "Error: " +:+ message e in
      OpenAIClient.dispatch tc s
      = (Return tt, pushed (OpenAIClient.tool_message text (OpenAIMessage.id tc)) s)
      /\ String.prefix "Error:" text = true
      /\ world (OpenAIClient.dispatch tc s).2 = world s
      /\ calls (OpenAIClient.dispatch tc s).2 = calls s)
  /\ (forall tc (s : machine OpenAIMessage.t OpenAIRequest.t) args w e,
         isConnected (this s) = true ->
         JSON_parse (OpenAIMessage.arguments (OpenAIMessage.function tc)) = Normal args ->
         sdk_callTool (world s) (OpenAIMessage.name (OpenAIMessage.function tc)) args
         = (w, Thrown e) ->
         let text := "Error: " +:+ "Tool call failed: " +:+ Error_toString e in
         OpenAIClient.dispatch tc s
         = (Return tt,
            pushed (OpenAIClient.tool_message text (OpenAIMessage.id tc))
                   (called (EvCallTool (OpenAIMessage.name (OpenAIMessage.function tc)) args)
                           w s))
         /\ String.prefix "Error:" text = true
         /\ prop (OpenAIObject.of_message
                    (OpenAIClient.tool_message text (OpenAIMessage.id tc))) "is_error"
            = Normal None)
  /\ (forall id name input acc (s : machine AnthropicMessage.t AnthropicRequest.t) w e,
         isConnected (this s) = true ->
         sdk_callTool (world s) name input = (w, Thrown e) ->
         let text := "Error: " +:+ "Tool call failed: " +:+ Error_toString e in
         AnthropicClient.dispatch (AnthropicMessage.tool_use id name input) acc s
         = (Return (acc ++ [AnthropicMessage.tool_result id text (Some true)]),
            called (EvCallTool name input) w s)
         /\ String.prefix "Error:" text = true)
  /\ (forall fetch tools response (s : machine OpenAIMessage.t OpenAIRequest.t),
         isConnected (this s) = true ->
         OpenAIClient.round fetch tools response s
         = OpenAIClient.callOpenAI fetch (history (after_dispatch response s)) tools
             (after_dispatch response s))
  /\ (forall fetch tools response (s : machine AnthropicMessage.t AnthropicRequest.t)
             id name input,
         isConnected (this s) = true ->
         In (AnthropicMessage.tool_use id name input) (AnthropicResponse.content response) ->
         exists results s1,
           for_of_acc (AnthropicResponse.content response) [] AnthropicClient.dispatch
             (pushed (AnthropicClient.assistant_message response) s)
           = (Return results, s1)
           /\ results <> []
           /\ AnthropicClient.round fetch tools response s
              = (AnthropicClient.callAnthropic fetch
                   (history s1 ++ [AnthropicMessage.mk AnthropicMessage.user
                                     (AnthropicMessage.Blocks results)])
                   tools ≫= fun response' => mret (Some response'))
                  (pushed (AnthropicMessage.mk AnthropicMessage.user
                             (AnthropicMessage.Blocks results)) s1)).
Proof.
  split; [|split; [|split; [|split]]].
  - intros tc s e Hp text. rewrite (dispatch_parse_failure tc s e Hp). done.
  - intros tc s args w e Hc Hp Hcall text.
    rewrite (dispatch_call_failure tc s args w e Hc Hp Hcall). done.
  - intros id name input acc s w e Hc Hcall text.
    rewrite (anthropic_dispatch_call_failure id name input acc s w e Hc Hcall). done.
  - intros fetch tools response s Hc. by apply round_run.
  - intros fetch tools response s id name input Hc Hin.
    assert (isConnected (this (pushed (AnthropicClient.assistant_message response) s)) = true)
      as Hc' by done.
    rewrite (anthropic_for_of_dispatch_run _ _ _ Hc').
    destruct (dispatched_blocks_results (AnthropicResponse.content response) []
                (pushed (AnthropicClient.assistant_message response) s))
      as (_ & (results & Hres & _ & Hlen) & _).
    eexists _, _. split; [reflexivity|].
    assert ((fold_left dispatched_block (AnthropicResponse.content response)
               ([], pushed (AnthropicClient.assistant_message response) s)).1 <> []) as Hne.
    { rewrite Hres. simpl. intros ->.
      apply (tool_use_counted _ _ _ _ Hin). by apply nil_length_inv. }
    split; [exact Hne|].
    unfold AnthropicClient.round, mbind, M_bind.
    rewrite push_history_run, (anthropic_for_of_dispatch_run _ _ _ Hc').
    destruct (fold_left _ _ _) as [[|tr trs] s1]; [done|].
    cbn [fst snd]. rewrite push_history_run. reflexivity.
Qed.

Lemma failed_tool_call_becomes_a_result_witness :
  let tc := OpenAIMessage.mkToolCall "call_7" "function"
              (OpenAIMessage.mkFunction "calculator" "{") in
  let s : machine OpenAIMessage.t OpenAIRequest.t := Demo.start 0 [] in
  @JSON_parse Demo.host (OpenAIMessage.arguments (OpenAIMessage.function tc))
  = Thrown (mkError "SyntaxError" "Unexpected end of JSON input")
  /\ history (OpenAIClient.dispatch tc s).2
     = [OpenAIClient.tool_message "Error: Unexpected end of JSON input" "call_7"]
  /\ calls (OpenAIClient.dispatch tc s).2 = [].
Proof.
  intros tc s.
  assert (@JSON_parse Demo.host (OpenAIMessage.arguments (OpenAIMessage.function tc))
          = Thrown (mkError "SyntaxError" "Unexpected end of JSON input")) as Hp
    by reflexivity.
  split; [exact Hp|].
  destruct (failed_tool_call_becomes_a_result Demo.host) as (Hparse & _).
  destruct (Hparse tc s _ Hp) as (Hrun & _ & _ & Hcalls).
  split; [by rewrite Hrun|exact Hcalls].
Defined.

(** C2, as stated, fails in the OpenAI client: the tool message
    appended for a call to an unknown tool has no [is_error] property. *)
Lemma openai_error_result_counterexample :
  let tc := OpenAIMessage.mkToolCall "call_9" "function"
              (OpenAIMessage.mkFunction "nope" "{}") in
  let r := OpenAIClient.dispatch tc (Demo.start 0 []) in
  r.1 = Return tt
  /\ exists m,
      history r.2 = [m]
      /\ OpenAIMessage.tool_call_id m = Some "call_9"
      /\ OpenAIMessage.content m
         = Some "Error: Tool call failed: McpError: MCP error -32601: Unknown tool: nope"
      /\ prop (OpenAIObject.of_message m) "is_error" = Normal None
      /\ prop (OpenAIObject.of_message m) "is_error" <> Normal (Some (JBool true)).
Proof.
  cbv zeta. split; [reflexivity|].
  eexists. split; [reflexivity|]. repeat split. discriminate.
Qed.

(** C3, as amended.  When the completion endpoint answers a request of
    [ask] with a non-success status, [callOpenAI] throws an [Error]
    whose message holds the status and the body, [ask] rethrows it, and
    no further request is made: the failed request is the last entry of
    the call log.
    - If it is the first request of the call, the history holds what it
      held before and the user turn, and nothing else.
    - If it is the request of a later round, the history also holds the
      assistant turn and the tool results appended by the rounds
      before it. *)
Theorem provider_error_reaches_the_caller (H : Host)
        (fetch : World -> OpenAIRequest.t -> World * completion (Response OpenAIMessage.t)) :
  (forall (fuel : nat) (question : string) (s : machine OpenAIMessage.t OpenAIRequest.t)
          w response,
      isConnected (this s) = true ->
      let s1 := pushed (OpenAIClient.user_message question) s in
      let body := OpenAIClient.requestBody (this s1)
                    (history s ++ [OpenAIClient.user_message question])
                    (convertMCPToolsToOpenAI (availableTools (this s))) in
      fetch (world s) body = (w, Normal response) ->
      ok response = false ->
      let r := OpenAIClient.ask fetch fuel question s in
      r.1 = Throw (new_Error ("OpenAI API error: " +:+ string_of_Z (status response)
                                +:+ " " +:+ text response))
      /\ history r.2 = history s ++ [OpenAIClient.user_message question]
      /\ calls r.2 = calls s ++ [EvFetch body])
  /\ (forall (fuel : nat) tools reply (s : machine OpenAIMessage.t OpenAIRequest.t)
             w response,
         isConnected (this s) = true ->
         OpenAIClient.requests_tools reply = true ->
         let s1 := after_dispatch reply s in
         let body := OpenAIClient.requestBody (this s1) (history s1) tools in
         fetch (world s1) body = (w, Normal response) ->
         ok response = false ->
         let r := OpenAIClient.ask_while fetch (S fuel) tools reply s in
         r.1 = Throw (new_Error ("OpenAI API error: " +:+ string_of_Z (status response)
                                   +:+ " " +:+ text response))
         /\ (exists results,
                history r.2
                = history s ++ OpenAIClient.assistant_tool_message reply :: results
                /\ length results = length (default [] (OpenAIMessage.tool_calls reply)))
         /\ calls r.2 = calls s1 ++ [EvFetch body])
  /\ (forall (fuel : nat) (question : string) (s : machine OpenAIMessage.t OpenAIRequest.t)
             reply s2 e s3,
         isConnected (this s) = true ->
         OpenAIClient.callOpenAI fetch
           (history s ++ [OpenAIClient.user_message question])
           (convertMCPToolsToOpenAI (availableTools (this s)))
           (pushed (OpenAIClient.user_message question) s) = (Return reply, s2) ->
         OpenAIClient.ask_while fetch fuel
           (convertMCPToolsToOpenAI (availableTools (this s))) reply s2 = (Throw e, s3) ->
         OpenAIClient.ask fetch fuel question s = (Throw e, s3)).
Proof.
  split; [|split].
  - intros fuel question s w response Hc s1 body Hf Hok r. subst r.
    rewrite ask_run by done. cbv zeta. fold s1.
    rewrite (callOpenAI_rejected fetch (history s1)
               (convertMCPToolsToOpenAI (availableTools (this s))) s1 w response Hf Hok).
    done.
  - intros fuel tools reply s w response Hc Hr s1 body Hf Hok r. subst r.
    rewrite ask_while_step by done. unfold mbind, M_bind.
    rewrite round_run by done. fold s1.
    rewrite (callOpenAI_rejected fetch (history s1) tools s1 w response Hf Hok).
    split; [done|]. split; [|done].
    subst s1. unfold history. cbn [snd called this]. unfold after_dispatch.
    destruct (dispatched_all_history (default [] (OpenAIMessage.tool_calls reply))
                (pushed (OpenAIClient.assistant_tool_message reply) s))
      as (results & -> & Hids & _).
    exists results. cbn. rewrite <- app_assoc. split; [done|].
    by rewrite <- (length_map OpenAIMessage.tool_call_id), Hids, length_map.
  - intros fuel question s reply s2 e s3 Hc Hcall Hwhile.
    rewrite ask_run by done. cbv zeta.
    change (history (pushed (OpenAIClient.user_message question) s))
      with (history s ++ [OpenAIClient.user_message question]).
    by rewrite Hcall, Hwhile.
Qed.

Lemma provider_error_reaches_the_caller_witness :
  let s : machine OpenAIMessage.t OpenAIRequest.t := Demo.start 0 [] in
  isConnected (this s) = true
  /\ (OpenAIClient.ask Demo.unauthorized 3 "hello" s).1
     = Throw (new_Error "OpenAI API error: 401 invalid_api_key")
  /\ history (OpenAIClient.ask Demo.unauthorized 3 "hello" s).2
     = [OpenAIClient.user_message "hello"].
Proof.
  intros s.
  assert (isConnected (this s) = true) as Hc by reflexivity.
  split; [exact Hc|].
  destruct (provider_error_reaches_the_caller Demo.host Demo.unauthorized) as (Hfirst & _).
  destruct (Hfirst 3%nat "hello" s _ _ Hc eq_refl eq_refl) as (Hr & Hh & _).
  split; [exact Hr|exact Hh].
Defined.

(** C3, as stated, fails when the endpoint fails in a later round: the
    error reaches the caller, and the history holds, after the user
    turn, the assistant turn and the tool result of the first round. *)
Lemma provider_error_history_counterexample :
  let r := OpenAIClient.ask Demo.fails_later 3 "what is 2+2" (Demo.start 1 []) in
  r.1 = Throw (new_Error "OpenAI API error: 500 overloaded")
  /\ history r.2
     = [OpenAIClient.user_message "what is 2+2";
        OpenAIClient.assistant_tool_message Demo.calculator_request;
        OpenAIClient.tool_message "Result: 2 + 2 = 4" "call_1"]
  /\ history r.2 <> [OpenAIClient.user_message "what is 2+2"].
Proof. vm_compute. repeat split. discriminate. Qed.

Section RoundHistory.
Context {H : Host}.

(** The history after a round of the OpenAI client: the assistant turn
    with the requests, then one tool message per request. *)
Lemma round_history fetch tools response (s : machine OpenAIMessage.t OpenAIRequest.t) :
  isConnected (this s) = true ->
  exists results,
    history (OpenAIClient.round fetch tools response s).2
    = history s ++ OpenAIClient.assistant_tool_message response :: results
    /\ map OpenAIMessage.tool_call_id results
       = map (fun tc => Some (OpenAIMessage.id tc))
             (default [] (OpenAIMessage.tool_calls response))
    /\ map OpenAIMessage.role results
       = map (fun _ => OpenAIMessage.tool) (default [] (OpenAIMessage.tool_calls response)).
Proof.
  intros Hc. rewrite round_run by done.
  destruct (callOpenAI_effect fetch (history (after_dispatch response s)) tools
              (after_dispatch response s)) as (Hthis & _).
  unfold history at 1. rewrite Hthis. unfold after_dispatch.
  destruct (dispatched_all_history (default [] (OpenAIMessage.tool_calls response))
              (pushed (OpenAIClient.assistant_tool_message response) s))
    as (results & -> & Hids & Hroles).
  exists results. cbn. by rewrite <- app_assoc.
Qed.

(** The history after a round of the Anthropic client whose reply has a
    tool-use block: the assistant turn with the reply, then one user
    turn with one tool result per tool-use block. *)
Lemma anthropic_round_history fetch tools response
      (s : machine AnthropicMessage.t AnthropicRequest.t) id name input :
  isConnected (this s) = true ->
  In (AnthropicMessage.tool_use id name input) (AnthropicResponse.content response) ->
  exists results,
    history (AnthropicClient.round fetch tools response s).2
    = history s ++ [AnthropicClient.assistant_message response;
                    AnthropicMessage.mk AnthropicMessage.user
                      (AnthropicMessage.Blocks results)]
    /\ omap tool_result_id_of results
       = omap tool_use_id_of (AnthropicResponse.content response)
    /\ length results = length (omap tool_use_id_of (AnthropicResponse.content response)).
Proof.
  intros Hc Hin. rewrite anthropic_round_run by done. cbv zeta.
  destruct (dispatched_blocks_results (AnthropicResponse.content response) []
              (pushed (AnthropicClient.assistant_message response) s))
    as (Hthis & (results & Hres & Hids & Hlen) & _).
  cbn [app] in Hres.
  destruct (fold_left _ _ _) as [trs s1]. cbn [fst snd] in *. subst trs.
  destruct results as [|tr results].
  { exfalso. apply (tool_use_counted _ _ _ _ Hin). by apply nil_length_inv. }
  match goal with |- context [AnthropicClient.callAnthropic _ ?m ?t ?x] =>
    destruct (callAnthropic_effect fetch m t x) as (Ht & _);
    destruct (AnthropicClient.callAnthropic fetch m t x) as [[r|e|] s3]
  end; cbn [fst snd] in *; exists (tr :: results);
    (split; [|done]); unfold history; rewrite Ht; cbn; rewrite Hthis; cbn;
    by rewrite <- app_assoc.
Qed.
End RoundHistory.

(** C6.  The tool results of a round follow its requests.  With any
    tool server, the dispatch phase completes normally and
    - in the two clients of the OpenAI format, appends to the history
      one tool message per requested call, in the order of the
      requests, each with the id of its call;
    - in the Anthropic client, collects one [tool_result] block per
      [tool_use] block of the reply, in the order of the blocks, each
      with the id of its block.
    The calls themselves are made one after the other, in the same
    order: a call is awaited before the next one is made.  At the end
    of the round the history holds, after the assistant turn with the
    requests, these results in that order (OpenAI client: as that many
    tool turns; Anthropic client: as the blocks of one user turn). *)
Theorem tool_results_follow_the_requests (H : Host) :
  (forall tcs (s : machine OpenAIMessage.t OpenAIRequest.t),
      isConnected (this s) = true ->
      let r := for_of tcs OpenAIClient.dispatch s in
      r.1 = Return tt
      /\ (exists results,
             history r.2 = history s ++ results
             /\ map OpenAIMessage.tool_call_id results
                = map (fun tc => Some (OpenAIMessage.id tc)) tcs
             /\ map OpenAIMessage.role results = map (fun _ => OpenAIMessage.tool) tcs)
      /\ invocations (calls r.2) = invocations (calls s) ++ omap invocation_of tcs)
  /\ (forall (Tools : Type) tcs
             (s : machine OpenAIMessage.t (list OpenAIMessage.t * Tools)),
         isConnected (this s) = true ->
         let r := for_of tcs DraftClient.dispatch s in
         r.1 = Return tt
         /\ (exists results,
                history r.2 = history s ++ results
                /\ map OpenAIMessage.tool_call_id results
                   = map (fun tc => Some (OpenAIMessage.id tc)) tcs
                /\ map OpenAIMessage.role results = map (fun _ => OpenAIMessage.tool) tcs)
         /\ invocations (calls r.2) = invocations (calls s) ++ omap invocation_of tcs)
  /\ (forall blocks (s : machine AnthropicMessage.t AnthropicRequest.t),
         isConnected (this s) = true ->
         let r := for_of_acc blocks [] AnthropicClient.dispatch s in
         (exists results,
             r.1 = Return results
             /\ omap tool_result_id_of results = omap tool_use_id_of blocks
             /\ length results = length (omap tool_use_id_of blocks))
         /\ history r.2 = history s
         /\ invocations (calls r.2)
            = invocations (calls s) ++ omap block_invocation_of blocks)
  /\ (forall fetch tools response (s : machine OpenAIMessage.t OpenAIRequest.t),
         isConnected (this s) = true ->
         exists results,
           history (OpenAIClient.round fetch tools response s).2
           = history s ++ OpenAIClient.assistant_tool_message response :: results
           /\ map OpenAIMessage.tool_call_id results
              = map (fun tc => Some (OpenAIMessage.id tc))
                    (default [] (OpenAIMessage.tool_calls response))
           /\ map OpenAIMessage.role results
              = map (fun _ => OpenAIMessage.tool)
                    (default [] (OpenAIMessage.tool_calls response)))
  /\ (forall fetch tools response (s : machine AnthropicMessage.t AnthropicRequest.t)
             id name input,
         isConnected (this s) = true ->
         In (AnthropicMessage.tool_use id name input) (AnthropicResponse.content response) ->
         exists results,
           history (AnthropicClient.round fetch tools response s).2
           = history s ++ [AnthropicClient.assistant_message response;
                           AnthropicMessage.mk AnthropicMessage.user
                             (AnthropicMessage.Blocks results)]
           /\ omap tool_result_id_of results
              = omap tool_use_id_of (AnthropicResponse.content response)
           /\ length results
              = length (omap tool_use_id_of (AnthropicResponse.content response))).
Proof.
  split; [|split; [|split; [|split]]];
    [| | |intros; by apply round_history|intros; by eapply anthropic_round_history].
  - intros tcs s Hc r. subst r. rewrite for_of_dispatch_run by done.
    split; [done|]. cbn [snd]. unfold history.
    destruct (dispatched_all_history tcs s) as (results & -> & Hids & Hroles).
    destruct (dispatched_all_calls tcs s) as [-> _].
    split; [|done]. by exists results.
  - intros Tools tcs s Hc r. subst r. rewrite draft_for_of_dispatch_run by done.
    split; [done|]. cbn [snd]. unfold history.
    destruct (dispatched_all_history tcs s) as (results & -> & Hids & Hroles).
    destruct (dispatched_all_calls tcs s) as [-> _].
    split; [|done]. by exists results.
  - intros blocks s Hc r. subst r. rewrite anthropic_for_of_dispatch_run by done.
    cbn [fst snd]. unfold history.
    destruct (dispatched_blocks_results blocks [] s)
      as (-> & (results & -> & Hids & Hlen) & -> & _).
    split; [|done]. by exists results.
Qed.

Lemma tool_results_follow_the_requests_witness :
  let first := OpenAIMessage.mkToolCall "call_a" "function"
                 (OpenAIMessage.mkFunction "nope" "{}") in
  let second := OpenAIMessage.mkToolCall "call_b" "function"
                  (OpenAIMessage.mkFunction "calculator" "{}") in
  let s : machine OpenAIMessage.t OpenAIRequest.t := Demo.start 0 [] in
  isConnected (this s) = true
  /\ exists results,
      history (for_of [first; second] OpenAIClient.dispatch s).2 = history s ++ results
      /\ map OpenAIMessage.tool_call_id results = [Some "call_a"; Some "call_b"].
Proof.
  intros first second s.
  assert (isConnected (this s) = true) as Hc by reflexivity.
  split; [exact Hc|].
  destruct (tool_results_follow_the_requests Demo.host) as (Hopenai & _).
  destruct (Hopenai [first; second] s Hc) as (_ & (results & Hh & Hids & _) & _).
  exists results. split; [exact Hh|exact Hids].
Defined.

Section FinalReply.
Context {H : Host}.



Lemma no_tool_use_dispatched blocks
      (st : list AnthropicMessage.block * machine AnthropicMessage.t AnthropicRequest.t) :
  (forall id name input, ~ In (AnthropicMessage.tool_use id name input) blocks) ->
  fold_left dispatched_block blocks st = st.
Proof.
  revert st. induction blocks as [|b blocks IH]; intros st Hno; [done|].
  simpl. rewrite IH.
  - destruct b as [t|id name input|id c e]; try done.
    exfalso. apply (Hno id name input). by left.
  - intros id name input Hin. apply (Hno id name input). by right.
Qed.


(** The reply that ends the loop of the Anthropic client: one whose
    stop reason is not ['tool_use'], or, when a round is followed, one
    that has no [tool_use] block (the [break]). *)
Lemma anthropic_ask_final fetch fuel question
      (s : machine AnthropicMessage.t AnthropicRequest.t) w response reply :
  isConnected (this s) = true ->
  let user := AnthropicMessage.mk AnthropicMessage.user (AnthropicMessage.Str question) in
  let s1 := pushed user s in
  let body := AnthropicClient.requestBody (this s1) (history s ++ [user])
                (convertMCPToolsToAnthropic (availableTools (this s))) in
  fetch (world s) body = (w, Normal response) ->
  ok response = true ->
  json response = Normal reply ->
  (String.eqb (AnthropicResponse.stop_reason reply) "tool_use" = false
   /\ AnthropicClient.ask fetch fuel question s
      = (Return (AnthropicClient.finalResponse (AnthropicResponse.content reply)),
         pushed (AnthropicClient.assistant_message reply) (called (EvFetch body) w s1)))
  \/ (String.eqb (AnthropicResponse.stop_reason reply) "tool_use" = true
      /\ ((1 <= fuel)%nat ->
          (forall id name input,
              ~ In (AnthropicMessage.tool_use id name input)
                   (AnthropicResponse.content reply)) ->
          AnthropicClient.ask fetch fuel question s
          = (Return (AnthropicClient.finalResponse (AnthropicResponse.content reply)),
             pushed (AnthropicClient.assistant_message reply)
                    (pushed (AnthropicClient.assistant_message reply)
                            (called (EvFetch body) w s1))))).
Proof.
  intros Hc user s1 body Hf Hok Hj.
  assert (AnthropicClient.callAnthropic fetch (history s1)
            (convertMCPToolsToAnthropic (availableTools (this s))) s1
          = (Return reply, called (EvFetch body) w s1)) as Hcall.
  { rewrite callAnthropic_run. cbv zeta.
    change (AnthropicClient.requestBody (this s1) (history s1)
              (convertMCPToolsToAnthropic (availableTools (this s)))) with body.
    change (world s1) with (world s). by rewrite Hf, Hok, Hj. }
  destruct (String.eqb (AnthropicResponse.stop_reason reply) "tool_use") eqn:Hstop.
  - right. split; [done|]. intros Hfuel Hno.
    rewrite anthropic_ask_run by done. cbv zeta. fold user s1. rewrite Hcall.
    destruct fuel as [|fuel]; [lia|].
    cbn [AnthropicClient.ask_while]. rewrite Hstop. unfold mbind, M_bind.
    rewrite anthropic_round_run by done. cbv zeta.
    by rewrite (no_tool_use_dispatched _ _ Hno).
  - left. split; [done|].
    rewrite anthropic_ask_run by done. cbv zeta. fold user s1. rewrite Hcall.
    by rewrite anthropic_ask_while_done.
Qed.
End FinalReply.







(** C9, as amended.  A failure of the tool-listing call does not make
    catalog loading fail: [loadTools] catches the error and completes
    normally, and the catalog is the empty list, whatever it held
    before.  [connect] therefore completes normally as well, with the
    client connected, and the completion requests that follow carry no
    [tools] field. *)
Theorem listing_failure_empties_the_catalog (H : Host) (Msg Req : Type) :
  (forall (s : machine Msg Req) w e,
      sdk_listTools (world s) = (w, Thrown e) ->
      loadTools s
      = (Return tt, mkMachine (set_availableTools [] (this s)) w (calls s ++ [EvListTools])))
  /\ (forall (s : machine Msg Req) w1 w2 e,
         isConnected (this s) = false ->
         sdk_connect (world s) = (w1, Normal tt) ->
         sdk_listTools w1 = (w2, Thrown e) ->
         connect s
         = (Return tt,
            mkMachine (set_availableTools [] (set_isConnected true (this s))) w2
                      (calls s ++ [EvConnect; EvListTools])))
  /\ (forall c messages,
         OpenAIRequest.tools
           (OpenAIClient.requestBody c messages (convertMCPToolsToOpenAI [])) = None)
  /\ (forall c messages,
         AnthropicRequest.tools
           (AnthropicClient.requestBody c messages (convertMCPToolsToAnthropic [])) = None).
Proof.
  split; [|split; [|split]]; try done.
  - intros s w e Hl. unfold loadTools, try_catch, mbind, M_bind, await.
    by rewrite Hl.
  - intros s w1 w2 e Hc Hconn Hl.
    unfold connect, loadTools, try_catch, mbind, M_bind, read_this, await. cbn.
    rewrite Hc, Hconn. cbn. rewrite Hl. cbn. by rewrite <- app_assoc.
Qed.

Lemma listing_failure_empties_the_catalog_witness :
  let s : machine unit unit := Demo.start 0 [] in
  @sdk_listTools Demo.host (world s)
  = (world s, Thrown (mkError "McpError" "MCP error -32000: Connection closed"))
  /\ availableTools (this s) = [Demo.calculator]
  /\ availableTools (this (loadTools s).2) = [].
Proof.
  intros s.
  assert (@sdk_listTools Demo.host (world s)
          = (world s, Thrown (mkError "McpError" "MCP error -32000: Connection closed")))
    as Hl by reflexivity.
  split; [exact Hl|]. split; [reflexivity|].
  destruct (listing_failure_empties_the_catalog Demo.host unit unit) as (Hload & _).
  by rewrite (Hload s _ _ Hl).
Defined.

(** C9, as stated, fails: with a listing call that fails, catalog
    loading does not fail.  [loadTools] and [connect] complete
    normally. *)
Lemma catalog_loading_counterexample :
  let s : machine unit unit := Demo.start 0 [] in
  let fresh_client : machine unit unit := Demo.created in
  (loadTools s).1 = Return tt
  /\ ~ (exists e, (loadTools s).1 = Throw e)
  /\ (connect fresh_client).1 = Return tt
  /\ isConnected (this (connect fresh_client).2) = true.
Proof.
  cbv zeta. split; [reflexivity|]. split; [|split; reflexivity].
  intros [e He]. discriminate He.
Qed.

(** * Further properties of the code *)

(** ** Normalisation and conversion *)

Lemma render_item_throws item :
  (exists e, render_item item = Thrown e) <-> item = JNull.
Proof.
  split.
  - intros [e He]. destruct item as [| b | n | s | items | fields]; try done.
    unfold render_item, prop in He.
    destruct (is_text_type (assoc "type" fields)); discriminate.
  - intros ->. eexists. reflexivity.
Qed.

Lemma Array_map_render_throws items :
  (exists e, Array_map render_item items = Thrown e) <-> In JNull items.
Proof.
  induction items as [|item items IH].
  - split; [intros [e He]; discriminate|intros []].
  - simpl. destruct (render_item item) as [r|e] eqn:Hr.
    + assert (item <> JNull) as Hnn.
      { intros ->. discriminate. }
      destruct (Array_map render_item items) as [rs|e'] eqn:Hrs.
      * split; [intros [e He]; discriminate|].
        intros [Heq | Hin]; [congruence|].
        apply IH in Hin. destruct Hin as [e He]. discriminate.
      * split; [|by eauto]. intros _. right. apply IH. eauto.
    + split; [|by eauto]. intros _. left.
      apply render_item_throws. eauto.
Qed.

Lemma Array_map_render_TypeError items e :
  Array_map render_item items = Thrown e -> name e = "TypeError".
Proof.
  induction items as [|item items IH]; [discriminate|]. simpl.
  destruct (render_item item) as [r|e'] eqn:Hr.
  - destruct (Array_map render_item items) as [rs|e'']; [discriminate|].
    intros [= <-]. by apply IH.
  - intros [= <-]. destruct item as [| b | n | s | its | fields]; try discriminate.
    + by injection Hr as <-.
    + unfold render_item, prop in Hr.
      destruct (is_text_type (assoc "type" fields)); discriminate.
Qed.

(** X1.  The normalisation of a tool result throws in two cases only:
    the payload is [null], or its [content] is an array with a [null]
    item; what it throws is a TypeError.  For every other payload, of
    whatever shape, it yields a text. *)
Theorem resultContent_throws_iff (payload : value) :
  ((exists e, resultContent payload = Thrown e)
   <-> payload = JNull
       \/ exists items, content_of payload = Some (JArr items) /\ In JNull items)
  /\ (forall e, resultContent payload = Thrown e -> name e = "TypeError").
Proof.
  assert (payload = JNull \/ payload <> JNull) as [-> | Hnn]
    by (destruct payload; (by left) || (by right)).
  { split; [|by intros e [= <-]]. split; [by left|]. intros _. eexists. reflexivity. }
  unfold resultContent. rewrite (prop_content _ Hnn).
  destruct (content_of payload) as [[| b | n | s | items | fields]|] eqn:Hc; simpl.
  all: try (split; [split; [intros [e He]; discriminate
                           |intros [?|(items' & Heq & _)]; congruence]
                   |intros e He; discriminate]).
  - destruct b; (split; [split; [intros [e He]; discriminate
                           |intros [?|(items' & Heq & _)]; congruence]
                   |intros e He; discriminate]).
  - destruct (n =? 0)%Z; (split; [split; [intros [e He]; discriminate
                           |intros [?|(items' & Heq & _)]; congruence]
                   |intros e He; discriminate]).
  - destruct s; (split; [split; [intros [e He]; discriminate
                           |intros [?|(items' & Heq & _)]; congruence]
                   |intros e He; discriminate]).
  - destruct (Array_map render_item items) as [rs|e] eqn:Hm.
    + split; [|intros e He; discriminate].
      split; [intros [e He]; discriminate|].
      intros [?|(items' & [= <-] & Hin)]; [done|].
      apply Array_map_render_throws in Hin. destruct Hin as [e He]. congruence.
    + split.
      * split; [|by eauto]. intros _. right. exists items. split; [done|].
        apply Array_map_render_throws. eauto.
      * intros e' [= <-]. by eapply Array_map_render_TypeError.
Qed.

(** X2.  Every description that [convertMCPToolsToOpenAI] and
    [convertMCPToolsToAnthropic] put out is a non-empty string, whatever
    the catalog holds. *)
Theorem converted_descriptions_are_not_empty (catalog : list Tool.t) :
  Forall (fun entry => OpenAITool.description (OpenAITool.function entry) <> EmptyString)
         (convertMCPToolsToOpenAI catalog)
  /\ Forall (fun entry => AnthropicTool.description entry <> EmptyString)
            (convertMCPToolsToAnthropic catalog).
Proof.
  assert (forall tool, description_or_default tool <> EmptyString) as Hd.
  { intros tool. unfold description_or_default.
    destruct (Tool.description tool) as [[|c d]|]; done. }
  unfold convertMCPToolsToOpenAI, convertMCPToolsToAnthropic.
  split; apply Forall_fmap, Forall_forall; intros tool _; apply Hd.
Qed.

(** X3.  On a catalog whose tools all have a non-empty description and
    a truthy input schema, the stand-alone converter and the client's
    converter agree: [transformMCPToolsToOpenAI] yields the entries of
    [convertMCPToolsToOpenAI]. *)
Theorem converters_agree_on_complete_tools (catalog : list Tool.t) :
  Forall (fun tool =>
            (exists d, Tool.description tool = Some d /\ d <> EmptyString)
            /\ truthy (Tool.inputSchema tool) = true) catalog ->
  Transformer.transformMCPToolsToOpenAI catalog
  = map as_transformed (convertMCPToolsToOpenAI catalog).
Proof.
  induction 1 as [|tool catalog [(d & Hd & Hne) Hs] _ IH]; [done|].
  cbn [Transformer.transformMCPToolsToOpenAI convertMCPToolsToOpenAI map].
  f_equal; [|exact IH].
  unfold as_transformed, description_or_default, inputSchema_or.
  cbn [OpenAITool.type OpenAITool.function OpenAITool.name OpenAITool.description
       OpenAITool.parameters].
  rewrite Hd. destruct (Tool.inputSchema tool) as [schema|]; [|done].
  rewrite Hs. by destruct d.
Qed.

Lemma converters_agree_on_complete_tools_witness :
  let tool := Tool.mk "get_weather" (Some "Get current weather for a location")
                (Some (JObj [("type", JStr "object")])) in
  Transformer.transformMCPToolsToOpenAI [tool]
  = map as_transformed (convertMCPToolsToOpenAI [tool]).
Proof.
  intros tool. apply converters_agree_on_complete_tools.
  repeat constructor. exists "Get current weather for a location". by split.
Defined.

Lemma resultContent_throws_iff_witness :
  resultContent (JObj [("content", JArr [JNull])])
  = Thrown (new_TypeError "Cannot read properties of null (reading 'type')")
  /\ name (new_TypeError "Cannot read properties of null (reading 'type')") = "TypeError".
Proof.
  assert (resultContent (JObj [("content", JArr [JNull])])
          = Thrown (new_TypeError "Cannot read properties of null (reading 'type')"))
    as Hrun by reflexivity.
  split; [exact Hrun|].
  exact (proj2 (resultContent_throws_iff (JObj [("content", JArr [JNull])])) _ Hrun).
Defined.

(** ** The client: what a call of [ask] adds *)

Section Extends.
Context {H : Host} {Msg Req : Type}.
Implicit Types (s : machine Msg Req).

Lemma extends_refl s : extends s s [] [].
Proof.
  split; [|by rewrite app_nil_r].
  unfold history. rewrite app_nil_r. by destruct (this s).
Qed.

Lemma extends_trans s1 s2 s3 more1 new1 more2 new2 :
  extends s1 s2 more1 new1 -> extends s2 s3 more2 new2 ->
  extends s1 s3 (more1 ++ more2) (new1 ++ new2).
Proof.
  intros [Ht1 Hc1] [Ht2 Hc2]. split.
  - rewrite Ht2. unfold history. rewrite Ht1. cbn. by rewrite app_assoc.
  - by rewrite Hc2, Hc1, app_assoc.
Qed.

Lemma extends_pushed s m : extends s (pushed m s) [m] [].
Proof. split; [done|]. cbn. by rewrite app_nil_r. Qed.

Lemma extends_called s ev w : extends s (called ev w s) [] [ev].
Proof.
  split; [|done]. cbn. unfold history. rewrite app_nil_r. by destruct (this s).
Qed.

Lemma extends_connected s s' more new :
  extends s s' more new -> isConnected (this s') = isConnected (this s).
Proof. by intros [-> _]. Qed.

Lemma requests_app (l1 l2 : list (event Req)) :
  requests (l1 ++ l2) = requests l1 ++ requests l2.
Proof. unfold requests. apply omap_app. Qed.
End Extends.

Section OpenAITrace.
Context {H : Host}.
Variable fetch : World -> OpenAIRequest.t -> World * completion (Response OpenAIMessage.t).
Implicit Types (s : machine OpenAIMessage.t OpenAIRequest.t).

Lemma dispatched_extends {Req} (s0 : machine OpenAIMessage.t Req) tc :
  exists more new, extends s0 (dispatched s0 tc) more new /\ requests new = [].
Proof.
  destruct (dispatched_this s0 tc) as [text Ht].
  eexists _, _. split; [split; [exact Ht|apply dispatched_calls]|].
  by destruct (invocation_of tc) as [[n a]|].
Qed.

Lemma dispatched_all_extends {Req} tcs (s0 : machine OpenAIMessage.t Req) :
  exists more new, extends s0 (fold_left dispatched tcs s0) more new /\ requests new = [].
Proof.
  revert s0. induction tcs as [|tc tcs IH]; intros s0.
  - exists [], []. split; [apply extends_refl|done].
  - simpl. destruct (dispatched_extends s0 tc) as (m1 & n1 & He1 & Hr1).
    destruct (IH (dispatched s0 tc)) as (m2 & n2 & He2 & Hr2).
    exists (m1 ++ m2), (n1 ++ n2). split; [by eapply extends_trans|].
    by rewrite requests_app, Hr1, Hr2.
Qed.

Lemma after_dispatch_extends {Req} response (s0 : machine OpenAIMessage.t Req) :
  exists more new,
    extends s0 (after_dispatch response s0) more new /\ requests new = [].
Proof.
  unfold after_dispatch.
  destruct (dispatched_all_extends (default [] (OpenAIMessage.tool_calls response))
              (pushed (OpenAIClient.assistant_tool_message response) s0))
    as (m & n & He & Hr).
  eexists _, _. split.
  - eapply extends_trans; [apply extends_pushed|exact He].
  - done.
Qed.

Lemma requestBody_history c h messages tools :
  OpenAIClient.requestBody (set_conversationHistory h c) messages tools
  = OpenAIClient.requestBody c messages tools.
Proof. by destruct tools. Qed.

(** What a request of a run started in [s] looks like: the model and
    the token limit of the client, the given schemas, and messages that
    begin with [first]. *)
Local Abbreviation sent_from s first tools :=
  (fun body => exists rest,
       body = OpenAIClient.requestBody (this s) (first ++ rest) tools).

Lemma callOpenAI_extends tools s0 s more0 new0 :
  extends s0 s more0 new0 ->
  let r := OpenAIClient.callOpenAI fetch (history s) tools s in
  exists body,
    extends s0 r.2 more0 (new0 ++ [EvFetch body])
    /\ body = OpenAIClient.requestBody (this s0) (history s0 ++ more0) tools.
Proof.
  intros [Ht Hc]. rewrite callOpenAI_run. cbv zeta.
  destruct (fetch _ _) as [w r]. cbn [snd].
  eexists. split; [split|].
  - cbn. exact Ht.
  - cbn. by rewrite Hc, app_assoc.
  - unfold history at 1. rewrite Ht. by rewrite requestBody_history.
Qed.

Lemma ask_while_extends fuel tools reply s0 s first more0 new0 :
  isConnected (this s0) = true ->
  extends s0 s more0 new0 ->
  first `prefix_of` history s0 ++ more0 ->
  Forall (sent_from s0 first tools) (requests new0) ->
  let r := OpenAIClient.ask_while fetch fuel tools reply s in
  exists more new,
    extends s0 r.2 (more0 ++ more) (new0 ++ new)
    /\ Forall (sent_from s0 first tools) (requests (new0 ++ new)).
Proof.
  revert reply s more0 new0.
  induction fuel as [|fuel IH]; intros reply s more0 new0 Hc He Hpre Hall.
  - exists [], []. cbn. rewrite !app_nil_r.
    destruct (OpenAIClient.requests_tools reply); by split.
  - destruct (OpenAIClient.requests_tools reply) eqn:Hr.
    2:{ exists [], []. rewrite ask_while_done by done. rewrite !app_nil_r. by split. }
    cbv zeta. rewrite ask_while_step by done. unfold mbind, M_bind.
    assert (isConnected (this s) = true) as Hcs
      by (by rewrite (extends_connected _ _ _ _ He)).
    rewrite round_run by done.
    destruct (after_dispatch_extends reply s) as (m1 & n1 & He1 & Hr1).
    pose proof (extends_trans _ _ _ _ _ _ _ He He1) as He01.
    destruct (callOpenAI_extends tools s0 (after_dispatch reply s) _ _ He01)
      as (body & He2 & Hbody).
    assert (first `prefix_of` history s0 ++ more0 ++ m1) as Hpre2.
    { rewrite app_assoc. by apply prefix_app_r. }
    assert (Forall (sent_from s0 first tools)
                   (requests ((new0 ++ n1) ++ [EvFetch body]))) as Hall2.
    { rewrite !requests_app, Hr1, app_nil_r. apply Forall_app. split; [done|].
      constructor; [|done]. destruct Hpre2 as [k Hk]. exists k. by rewrite Hbody, Hk. }
    destruct (OpenAIClient.callOpenAI fetch _ tools _) as [[reply'|e|] s2];
      cbn [fst snd] in *.
    + destruct (IH reply' s2 (more0 ++ m1) ((new0 ++ n1) ++ [EvFetch body]) Hc He2)
        as (m3 & n3 & He3 & Hall3); [exact Hpre2|done|].
      exists (m1 ++ m3), ((n1 ++ [EvFetch body]) ++ n3).
      rewrite <- ?app_assoc in *. by split.
    + exists m1, (n1 ++ [EvFetch body]). rewrite <- ?app_assoc in *. by split.
    + exists m1, (n1 ++ [EvFetch body]). rewrite <- ?app_assoc in *. by split.
Qed.

(** What a call of [ask] by a connected client adds, whatever its
    outcome. *)
Lemma ask_extends fuel question s :
  isConnected (this s) = true ->
  let r := OpenAIClient.ask fetch fuel question s in
  let first := history s ++ [OpenAIClient.user_message question] in
  let tools := convertMCPToolsToOpenAI (availableTools (this s)) in
  exists more new,
    extends s r.2 (OpenAIClient.user_message question :: more)
            (EvFetch (OpenAIClient.requestBody (this s) first tools) :: new)
    /\ Forall (sent_from s first tools) (requests new).
Proof.
  intros Hc r first tools. subst r. rewrite ask_run by done. cbv zeta.
  destruct (callOpenAI_extends tools s (pushed (OpenAIClient.user_message question) s)
              _ _ (extends_pushed s _)) as (body & He & Hbody).
  fold tools. fold first in Hbody. cbn [app] in He.
  destruct (OpenAIClient.callOpenAI fetch _ tools _) as [[reply|e|] s2]; cbn [fst snd] in *.
  - destruct (ask_while_extends fuel tools reply s s2 first _ _ Hc He) as (m & n & He2 & Hall).
    { done. }
    { constructor; [|done]. exists []. by rewrite Hbody, app_nil_r. }
    destruct (OpenAIClient.ask_while fetch fuel tools reply s2) as [[final|e|] s3];
      cbn [fst snd] in *.
    + exists (m ++ [OpenAIClient.assistant_message final]), n.
      split; [|by inversion Hall].
      pose proof (extends_trans _ _ _ _ _ _ _ He2
                    (extends_pushed s3 (OpenAIClient.assistant_message final))) as He3.
      rewrite app_nil_r in He3. rewrite <- Hbody. exact He3.
    + exists m, n. rewrite <- Hbody. split; [done|by inversion Hall].
    + exists m, n. rewrite <- Hbody. split; [done|by inversion Hall].
  - exists [], []. rewrite <- Hbody. by split.
  - exists [], []. rewrite <- Hbody. by split.
Qed.
End OpenAITrace.

Section DraftTrace.
Context {H : Host} {Tools : Type}.
Variable convert : MCPClient OpenAIMessage.t -> Tools.
Variable endpoint :
  World -> list OpenAIMessage.t -> Tools -> World * completion OpenAIMessage.t.
Implicit Types (s : machine OpenAIMessage.t (list OpenAIMessage.t * Tools)).


End DraftTrace.

Section AnthropicTrace.
Context {H : Host}.
Variable fetch :
  World -> AnthropicRequest.t -> World * completion (Response AnthropicResponse.t).
Implicit Types (s : machine AnthropicMessage.t AnthropicRequest.t).

Lemma dispatched_blocks_extends blocks acc s :
  exists new, extends s (fold_left dispatched_block blocks (acc, s)).2 [] new.
Proof.
  revert acc s. induction blocks as [|b blocks IH]; intros acc s.
  - exists []. apply extends_refl.
  - simpl. destruct b as [t|id name input|id c e]; simpl; try apply IH.
    destruct (sdk_callTool (world s) name input) as [w r].
    match goal with |- context [fold_left _ _ (?a, called ?ev w s)] =>
      destruct (IH a (called ev w s)) as (n & He);
      pose proof (extends_trans _ _ _ _ _ _ _ (extends_called s ev w) He) as He'
    end.
    eexists. exact He'.
Qed.

Lemma callAnthropic_extends messages tools s :
  exists new, extends s (AnthropicClient.callAnthropic fetch messages tools s).2 [] new.
Proof.
  rewrite callAnthropic_run. cbv zeta. destruct (fetch _ _) as [w r]. cbn [snd].
  eexists. apply extends_called.
Qed.

Lemma anthropic_round_extends tools response s :
  isConnected (this s) = true ->
  exists more new, extends s (AnthropicClient.round fetch tools response s).2 more new.
Proof.
  intros Hc. rewrite anthropic_round_run by done. cbv zeta.
  destruct (dispatched_blocks_extends (AnthropicResponse.content response) []
              (pushed (AnthropicClient.assistant_message response) s)) as (n1 & He1).
  pose proof (extends_trans _ _ _ _ _ _ _
                (extends_pushed s (AnthropicClient.assistant_message response)) He1) as He01.
  destruct (fold_left _ _ _) as [[|tr trs] s1]; cbn [fst snd] in *.
  - eexists _, _. exact He01.
  - match goal with |- context [AnthropicClient.callAnthropic _ ?m ?t (pushed ?u s1)] =>
      destruct (callAnthropic_extends m t (pushed u s1)) as (n2 & He2);
      pose proof (extends_trans _ _ _ _ _ _ _ He01
                    (extends_trans _ _ _ _ _ _ _ (extends_pushed s1 u) He2)) as He3;
      destruct (AnthropicClient.callAnthropic fetch m t (pushed u s1)) as [[r|e|] s3]
    end; cbn [fst snd] in *; eexists _, _; exact He3.
Qed.

Lemma anthropic_ask_while_extends fuel tools reply s :
  isConnected (this s) = true ->
  exists more new,
    extends s (AnthropicClient.ask_while fetch fuel tools reply s).2 more new.
Proof.
  revert reply s. induction fuel as [|fuel IH]; intros reply s Hc.
  - exists [], []. cbn. destruct (String.eqb _ _); apply extends_refl.
  - cbn [AnthropicClient.ask_while].
    destruct (String.eqb _ _); [|exists [], []; apply extends_refl].
    unfold mbind, M_bind.
    destruct (anthropic_round_extends tools reply s Hc) as (m1 & n1 & He1).
    destruct (AnthropicClient.round fetch tools reply s) as [[[reply'|]|e|] s1];
      cbn [fst snd] in *; try (eexists _, _; exact He1).
    destruct (IH reply' s1) as (m2 & n2 & He2).
    { by rewrite (extends_connected _ _ _ _ He1). }
    eexists _, _. eapply extends_trans; [exact He1|exact He2].
Qed.

Lemma anthropic_ask_extends fuel question s :
  isConnected (this s) = true ->
  let user := AnthropicMessage.mk AnthropicMessage.user (AnthropicMessage.Str question) in
  exists more new,
    extends s (AnthropicClient.ask fetch fuel question s).2 (user :: more) new.
Proof.
  intros Hc user. rewrite anthropic_ask_run by done. cbv zeta. fold user.
  pose proof (extends_pushed s user) as He0.
  destruct (callAnthropic_extends (history (pushed user s))
              (convertMCPToolsToAnthropic (availableTools (this s))) (pushed user s))
    as (n1 & He1).
  pose proof (extends_trans _ _ _ _ _ _ _ He0 He1) as He01.
  destruct (AnthropicClient.callAnthropic fetch _ _ _) as [[reply|e|] s2];
    cbn [fst snd] in *; try (eexists _, _; exact He01).
  destruct (anthropic_ask_while_extends fuel
              (convertMCPToolsToAnthropic (availableTools (this s))) reply s2)
    as (m2 & n2 & He2).
  { by rewrite (extends_connected _ _ _ _ He01). }
  pose proof (extends_trans _ _ _ _ _ _ _ He01 He2) as He02.
  destruct (AnthropicClient.ask_while fetch fuel _ reply s2) as [[final|e|] s3];
    cbn [fst snd] in *; try (eexists _, _; exact He02).
  pose proof (extends_trans _ _ _ _ _ _ _ He02
                (extends_pushed s3 (AnthropicClient.assistant_message final))) as He3.
  eexists _, _. exact He3.
Qed.
End AnthropicTrace.

Lemma extends_frame {H : Host} {Msg Req : Type} (s s' : machine Msg Req) more new :
  extends s s' more new ->
  history s' = history s ++ more
  /\ availableTools (this s') = availableTools (this s)
  /\ isConnected (this s') = isConnected (this s)
  /\ model (this s') = model (this s)
  /\ maxTokens (this s') = maxTokens (this s)
  /\ calls s `prefix_of` calls s'.
Proof.
  intros [Ht Hc]. unfold history. rewrite Ht, Hc. repeat split.
  by apply prefix_app_r.
Qed.




(** X6.  After [clearHistory], the next [ask] starts afresh: its first
    completion request carries the user turn and nothing else, the
    history it leaves begins with that turn, and the catalog is still
    the one loaded at [connect]. *)
Theorem ask_after_clearHistory (H : Host) fetch (fuel : nat) (question : string)
        (s : machine OpenAIMessage.t OpenAIRequest.t) :
  isConnected (this s) = true ->
  let r := (clearHistory ;; OpenAIClient.ask fetch fuel question) s in
  (exists body new,
      calls r.2 = calls s ++ EvFetch body :: new
      /\ OpenAIRequest.messages body = [OpenAIClient.user_message question])
  /\ (exists more, history r.2 = OpenAIClient.user_message question :: more)
  /\ availableTools (this r.2) = availableTools (this s).
Proof.
  intros Hc r. subst r. unfold mbind, M_bind, clearHistory, modify_this.
  set (s0 := mkMachine (set_conversationHistory [] (this s)) (world s) (calls s)).
  assert (isConnected (this s0) = true) as Hc0 by done.
  destruct (ask_extends fetch fuel question s0 Hc0) as (more & new & He & _).
  destruct (extends_frame _ _ _ _ He) as (Hh & Ha & _).
  destruct He as [_ Hcalls]. repeat split.
  - eexists _, new. split; [exact Hcalls|]. unfold OpenAIClient.requestBody.
    by destruct (convertMCPToolsToOpenAI _).
  - exists more. exact Hh.
  - exact Ha.
Qed.

Lemma ask_after_clearHistory_witness :
  let s : machine OpenAIMessage.t OpenAIRequest.t :=
    Demo.start 0 [OpenAIClient.user_message "earlier"; Demo.final (Some "reply")] in
  isConnected (this s) = true
  /\ history ((clearHistory ;; OpenAIClient.ask Demo.tools_then_done 3 "again") s).2
     = [OpenAIClient.user_message "again";
        OpenAIClient.assistant_message (Demo.final (Some "The answer is 4."))].
Proof.
  intros s.
  assert (isConnected (this s) = true) as Hc by reflexivity.
  split; [exact Hc|].
  destruct (ask_after_clearHistory Demo.host Demo.tools_then_done 3 "again" s Hc)
    as (_ & (more & Hh) & _).
  rewrite Hh. f_equal.
  assert (history ((clearHistory ;; OpenAIClient.ask Demo.tools_then_done 3 "again") s).2
          = [OpenAIClient.user_message "again";
             OpenAIClient.assistant_message (Demo.final (Some "The answer is 4."))])
    as Hrun by (vm_compute; reflexivity).
  rewrite Hh in Hrun. by injection Hrun.
Defined.

(** ** The client: connecting and disconnecting *)

(** X7.  [connect].
    - A connected client refuses: ['Client is already connected'], and
      nothing changes, nothing is called.
    - When the SDK fails to connect, [connect] throws ['Failed to
      connect to MCP server: '] and the error; the client is still not
      connected, its catalog is as it was, and the listing is not asked
      for.
    - When the SDK connects, [connect] completes normally whatever the
      listing call does; the client is connected and its catalog is the
      listing (empty when the listing has no [tools], or fails). *)
Theorem connect_outcomes (H : Host) (Msg Req : Type) (s : machine Msg Req) :
  (isConnected (this s) = true ->
   connect s = (Throw (new_Error "Client is already connected"), s))
  /\ (forall w e,
         isConnected (this s) = false ->
         sdk_connect (world s) = (w, Thrown e) ->
         connect s
         = (Throw (new_Error ("Failed to connect to MCP server: " +:+ Error_toString e)),
            called EvConnect w s))
  /\ (forall w1 w2 listing,
         isConnected (this s) = false ->
         sdk_connect (world s) = (w1, Normal tt) ->
         sdk_listTools w1 = (w2, listing) ->
         connect s
         = (Return tt,
            mkMachine
              (set_availableTools
                 (match listing with
                  | Normal (Some tools) => tools
                  | _ => []
                  end)
                 (set_isConnected true (this s)))
              w2 (calls s ++ [EvConnect; EvListTools]))).
Proof.
  split; [|split].
  - intros Hc. unfold connect, mbind, M_bind, read_this. cbn. by rewrite Hc.
  - intros w e Hc Hconn.
    unfold connect, try_catch, mbind, M_bind, read_this, await. cbn.
    by rewrite Hc, Hconn.
  - intros w1 w2 listing Hc Hconn Hl.
    unfold connect, loadTools, try_catch, mbind, M_bind, read_this, await. cbn.
    rewrite Hc, Hconn. cbn. rewrite Hl.
    destruct listing as [[tools|]|e]; cbn; by rewrite <- app_assoc.
Qed.

Lemma connect_outcomes_witness :
  let s := @DemoMore.created unit unit in
  isConnected (this s) = false
  /\ isConnected (this (@connect DemoMore.listing_host unit unit s).2) = true
  /\ availableTools (this (@connect DemoMore.listing_host unit unit s).2)
     = [Demo.calculator]
  /\ (@connect DemoMore.listing_host unit unit
        (@connect DemoMore.listing_host unit unit s).2).1
     = Throw (new_Error "Client is already connected").
Proof.
  intros s.
  assert (isConnected (this s) = false) as Hc by reflexivity.
  split; [exact Hc|].
  destruct (connect_outcomes DemoMore.listing_host unit unit s) as (_ & _ & Hok).
  rewrite (Hok _ _ _ Hc eq_refl eq_refl). cbn [snd this isConnected availableTools
    set_availableTools set_isConnected].
  split; [reflexivity|]. split; [reflexivity|].
  match goal with |- (connect ?s').1 = _ =>
    destruct (connect_outcomes DemoMore.listing_host unit unit s') as (Halready & _) end.
  by rewrite Halready.
Defined.

(** X8.  [disconnect].
    - On a client that is not connected it does nothing and calls
      nothing.
    - When the SDK closes, the client is no longer connected, its
      history and catalog are kept, and from then on [callTool] and
      [ask] throw ['Client is not connected'] without calling anything.
    - When the SDK fails to close, the error reaches the caller and the
      client is still marked connected. *)
Theorem disconnect_outcomes (H : Host) :
  (forall (Msg Req : Type) (s : machine Msg Req),
      isConnected (this s) = false -> disconnect s = (Return tt, s))
  /\ (forall (Msg Req : Type) (s : machine Msg Req) w,
         isConnected (this s) = true ->
         sdk_close (world s) = (w, Normal tt) ->
         let s' := mkMachine (set_isConnected false (this s)) w (calls s ++ [EvClose]) in
         disconnect s = (Return tt, s')
         /\ forall name arguments_,
             callTool name arguments_ s'
             = (Throw (new_Error "Client is not connected"), s'))
  /\ (forall fetch (fuel : nat) (question : string)
             (s : machine OpenAIMessage.t OpenAIRequest.t) w,
         isConnected (this s) = true ->
         sdk_close (world s) = (w, Normal tt) ->
         (disconnect ;; OpenAIClient.ask fetch fuel question) s
         = (Throw (new_Error "Client is not connected"),
            mkMachine (set_isConnected false (this s)) w (calls s ++ [EvClose])))
  /\ (forall fetch (fuel : nat) (question : string)
             (s : machine AnthropicMessage.t AnthropicRequest.t) w,
         isConnected (this s) = true ->
         sdk_close (world s) = (w, Normal tt) ->
         (disconnect ;; AnthropicClient.ask fetch fuel question) s
         = (Throw (new_Error "Client is not connected"),
            mkMachine (set_isConnected false (this s)) w (calls s ++ [EvClose])))
  /\ (forall (Msg Req : Type) (s : machine Msg Req) w e,
         isConnected (this s) = true ->
         sdk_close (world s) = (w, Thrown e) ->
         disconnect s = (Throw e, called EvClose w s)
         /\ isConnected (this (disconnect s).2) = true).
Proof.
  assert (forall (Msg Req : Type) (s : machine Msg Req) w,
             isConnected (this s) = true ->
             sdk_close (world s) = (w, Normal tt) ->
             disconnect s
             = (Return tt,
                mkMachine (set_isConnected false (this s)) w (calls s ++ [EvClose])))
    as Hclose.
  { intros Msg Req s w Hc Hcl.
    unfold disconnect, mbind, M_bind, read_this, await. cbn. by rewrite Hc, Hcl. }
  split; [|split; [|split; [|split]]].
  - intros Msg Req s Hc. unfold disconnect, mbind, M_bind, read_this. cbn. by rewrite Hc.
  - intros Msg Req s w Hc Hcl s'. split; [by apply Hclose|].
    intros name arguments_. by unfold callTool, mbind, M_bind, read_this.
  - intros fetch fuel question s w Hc Hcl.
    unfold mbind at 1, M_bind at 1. by rewrite (Hclose _ _ s w Hc Hcl).
  - intros fetch fuel question s w Hc Hcl.
    unfold mbind at 1, M_bind at 1. by rewrite (Hclose _ _ s w Hc Hcl).
  - intros Msg Req s w e Hc Hcl.
    unfold disconnect, mbind, M_bind, read_this, await. cbn. by rewrite Hc, Hcl.
Qed.

Lemma disconnect_outcomes_witness :
  let s : machine OpenAIMessage.t OpenAIRequest.t :=
    Demo.start 0 [OpenAIClient.user_message "hello"] in
  isConnected (this s) = true
  /\ ((disconnect ;; OpenAIClient.ask Demo.always_tools 3 "again") s).1
     = Throw (new_Error "Client is not connected")
  /\ history ((disconnect ;; OpenAIClient.ask Demo.always_tools 3 "again") s).2
     = [OpenAIClient.user_message "hello"].
Proof.
  intros s.
  assert (isConnected (this s) = true) as Hc by reflexivity.
  split; [exact Hc|].
  destruct (disconnect_outcomes Demo.host) as (_ & _ & Hask & _).
  by rewrite (Hask Demo.always_tools 3%nat "again" s _ Hc eq_refl).
Defined.

(** X9.  Failures of the transport to the model.  When [fetch] itself
    rejects, or the body of a success reply cannot be read, [ask] of
    the OpenAI client throws that very error (it is not turned into an
    ['OpenAI API error']), after one request, and the history holds the
    user turn and nothing more of the call. *)
Theorem transport_error_reaches_the_caller (H : Host) fetch (fuel : nat)
        (question : string) (s : machine OpenAIMessage.t OpenAIRequest.t) w e :
  isConnected (this s) = true ->
  let body := OpenAIClient.requestBody (this s)
                (history s ++ [OpenAIClient.user_message question])
                (convertMCPToolsToOpenAI (availableTools (this s))) in
  fetch (world s) body = (w, Thrown e)
  \/ (exists response,
         fetch (world s) body = (w, Normal response)
         /\ ok response = true /\ json response = Thrown e) ->
  OpenAIClient.ask fetch fuel question s
  = (Throw e, called (EvFetch body) w (pushed (OpenAIClient.user_message question) s)).
Proof.
  intros Hc body Hf. rewrite ask_run by done. cbv zeta. rewrite callOpenAI_run. cbv zeta.
  change (OpenAIClient.requestBody _ _ _) with body.
  change (world (pushed (OpenAIClient.user_message question) s)) with (world s).
  destruct Hf as [-> | (response & -> & Hok & Hj)]; [done|]. by rewrite Hok, Hj.
Qed.

Lemma transport_error_reaches_the_caller_witness :
  let s : machine OpenAIMessage.t OpenAIRequest.t := Demo.start 0 [] in
  isConnected (this s) = true
  /\ (OpenAIClient.ask DemoMore.offline 3 "hello" s).1
     = Throw (mkError "TypeError" "fetch failed")
  /\ history (OpenAIClient.ask DemoMore.offline 3 "hello" s).2
     = [OpenAIClient.user_message "hello"].
Proof.
  intros s.
  assert (isConnected (this s) = true) as Hc by reflexivity.
  split; [exact Hc|].
  by rewrite (transport_error_reaches_the_caller Demo.host DemoMore.offline 3 "hello" s
                (world s) _ Hc (or_introl eq_refl)).
Defined.

(** ** Arrays: what a copy is isolated from *)

Section Snapshots.
Context {Elem : Type}.
Implicit Types (h : gmap nat (list Elem)) (this : @Arrays.object).

(** X10.  For a client whose history and catalog are two arrays, as
    the field initialisers make them: the array that [getHistory()]
    returned is a snapshot, a later [push] onto the history by [ask]
    and a later [clearHistory] leave its elements as they were.  After
    [clearHistory] the history of the client is empty and is a new
    array; the array that held the history until then is untouched,
    and so is the catalog. *)
Theorem getHistory_is_a_snapshot this h (x : Elem) :
  Arrays.allocated this h ->
  Arrays.availableTools this <> Arrays.conversationHistory this ->
  let g := Arrays.getHistory this h in
  let pushed := Arrays.push this x g.2 in
  let cleared := Arrays.clearHistory this pushed in
  Arrays.spread pushed g.1 = Arrays.spread h (Arrays.conversationHistory this)
  /\ Arrays.spread pushed (Arrays.conversationHistory this)
     = Arrays.spread h (Arrays.conversationHistory this) ++ [x]
  /\ Arrays.spread cleared.2 (Arrays.conversationHistory cleared.1) = []
  /\ Arrays.conversationHistory cleared.1 <> Arrays.conversationHistory this
  /\ Arrays.spread cleared.2 g.1 = Arrays.spread h (Arrays.conversationHistory this)
  /\ Arrays.spread cleared.2 (Arrays.conversationHistory this)
     = Arrays.spread h (Arrays.conversationHistory this) ++ [x]
  /\ Arrays.availableTools cleared.1 = Arrays.availableTools this
  /\ Arrays.spread cleared.2 (Arrays.availableTools this)
     = Arrays.spread h (Arrays.availableTools this).
Proof.
  intros [Hh Ht] Hdiff g pushed cleared.
  destruct (spread_copy_fresh h (Arrays.conversationHistory this) Hh)
    as (Hfresh & Hcopy & Hkeep & _).
  destruct (array_literal_frame h (Arrays.spread h (Arrays.conversationHistory this))
              _ Hh) as [Hne _].
  change (Arrays.array_literal (Arrays.spread h (Arrays.conversationHistory this)) h)
    with g in Hfresh, Hcopy, Hkeep, Hne.
  assert (Arrays.spread pushed g.1 = Arrays.spread h (Arrays.conversationHistory this))
    as Hp1.
  { rewrite <- Hcopy. unfold Arrays.spread, pushed, Arrays.push.
    by rewrite mutate_frame by done. }
  assert (pushed !! Arrays.conversationHistory this
          = Some (Arrays.spread h (Arrays.conversationHistory this) ++ [x])) as Hp2.
  { unfold pushed, Arrays.push, Arrays.mutate. rewrite lookup_alter_eq, (Hkeep _ Hh).
    destruct Hh as [l Hl]. unfold Arrays.spread. by rewrite Hl. }
  assert (pushed !! Arrays.availableTools this = h !! Arrays.availableTools this) as Hp3.
  { unfold pushed, Arrays.push. by rewrite mutate_frame, (Hkeep _ Ht). }
  assert (is_Some (pushed !! g.1)) as Hs1.
  { unfold pushed, Arrays.push. rewrite mutate_frame by done.
    unfold g, Arrays.getHistory. rewrite array_literal_lookup. eauto. }
  assert (is_Some (pushed !! Arrays.conversationHistory this)) as Hs2
    by (rewrite Hp2; eauto).
  assert (is_Some (pushed !! Arrays.availableTools this)) as Hs3
    by (by rewrite Hp3).
  unfold cleared, Arrays.clearHistory.
  destruct (array_literal_frame pushed [] _ Hs1) as [_ Hc1].
  destruct (array_literal_frame pushed [] _ Hs2) as [Hcn Hc2].
  destruct (array_literal_frame pushed [] _ Hs3) as [_ Hc3].
  pose proof (array_literal_lookup pushed []) as Hnew.
  destruct (Arrays.array_literal [] pushed) as [r hc]. cbn [fst snd] in *.
  cbn [Arrays.conversationHistory Arrays.availableTools].
  repeat split.
  - exact Hp1.
  - unfold Arrays.spread. by rewrite Hp2.
  - unfold Arrays.spread. by rewrite Hnew.
  - by apply not_eq_sym.
  - unfold Arrays.spread in *. by rewrite Hc1.
  - unfold Arrays.spread. by rewrite Hc2, Hp2.
  - unfold Arrays.spread. by rewrite Hc3, Hp3.
Qed.
End Snapshots.

Lemma getHistory_is_a_snapshot_witness :
  let this := Arrays.mkObject 0 1 in
  let h : gmap nat (list string) :=
    {[ 0%nat := ["user turn"]; 1%nat := ["calculator"] ]} in
  Arrays.allocated this h
  /\ Arrays.availableTools this <> Arrays.conversationHistory this
  /\ Arrays.spread (Arrays.push this "assistant turn" (Arrays.getHistory this h).2)
                   (Arrays.getHistory this h).1
     = ["user turn"].
Proof.
  intros this h.
  assert (Arrays.allocated this h) as Halloc by (split; vm_compute; eauto).
  assert (Arrays.availableTools this <> Arrays.conversationHistory this) as Hdiff by done.
  split; [exact Halloc|]. split; [exact Hdiff|].
  destruct (getHistory_is_a_snapshot this h "assistant turn" Halloc Hdiff) as (Hsnap & _).
  rewrite Hsnap. reflexivity.
Defined.
(** ** The servers and what the clients make of their replies *)

Lemma resultContent_text_payload text isError :
  resultContent (CalculatorServer.text_payload text isError) = Normal text.
Proof. by destruct isError. Qed.

Lemma resultContent_text_content text :
  resultContent (SimpleServer.text_content text) = Normal text.
Proof. done. Qed.

Lemma is_string_spec v s :
  CalculatorServer.is_string v s = true <-> v = JStr s.
Proof.
  destruct v; cbn; try (split; [done | congruence]).
  destruct (String.eqb_spec s0 s); split; try done; congruence.
Qed.

Lemma begins_with_intro start rest : begins_with start (start +:+ rest).
Proof. by exists rest. Qed.

(** X11. With arguments that pass its validation the calculator always
    answers: the call is never rejected.  The answer carries [isError]
    exactly when the operation is none of the four, or a division by
    zero; it then reads "Error: ...", and "Result: ..." otherwise. *)
Theorem calculator_answers_every_valid_request
        (fraction_text : Z -> Z -> string) arguments_ operation a b :
  calculator_arguments arguments_ operation a b ->
  exists text isError,
    CalculatorServer.handler fraction_text "calculator" arguments_
    = Normal (CalculatorServer.text_payload text isError)
    /\ (isError = true
        <-> ~ known_operation operation \/ (operation = JStr "divide" /\ b = 0%Z))
    /\ (isError = true -> begins_with "Error: " text)
    /\ (isError = false -> begins_with "Result: " text).
Proof.
  intros (fields & -> & Hop & Htruthy & Ha & Hb).
  unfold CalculatorServer.handler.
  cbn [String.eqb Ascii.eqb Bool.eqb negb CalculatorServer.destructure].
  change (negb (String.eqb "calculator" "calculator")) with false. cbn iota.
  rewrite Hop, Ha, Hb, Htruthy.
  unfold CalculatorServer.calculate, known_operation.
  destruct (CalculatorServer.is_string operation "add") eqn:Eadd.
  { apply is_string_spec in Eadd. eexists _, false.
    split; [reflexivity|]. split; [|split; [done | intros _; apply begins_with_intro]].
    split; [done|]. intros [Hk | [Hd _]]; [exfalso; apply Hk; tauto | congruence]. }
  destruct (CalculatorServer.is_string operation "subtract") eqn:Esub.
  { apply is_string_spec in Esub. eexists _, false.
    split; [reflexivity|]. split; [|split; [done | intros _; apply begins_with_intro]].
    split; [done|]. intros [Hk | [Hd _]]; [exfalso; apply Hk; tauto | congruence]. }
  destruct (CalculatorServer.is_string operation "multiply") eqn:Emul.
  { apply is_string_spec in Emul. eexists _, false.
    split; [reflexivity|]. split; [|split; [done | intros _; apply begins_with_intro]].
    split; [done|]. intros [Hk | [Hd _]]; [exfalso; apply Hk; tauto | congruence]. }
  destruct (CalculatorServer.is_string operation "divide") eqn:Ediv.
  { apply is_string_spec in Ediv. destruct (Z.eqb_spec b 0) as [Hz | Hz].
    - eexists _, true. split; [reflexivity|].
      split; [|split; [intros _; apply begins_with_intro | done]].
      split; [|done]. intros _. right. done.
    - eexists _, false. split; [reflexivity|].
      split; [|split; [done | intros _; apply begins_with_intro]].
      split; [done|]. intros [Hk | [_ Hb0]]; [exfalso; apply Hk; tauto | done]. }
  eexists _, true. split; [reflexivity|].
  split; [|split; [intros _; apply begins_with_intro | done]].
  split; [|done]. intros _. left.
  intros [Hk | [Hk | [Hk | Hk]]]; apply is_string_spec in Hk; congruence.
Qed.

Lemma calculator_answers_every_valid_request_witness :
  calculator_arguments
    (Some (JObj [("operation", JStr "divide"); ("a", JNum 1); ("b", JNum 0)]))
    (JStr "divide") 1 0
  /\ exists text isError,
      CalculatorServer.handler (fun _ _ => EmptyString) "calculator"
        (Some (JObj [("operation", JStr "divide"); ("a", JNum 1); ("b", JNum 0)]))
      = Normal (CalculatorServer.text_payload text isError)
      /\ (isError = true
          <-> ~ known_operation (JStr "divide") \/ (JStr "divide" = JStr "divide" /\ 0%Z = 0%Z))
      /\ (isError = true -> begins_with "Error: " text)
      /\ (isError = false -> begins_with "Result: " text).
Proof.
  assert (calculator_arguments
            (Some (JObj [("operation", JStr "divide"); ("a", JNum 1); ("b", JNum 0)]))
            (JStr "divide") 1 0) as Hvalid.
  { eexists. repeat split; reflexivity. }
  split; [exact Hvalid|].
  exact (calculator_answers_every_valid_request (fun _ _ => EmptyString) _ _ _ _ Hvalid).
Defined.

(** X12. The calculator rejects a call exactly when the tool is not
    [calculator] or the arguments fail its validation; a wrong tool name
    is rejected whatever the arguments are. *)
Theorem calculator_rejects_iff (fraction_text : Z -> Z -> string) name arguments_ :
  ((exists e, CalculatorServer.handler fraction_text name arguments_ = Thrown e)
   <-> name <> "calculator"
       \/ ~ exists operation a b, calculator_arguments arguments_ operation a b)
  /\ (name <> "calculator" ->
      CalculatorServer.handler fraction_text name arguments_
      = Thrown (new_Error ("Unknown tool: " +:+ name))).
Proof.
  unfold CalculatorServer.handler.
  destruct (String.eqb_spec name "calculator") as [-> | Hname]; cbn [negb].
  2:{ split; [|done]. split; [by left | by eexists]. }
  split; [|done].
  assert (forall fields, arguments_ = Some (JObj fields) ->
          forall operation a b,
            assoc "operation" fields = Some operation ->
            truthy (Some operation) = true ->
            assoc "a" fields = Some (JNum a) -> assoc "b" fields = Some (JNum b) ->
            exists operation a b, calculator_arguments arguments_ operation a b) as Hvalid.
  { intros fields -> operation a b ? ? ? ?. exists operation, a, b, fields. done. }
  assert (forall e : Error,
             (~ exists operation a b, calculator_arguments arguments_ operation a b) ->
             (exists e', @Thrown value e = Thrown e')
             <-> "calculator" <> "calculator"
                 \/ ~ exists operation a b, calculator_arguments arguments_ operation a b)
    as Hthrown.
  { intros e Hno. split; [by right | by eexists]. }
  assert (forall v : value,
             (exists operation a b, calculator_arguments arguments_ operation a b) ->
             (exists e', Normal v = Thrown e')
             <-> "calculator" <> "calculator"
                 \/ ~ exists operation a b, calculator_arguments arguments_ operation a b)
    as Hnormal.
  { intros v Hyes. split; [intros [? ?]; done | intros [? | Hno]; [done | by destruct Hno]]. }
  destruct arguments_ as [[|?|?|?|?|fields]|]; cbn [CalculatorServer.destructure truthy];
    try (apply Hthrown; intros (op' & a' & b' & fields' & Heq & Hop & _);
         first [discriminate Heq | by injection Heq as <-]).
  destruct (assoc "operation" fields) as [operation|] eqn:Hop.
  2:{ cbn [truthy]. apply Hthrown. intros (operation & a & b & fields' & [= <-] & Hop' & _). congruence. }
  destruct (truthy (Some operation)) eqn:Htruthy.
  2:{ apply Hthrown.
      intros (operation' & a & b & fields' & [= <-] & Hop' & Ht & _). congruence. }
  destruct (assoc "a" fields) as [[|?|a|?|?|?]|] eqn:Ha;
    try (apply Hthrown;
         intros (operation' & a' & b' & fields' & [= <-] & _ & _ & Ha' & _); congruence).
  destruct (assoc "b" fields) as [[|?|b|?|?|?]|] eqn:Hb;
    try (apply Hthrown;
         intros (operation' & a' & b' & fields' & [= <-] & _ & _ & _ & Hb'); congruence).
  destruct (CalculatorServer.calculate operation a b);
    apply Hnormal; eapply Hvalid; eauto.
Qed.

(** X13. Every payload that one of the servers returns is rendered by
    the clients as the text it carries, and is never marked as an error
    by them, whether or not the server has set [isError]. *)
Theorem server_payloads_reach_the_model_as_text
        (fraction_text : Z -> Z -> string)
        (readFile : option value -> completion string)
        (roll30 roll4 roll50 : nat)
        (js_eval toLocaleString : string -> completion string)
        name arguments_ payload :
  CalculatorServer.handler fraction_text name arguments_ = Normal payload
  \/ FileServer.handler readFile name arguments_ = Normal payload
  \/ WeatherServer.handler roll30 roll4 roll50 name arguments_ = Normal payload
  \/ SimpleServer.callToolHandler js_eval toLocaleString name arguments_
     = SimpleServer.Done payload ->
  exists text,
    prop payload "content"
    = Normal (Some (JArr [JObj [("type", JStr "text"); ("text", JStr text)]]))
    /\ resultContent payload = Normal text
    /\ tool_text (Normal payload) = text
    /\ is_error_of (Normal payload) = None.
Proof.
  assert (forall text isError,
             exists text',
               prop (CalculatorServer.text_payload text isError) "content"
               = Normal (Some (JArr [JObj [("type", JStr "text"); ("text", JStr text')]]))
               /\ resultContent (CalculatorServer.text_payload text isError) = Normal text'
               /\ tool_text (Normal (CalculatorServer.text_payload text isError)) = text'
               /\ is_error_of (Normal (CalculatorServer.text_payload text isError)) = None)
    as Hpayload.
  { intros text isError. exists text. unfold tool_text, is_error_of.
    rewrite resultContent_text_payload. by destruct isError. }
  assert (forall text,
             exists text',
               prop (SimpleServer.text_content text) "content"
               = Normal (Some (JArr [JObj [("type", JStr "text"); ("text", JStr text')]]))
               /\ resultContent (SimpleServer.text_content text) = Normal text'
               /\ tool_text (Normal (SimpleServer.text_content text)) = text'
               /\ is_error_of (Normal (SimpleServer.text_content text)) = None)
    as Hcontent.
  { intros text. by exists text. }
  intros [Hcalc | [Hfile | [Hweather | Hsimple]]].
  - unfold CalculatorServer.handler in Hcalc.
    destruct (negb (String.eqb name "calculator")); [done|].
    destruct (CalculatorServer.destructure arguments_) as [[[operation a] b]|]; [|done].
    destruct (truthy operation); [|done].
    destruct operation as [operation|]; [|done].
    destruct a as [[|?|a|?|?|?]|]; try done.
    destruct b as [[|?|b|?|?|?]|]; try done.
    destruct (CalculatorServer.calculate operation a b);
      injection Hcalc as <-; apply Hpayload.
  - unfold FileServer.handler in Hfile.
    destruct (negb (String.eqb name "read_file")); [done|].
    destruct (FileServer.destructure arguments_) as [filepath|]; [|done].
    destruct (readFile filepath); injection Hfile as <-; apply Hpayload.
  - unfold WeatherServer.handler in Hweather.
    destruct (negb (String.eqb name "get_weather")); [done|].
    destruct (WeatherServer.destructure arguments_) as [[city units]|]; [|done].
    injection Hweather as <-. apply Hpayload.
  - unfold SimpleServer.callToolHandler in Hsimple.
    destruct (String.eqb name "get_weather").
    { unfold SimpleServer.handleGetWeather in Hsimple.
      destruct (SimpleServer.field arguments_ "location") as [location|[]]; try done.
      destruct (SimpleServer.field arguments_ "unit") as [unit0|[]]; try done.
      injection Hsimple as <-. apply Hcontent. }
    destruct (String.eqb name "calculate").
    { unfold SimpleServer.handleCalculate in Hsimple.
      destruct (SimpleServer.field arguments_ "expression") as [expression|[]]; try done.
      match type of Hsimple with
      | context [match ?attempt with Normal _ => _ | Thrown _ => _ end] =>
          destruct attempt; [|done]
      end.
      injection Hsimple as <-. apply Hcontent. }
    destruct (String.eqb name "get_time"); [|done].
    unfold SimpleServer.handleGetTime in Hsimple.
    destruct (SimpleServer.field arguments_ "timezone") as [timezone0|[]]; try done.
    match type of Hsimple with
    | context [match ?attempt with Normal _ => _ | Thrown _ => _ end] =>
        destruct attempt; [|done]
    end.
    injection Hsimple as <-. apply Hcontent.
Qed.

Lemma server_payloads_reach_the_model_as_text_witness :
  exists payload,
    CalculatorServer.handler (fun _ _ => EmptyString) "calculator"
      (Some (JObj [("operation", JStr "divide"); ("a", JNum 1); ("b", JNum 0)]))
    = Normal payload
    /\ prop payload "isError" = Normal (Some (JBool true))
    /\ tool_text (Normal payload) = "Error: Cannot divide by zero"
    /\ is_error_of (Normal payload) = None.
Proof.
  eexists. split; [reflexivity|]. split; [reflexivity|].
  destruct (server_payloads_reach_the_model_as_text
              (fun _ _ => EmptyString) (fun _ => Normal EmptyString) 0 0 0
              (fun _ => Normal EmptyString) (fun _ => Normal EmptyString)
              "calculator"
              (Some (JObj [("operation", JStr "divide"); ("a", JNum 1); ("b", JNum 0)]))
              _ (or_introl eq_refl))
    as (text & Hcontent & _ & Htext & Hflag).
  split; [|exact Hflag].
  rewrite Htext. injection Hcontent as <-. reflexivity.
Defined.

Lemma calculator_rejects_iff_witness :
  "adder" <> "calculator"
  /\ CalculatorServer.handler (fun _ _ => EmptyString) "adder"
       (Some (JObj [("operation", JStr "add"); ("a", JNum 1); ("b", JNum 2)]))
     = Thrown (new_Error "Unknown tool: adder").
Proof.
  assert ("adder" <> "calculator") as Hname by done.
  split; [exact Hname|].
  exact (proj2 (calculator_rejects_iff (fun _ _ => EmptyString) "adder"
                  (Some (JObj [("operation", JStr "add"); ("a", JNum 1); ("b", JNum 2)])))
               Hname).
Defined.

(** *** The simple server *)

Lemma field_raises args k t :
  SimpleServer.field args k = SimpleServer.Raise t ->
  (args = None \/ args = Some JNull) /\ exists e, t = SimpleServer.Js e.
Proof.
  destruct args as [[| | | | |]|]; cbn; intros Heq; try done;
    injection Heq as <-; eauto.
Qed.

Lemma field_of_missing args k :
  args = None \/ args = Some JNull ->
  exists e, SimpleServer.field args k = SimpleServer.Raise (SimpleServer.Js e).
Proof. intros [-> | ->]; cbn; eauto. Qed.

(** X14. The simple server answers a call or raises an [McpError],
    nothing else: [MethodNotFound] exactly for a tool it does not have,
    [InternalError] exactly when the arguments of one of its tools are
    missing or [null], and [InvalidParams] only from [calculate] and
    [get_time]. *)
Theorem simple_server_raises_protocol_errors
        (js_eval toLocaleString : string -> completion string) name args t :
  SimpleServer.callToolHandler js_eval toLocaleString name args = SimpleServer.Raise t ->
  let known := name = "get_weather" \/ name = "calculate" \/ name = "get_time" in
  exists code m,
    t = SimpleServer.Mcp code m
    /\ (code = SimpleServer.MethodNotFound <-> ~ known)
    /\ (code = SimpleServer.InternalError
        <-> known /\ (args = None \/ args = Some JNull))
    /\ (code = SimpleServer.InvalidParams -> name = "calculate" \/ name = "get_time").
Proof.
  intros Hraise known. unfold SimpleServer.callToolHandler in Hraise.
  assert (forall e : Error, ~ (args = None \/ args = Some JNull) ->
          forall k, SimpleServer.field args k <> SimpleServer.Raise (SimpleServer.Js e))
    as Hpresent.
  { intros e Hno k Heq. apply field_raises in Heq as [? _]. done. }
  destruct (String.eqb_spec name "get_weather") as [-> | Hw].
  { unfold SimpleServer.handleGetWeather in Hraise.
    destruct (SimpleServer.field args "location") as [location|t1] eqn:Hloc.
    - destruct (SimpleServer.field args "unit") as [unit0|t2] eqn:Hunit; [done|].
      apply field_raises in Hunit as [Hmissing [e ->]].
      destruct (field_of_missing args "location" Hmissing). congruence.
    - apply field_raises in Hloc as [Hmissing [e ->]]. injection Hraise as <-.
      eexists _, _. split; [reflexivity|]. unfold known.
      intuition congruence. }
  destruct (String.eqb_spec name "calculate") as [-> | Hc].
  { unfold SimpleServer.handleCalculate in Hraise.
    destruct (SimpleServer.field args "expression") as [expression|t1] eqn:Hexp.
    - assert (~ (args = None \/ args = Some JNull)) as Hthere.
      { intros Hmissing. destruct (field_of_missing args "expression" Hmissing). congruence. }
      match type of Hraise with
      | context [match ?attempt with Normal _ => _ | Thrown _ => _ end] =>
          destruct attempt; [done|]
      end.
      injection Hraise as <-. eexists _, _. split; [reflexivity|]. unfold known.
      intuition congruence.
    - apply field_raises in Hexp as [Hmissing [e ->]]. injection Hraise as <-.
      eexists _, _. split; [reflexivity|]. unfold known.
      intuition congruence. }
  destruct (String.eqb_spec name "get_time") as [-> | Ht].
  { unfold SimpleServer.handleGetTime in Hraise.
    destruct (SimpleServer.field args "timezone") as [timezone0|t1] eqn:Hzone.
    - assert (~ (args = None \/ args = Some JNull)) as Hthere.
      { intros Hmissing. destruct (field_of_missing args "timezone" Hmissing). congruence. }
      match type of Hraise with
      | context [match ?attempt with Normal _ => _ | Thrown _ => _ end] =>
          destruct attempt; [done|]
      end.
      injection Hraise as <-. eexists _, _. split; [reflexivity|]. unfold known.
      intuition congruence.
    - apply field_raises in Hzone as [Hmissing [e ->]]. injection Hraise as <-.
      eexists _, _. split; [reflexivity|]. unfold known.
      intuition congruence. }
  injection Hraise as <-. eexists _, _. split; [reflexivity|]. unfold known.
  intuition congruence.
Qed.

Lemma simple_server_raises_protocol_errors_witness :
  SimpleServer.callToolHandler (fun _ => Normal EmptyString) (fun _ => Normal EmptyString)
    "get_weather" None
  = SimpleServer.Raise
      (SimpleServer.Mcp SimpleServer.InternalError
         "Tool execution failed: Cannot destructure property 'location' of 'args' as it is undefined.")
  /\ exists code m,
      SimpleServer.Mcp SimpleServer.InternalError
        "Tool execution failed: Cannot destructure property 'location' of 'args' as it is undefined."
      = SimpleServer.Mcp code m
      /\ (code = SimpleServer.MethodNotFound
          <-> ~ ("get_weather" = "get_weather" \/ "get_weather" = "calculate"
                 \/ "get_weather" = "get_time"))
      /\ (code = SimpleServer.InternalError
          <-> ("get_weather" = "get_weather" \/ "get_weather" = "calculate"
               \/ "get_weather" = "get_time")
              /\ (@None value = None \/ None = Some JNull))
      /\ (code = SimpleServer.InvalidParams
          -> "get_weather" = "calculate" \/ "get_weather" = "get_time").
Proof.
  assert (SimpleServer.callToolHandler (fun _ => Normal EmptyString)
            (fun _ => Normal EmptyString) "get_weather" None
          = SimpleServer.Raise
              (SimpleServer.Mcp SimpleServer.InternalError
                 "Tool execution failed: Cannot destructure property 'location' of 'args' as it is undefined."))
    as Hrun by reflexivity.
  split; [exact Hrun|].
  exact (simple_server_raises_protocol_errors _ _ _ _ _ Hrun).
Defined.

Lemma sanitize_length e :
  (String.length (SimpleServer.sanitize e) <= String.length e)%nat.
Proof.
  induction e as [|c rest IH]; cbn; [lia|].
  destruct (SimpleServer.allowed c); cbn; lia.
Qed.


Lemma sanitize_fixed_iff e :
  SimpleServer.sanitize e = e <-> every SimpleServer.allowed e = true.
Proof.
  induction e as [|c rest IH]; cbn; [done|].
  destruct (SimpleServer.allowed c) eqn:Hc; cbn.
  - rewrite <- IH. split; [by intros [= ->] | by intros ->].
  - split; [|done]. intros Heq.
    pose proof (sanitize_length rest) as Hlen. rewrite Heq in Hlen. cbn in Hlen. lia.
Qed.

(** X15. [calculate] of the simple server evaluates an expression only
    if every character of it is a digit, an operator sign, a dot, a
    parenthesis or a space; any other expression is refused with
    [InvalidParams] whatever [eval] would have made of it, and so is an
    expression on which [eval] throws. *)
Theorem calculate_evaluates_clean_expressions_only
        (js_eval : string -> completion string) fields e :
  assoc "expression" fields = Some (JStr e) ->
  SimpleServer.handleCalculate js_eval (Some (JObj fields))
  = if every SimpleServer.allowed e then
      match js_eval e with
      | Normal r => SimpleServer.Done (SimpleServer.text_content (e +:+ " = " +:+ r))
      | Thrown error =>
          SimpleServer.Raise
            (SimpleServer.Mcp SimpleServer.InvalidParams
               ("Invalid mathematical expression: " +:+ message error))
      end
    else
      SimpleServer.Raise
        (SimpleServer.Mcp SimpleServer.InvalidParams
           "Invalid mathematical expression: Invalid characters in expression").
Proof.
  intros Hexp. unfold SimpleServer.handleCalculate. cbn [SimpleServer.field].
  rewrite Hexp. cbn [SimpleServer.template ToString].
  destruct (every SimpleServer.allowed e) eqn:Hall.
  - apply sanitize_fixed_iff in Hall. rewrite Hall, String.eqb_refl. cbn [negb].
    by destruct (js_eval e).
  - destruct (String.eqb_spec (SimpleServer.sanitize e) e) as [Hfixed | _]; [|done].
    apply sanitize_fixed_iff in Hfixed. congruence.
Qed.

Lemma calculate_evaluates_clean_expressions_only_witness :
  assoc "expression" [("expression", JStr "process.exit(1)")]
  = Some (JStr "process.exit(1)")
  /\ forall js_eval,
      SimpleServer.handleCalculate js_eval
        (Some (JObj [("expression", JStr "process.exit(1)")]))
      = SimpleServer.Raise
          (SimpleServer.Mcp SimpleServer.InvalidParams
             "Invalid mathematical expression: Invalid characters in expression").
Proof.
  split; [reflexivity|]. intros js_eval.
  exact (calculate_evaluates_clean_expressions_only js_eval
           [("expression", JStr "process.exit(1)")] "process.exit(1)" eq_refl).
Defined.


Lemma append_inj_r (a x y : string) : a +:+ x = a +:+ y -> x = y.
Proof. induction a as [|c a IH]; cbn; [done|]. intros [= ?]. auto. Qed.

(** X17. The weather tool of the simple server has two readings only:
    the Celsius one for the unit [celsius] or no unit, and the
    Fahrenheit one for any other unit, [null] and misspellings
    included.  Two requests for one location get the same answer
    exactly when they fall on the same side. *)
Theorem simple_weather_has_two_readings fields fields' :
  assoc "location" fields = assoc "location" fields' ->
  let celsius f :=
    match assoc "unit" f with
    | None => true
    | Some u => SimpleServer.is_celsius (Some u)
    end in
  SimpleServer.handleGetWeather (Some (JObj fields))
  = SimpleServer.handleGetWeather (Some (JObj fields'))
  <-> celsius fields = celsius fields'.
Proof.
  intros Hloc celsius. unfold SimpleServer.handleGetWeather.
  cbn [SimpleServer.field]. rewrite Hloc.
  assert (forall f,
             SimpleServer.is_celsius
               (match assoc "unit" f with
                | None => Some (JStr "celsius")
                | Some u => Some u
                end) = celsius f) as Hside.
  { intros f. unfold celsius. by destruct (assoc "unit" f). }
  rewrite !Hside.
  unfold SimpleServer.mockWeather.
  cbn [SimpleServer.temperature SimpleServer.unit SimpleServer.condition
       SimpleServer.humidity SimpleServer.windSpeed].
  rewrite !Hside.
  destruct (celsius fields), (celsius fields'); split; try done; intros Heq; exfalso;
    injection Heq as Heq;
    do 5 apply append_inj_r in Heq; vm_compute in Heq; discriminate Heq.
Qed.

Lemma simple_weather_has_two_readings_witness :
  SimpleServer.handleGetWeather
    (Some (JObj [("location", JStr "Oslo"); ("unit", JStr "kelvin")]))
  = SimpleServer.handleGetWeather
      (Some (JObj [("location", JStr "Oslo"); ("unit", JStr "fahrenheit")])).
Proof.
  apply (simple_weather_has_two_readings
           [("location", JStr "Oslo"); ("unit", JStr "kelvin")]
           [("location", JStr "Oslo"); ("unit", JStr "fahrenheit")] eq_refl).
  reflexivity.
Defined.

(** X18. The mock weather server shows Celsius unless the unit is the
    string [fahrenheit].  With a first draw below 30 the Celsius figure
    lies between 10 and 39; the Fahrenheit figure is the integer
    nearest to nine fifths of it plus 32, between 50 and 102. *)
Theorem mock_weather_reading (roll30 : nat) units :
  (roll30 < 30)%nat ->
  let celsius := WeatherServer.mockTemp roll30 in
  let shown := WeatherServer.tempInUnits roll30 units in
  (10 <= celsius <= 39)%Z
  /\ (WeatherServer.is_fahrenheit units = false ->
      shown = celsius /\ WeatherServer.unitSymbol units = "°C")
  /\ (WeatherServer.is_fahrenheit units = true ->
      (50 <= shown <= 102)%Z
      /\ (-5 < 10 * (shown - 32) - 18 * celsius <= 5)%Z
      /\ WeatherServer.unitSymbol units = "°F").
Proof.
  intros Hroll celsius shown. subst celsius shown.
  unfold WeatherServer.tempInUnits, WeatherServer.unitSymbol.
  split; [unfold WeatherServer.mockTemp; lia|].
  destruct (WeatherServer.is_fahrenheit units); (split; [done|]); [|done]. intros _.
  do 30 (destruct roll30 as [|roll30]; [vm_compute; intuition congruence|]).
  lia.
Qed.

Lemma mock_weather_reading_witness :
  (0 < 30)%nat
  /\ WeatherServer.tempInUnits 0 (Some (JStr "fahrenheit")) = 50%Z
  /\ WeatherServer.tempInUnits 0 (Some (JStr "Fahrenheit")) = 10%Z.
Proof.
  assert (0 < 30)%nat as Hroll by lia.
  split; [exact Hroll|].
  pose proof (mock_weather_reading 0 (Some (JStr "Fahrenheit")) Hroll) as (_ & Hc & _).
  split; [reflexivity|]. exact (proj1 (Hc eq_refl)).
Defined.
(** ** The REST gateway *)

Lemma disconnect_run {H : Host} {Msg Req : Type} (s : machine Msg Req) :
  disconnect s
  = if isConnected (this s) then
      match sdk_close (world s) with
      | (w, Normal _) =>
          (Return tt, mkMachine (set_isConnected false (this s)) w (calls s ++ [EvClose]))
      | (w, Thrown e) => (Throw e, called EvClose w s)
      end
    else (Return tt, s).
Proof.
  unfold disconnect, mbind, M_bind, read_this, await. cbn.
  destruct (isConnected (this s)); [|done].
  by destruct (sdk_close (world s)) as [w [[]|e]].
Qed.

Lemma connect_never_diverges {H : Host} {Msg Req : Type} (s : machine Msg Req) :
  (connect s).1 <> Diverge.
Proof.
  unfold connect, loadTools, try_catch, mbind, M_bind, read_this, await, throw,
    modify_this. cbn.
  destruct (isConnected (this s)); [done|].
  destruct (sdk_connect (world s)) as [w [[]|e]]; cbn; [|done].
  by destruct (sdk_listTools w) as [w' [tools|e]].
Qed.

Section GatewayFacts.
Context {H : Host} {Msg Req Config PartialConfig : Type}.
Variable spread : Config -> option PartialConfig -> Config.
Variable new_MCPClient : Config -> MCPClient Msg.
Variable ask : nat -> string -> M Msg Req string.
Variable uuidv4 : World -> World * string.
Variable Date_now : World -> World * Z.
Variable defaultConfig : Config.

Local Abbreviation api := (@Gateway.api H Msg Req Config).
Local Abbreviation SessionInfo := (@Gateway.SessionInfo Msg Config).
Local Abbreviation handleChat :=
  (Gateway.handleChat spread new_MCPClient ask uuidv4 Date_now defaultConfig).
Local Abbreviation chat_in_session := (Gateway.chat_in_session ask Date_now).
Local Abbreviation tick := (@Gateway.tick H Msg Req Config Date_now).
Local Abbreviation finalSessionId := (@Gateway.finalSessionId H Msg Req Config uuidv4).

Implicit Types (g : api) (session : SessionInfo) (m : list (string * SessionInfo)).
Implicit Types (id : string) (sessionId : option string).

Lemma Map_get_set id session m id' :
  Gateway.Map_get id' (Gateway.Map_set id session m)
  = if String.eqb id' id then Some session else Gateway.Map_get id' m.
Proof.
  induction m as [|[k v] m IH]; cbn.
  - by destruct (String.eqb id' id).
  - destruct (String.eqb_spec id k) as [-> | Hne]; cbn.
    + by destruct (String.eqb id' k).
    + rewrite IH. destruct (String.eqb_spec id' k) as [-> | Hne']; [|done].
      destruct (String.eqb_spec k id); [congruence | done].
Qed.

Lemma Map_get_delete id m id' :
  Gateway.Map_get id' (Gateway.Map_delete id m)
  = if String.eqb id' id then None else Gateway.Map_get id' m.
Proof.
  induction m as [|[k v] m IH]; cbn.
  - by destruct (String.eqb id' id).
  - destruct (String.eqb_spec id k) as [-> | Hne]; cbn.
    + rewrite IH. by destruct (String.eqb id' k).
    + rewrite IH. destruct (String.eqb_spec id' k) as [-> | Hne']; [|done].
      destruct (String.eqb_spec k id); [congruence | done].
Qed.

Lemma Map_set_set id session session' m :
  Gateway.Map_set id session' (Gateway.Map_set id session m) = Gateway.Map_set id session' m.
Proof.
  induction m as [|[k v] m IH]; cbn.
  - by rewrite String.eqb_refl.
  - destruct (String.eqb_spec id k) as [-> | Hne]; cbn.
    + by rewrite String.eqb_refl.
    + destruct (String.eqb_spec id k); [done|]. by rewrite IH.
Qed.

Lemma tick_sessions g :
  Gateway.sessions (tick g).2 = Gateway.sessions g
  /\ Gateway.log (tick g).2 = Gateway.log g.
Proof. unfold Gateway.tick. by destruct (Date_now (Gateway.outside g)). Qed.

(** What [chat_in_session] comes to: two clock readings, [ask] on the
    client of the session, and a third reading when [ask] returns. *)
Lemma chat_in_session_run fuel question id session g :
  exists now w,
    let a := ask fuel question (mkMachine (Gateway.client session) w []) in
    let session' :=
      Gateway.mkSession (this a.2) (Gateway.config session)
        (Gateway.createdAt session) now in
    let g' :=
      Gateway.mkApi (Gateway.Map_set id session' (Gateway.sessions g)) (world a.2)
        (Gateway.log g ++ map (pair id) (calls a.2)) in
    chat_in_session fuel question id session g
    = match a.1 with
      | Return response =>
          (Return (Gateway.mkReply 200
                     (Gateway.ChatBody response id
                        (List.length (conversationHistory (this a.2)))
                        (map Tool.name (availableTools (this a.2))))),
           (tick g').2)
      | Throw error =>
          (Return (Gateway.mkReply 500
                     (Gateway.ErrorBody "Failed to process message"
                        (Some (message error)))),
           g')
      | Diverge => (Diverge, g')
      end.
Proof.
  unfold Gateway.chat_in_session, Gateway.tick, Gateway.on_session, Gateway.on_client,
    Gateway.set_sessions, Gateway.set_lastUsed, Gateway.set_client, Gateway.details_of.
  destruct (Date_now (Gateway.outside g)) as [w1 now] eqn:Hnow. cbn.
  destruct (Date_now w1) as [w2 startTime] eqn:Hstart. cbn.
  exists now, w2. cbn zeta.
  destruct (ask fuel question (mkMachine (Gateway.client session) w2 [])) as [r s] eqn:Hask.
  cbn. rewrite Map_set_set.
  destruct r as [response|error|]; cbn; try done.
  by destruct (Date_now (world s)).
Qed.

(** X19. The handlers of the gateway catch what their clients throw:
    none of them lets an exception escape, and all but [handleChat]
    always reply; [handleChat] replies whenever [ask] comes back. *)
Theorem gateway_handlers_always_reply fuel message sessionId config id g :
  (forall e, (handleChat fuel message sessionId config g).1 <> Throw e)
  /\ ((forall question s, (ask fuel question s).1 <> Diverge) ->
      exists r, (handleChat fuel message sessionId config g).1 = Return r)
  /\ (exists r, (Gateway.deleteSession id g).1 = Return r)
  /\ (exists r, (Gateway.clearSession Date_now id g).1 = Return r)
  /\ (exists r, (Gateway.getSessionTools id g).1 = Return r)
  /\ (exists r, (Gateway.getSessionHistory id g).1 = Return r)
  /\ (exists r, (Gateway.listSessions g).1 = Return r).
Proof.
  assert (forall question id' session g',
             (forall e, (chat_in_session fuel question id' session g').1 <> Throw e)
             /\ ((forall question s, (ask fuel question s).1 <> Diverge) ->
                 exists r, (chat_in_session fuel question id' session g').1 = Return r))
    as Hchat.
  { intros question id' session g'.
    destruct (chat_in_session_run fuel question id' session g') as (now & w & Hrun).
    cbn zeta in Hrun. rewrite Hrun.
    split.
    - intros e. by destruct (ask fuel question _).1.
    - intros Hback. specialize (Hback question (mkMachine (Gateway.client session) w [])).
      destruct (ask fuel question _).1; [by eexists | by eexists | done]. }
  assert ((forall e, (handleChat fuel message sessionId config g).1 <> Throw e)
          /\ ((forall question s, (ask fuel question s).1 <> Diverge) ->
              exists r, (handleChat fuel message sessionId config g).1 = Return r))
    as Hhandle.
  { unfold Gateway.handleChat.
    destruct message as [[|?|?|question|?|?]|]; try (split; [done | by eexists]).
    destruct (String.eqb question EmptyString); [split; [done | by eexists]|].
    destruct (finalSessionId sessionId g) as [id0 g0].
    destruct (Gateway.Map_get id0 (Gateway.sessions g0)) as [session|]; [apply Hchat|].
    unfold Gateway.createMCPAssistant, Gateway.on_client.
    pose proof (connect_never_diverges
                  (mkMachine (new_MCPClient (spread defaultConfig config))
                     (Gateway.outside g0) ([] : list (event Req)))) as Hconn.
    destruct (connect _) as [[[]|error|] s]; cbn in Hconn |- *; [| |done].
    - unfold Gateway.tick. cbn.
      destruct (Date_now (world s)) as [w1 created]. cbn.
      destruct (Date_now w1) as [w2 used]. cbn. apply Hchat.
    - split; [done | by eexists]. }
  split; [apply Hhandle|]. split; [apply Hhandle|].
  split.
  { unfold Gateway.deleteSession.
    destruct (Gateway.Map_get id (Gateway.sessions g)) as [session|]; [|by eexists].
    unfold Gateway.on_session, Gateway.on_client. rewrite disconnect_run. cbn.
    destruct (isConnected (Gateway.client session)); [|by eexists].
    by destruct (sdk_close (Gateway.outside g)) as [w [[]|e]]; eexists. }
  split.
  { unfold Gateway.clearSession.
    destruct (Gateway.Map_get id (Gateway.sessions g)) as [session|]; [|by eexists].
    unfold Gateway.on_session, Gateway.on_client, clearHistory, modify_this, Gateway.tick.
    cbn. destruct (Date_now (Gateway.outside g)). by eexists. }
  split.
  { unfold Gateway.getSessionTools.
    destruct (Gateway.Map_get id (Gateway.sessions g)); by eexists. }
  split.
  { unfold Gateway.getSessionHistory.
    destruct (Gateway.Map_get id (Gateway.sessions g)); by eexists. }
  by eexists.
Qed.

Lemma finalSessionId_sessions sessionId g :
  Gateway.sessions (finalSessionId sessionId g).2 = Gateway.sessions g
  /\ Gateway.log (finalSessionId sessionId g).2 = Gateway.log g.
Proof.
  unfold Gateway.finalSessionId.
  destruct sessionId as [id|]; [destruct (negb (String.eqb id EmptyString)); [done|]|];
    by destruct (uuidv4 (Gateway.outside g)).
Qed.

(** What is left of [chat_in_session] when the client is not looked
    into: the session is in the map afterwards, the other sessions are
    as they were, and the calls made are those of this session. *)
Lemma chat_in_session_facts fuel question id session g :
  let r := chat_in_session fuel question id session g in
  exists session',
    Gateway.Map_get id (Gateway.sessions r.2) = Some session'
    /\ (forall id', id' <> id ->
        Gateway.Map_get id' (Gateway.sessions r.2)
        = Gateway.Map_get id' (Gateway.sessions g))
    /\ (exists evs, Gateway.log r.2 = Gateway.log g ++ map (pair id) evs)
    /\ ((exists response,
            r.1 = Return (Gateway.mkReply 200
                            (Gateway.ChatBody response id
                               (List.length (conversationHistory (Gateway.client session')))
                               (map Tool.name (availableTools (Gateway.client session'))))))
        \/ (exists details,
               r.1 = Return (Gateway.mkReply 500
                               (Gateway.ErrorBody "Failed to process message"
                                  (Some details))))
        \/ r.1 = Diverge).
Proof.
  intros r. subst r.
  destruct (chat_in_session_run fuel question id session g) as (now & w & Hrun).
  cbn zeta in Hrun. rewrite Hrun. clear Hrun.
  set (a := ask fuel question (mkMachine (Gateway.client session) w [])).
  set (session' := Gateway.mkSession (this a.2) (Gateway.config session)
                     (Gateway.createdAt session) now).
  set (g' := Gateway.mkApi (Gateway.Map_set id session' (Gateway.sessions g)) (world a.2)
               (Gateway.log g ++ map (pair id) (calls a.2))).
  exists session'.
  pose proof (tick_sessions g') as [Hs Hl].
  assert (Gateway.Map_get id (Gateway.sessions g') = Some session') as Hget.
  { cbn. by rewrite Map_get_set, String.eqb_refl. }
  assert (forall id', id' <> id ->
          Gateway.Map_get id' (Gateway.sessions g')
          = Gateway.Map_get id' (Gateway.sessions g)) as Hframe.
  { intros id' Hne. cbn. rewrite Map_get_set. by destruct (String.eqb_spec id' id). }
  assert (exists evs, Gateway.log g' = Gateway.log g ++ map (pair id) evs) as Hcalls
      by (by eexists).
  destruct a.1; cbn [fst snd]; rewrite ?Hs, ?Hl;
    (split; [done|]; split; [done|]; split; [done|]);
    [left | right; left | right; right]; by eexists.
Qed.

(** X20. [handleChat] answers 400 exactly when the message is not a
    non-empty string, and then does nothing else: no identifier is
    drawn, no client is made, no session is touched. *)
Theorem handleChat_refuses_bad_message fuel (message : option value) sessionId config g :
  let bad := forall question, message = Some (JStr question) -> question = EmptyString in
  (bad ->
   handleChat fuel message sessionId config g
   = (Return (Gateway.mkReply 400
                (Gateway.ErrorBody "Message is required and must be a string" None)),
      g))
  /\ (forall b,
         (handleChat fuel message sessionId config g).1 = Return (Gateway.mkReply 400 b) ->
         bad).
Proof.
  intros bad. unfold Gateway.handleChat.
  destruct message as [[|?|?|question|?|?]|]; try (split; [done | intros; by intros ? ?]).
  destruct (String.eqb_spec question EmptyString) as [-> | Hne].
  { split; [done|]. intros b _ question [= <-]. done. }
  split; [intros Hbad; by destruct Hne; apply Hbad|].
  intros b Hreply. exfalso.
  destruct (finalSessionId sessionId g) as [id g0].
  assert (forall session g1,
             (chat_in_session fuel question id session g1).1
             <> Return (Gateway.mkReply 400 b)) as Hchat.
  { intros session g1 Heq.
    destruct (chat_in_session_facts fuel question id session g1)
      as (session' & _ & _ & _ & [[response Hr] | [[details Hr] | Hr]]);
      cbn zeta in Hr; rewrite Hr in Heq; done. }
  destruct (Gateway.Map_get id (Gateway.sessions g0)) as [session|]; [by eapply Hchat|].
  destruct (Gateway.createMCPAssistant new_MCPClient id _ g0) as [[[[]|error|] c] g1];
    try done.
  destruct (tick g1) as [created g2]. destruct (tick g2) as [used g3].
  by eapply Hchat.
Qed.

(** X21. What the reply of [handleChat] says about the session.
    - A 500 for a client that could not be started leaves the sessions
      as they were: no session is stored under the identifier.
    - A 500 for a chat that failed leaves the session in the map, a
      session just made included.
    - A 200 carries the identifier of the session, the length of the
      history its client now has, and as [toolsUsed] the names of all
      tools of the client's catalog. *)
Theorem handleChat_reply_and_session fuel (message : option value) sessionId config g :
  let id := (finalSessionId sessionId g).1 in
  let r := handleChat fuel message sessionId config g in
  (forall details,
      r.1 = Return (Gateway.mkReply 500
                      (Gateway.ErrorBody "Failed to initialize MCP client" details)) ->
      Gateway.sessions r.2 = Gateway.sessions g
      /\ Gateway.Map_get id (Gateway.sessions g) = None)
  /\ (forall details,
         r.1 = Return (Gateway.mkReply 500
                         (Gateway.ErrorBody "Failed to process message" details)) ->
         exists session', Gateway.Map_get id (Gateway.sessions r.2) = Some session')
  /\ (forall b,
         r.1 = Return (Gateway.mkReply 200 b) ->
         exists response session',
           Gateway.Map_get id (Gateway.sessions r.2) = Some session'
           /\ b = Gateway.ChatBody response id
                    (List.length (conversationHistory (Gateway.client session')))
                    (map Tool.name (availableTools (Gateway.client session')))).
Proof.
  intros id r. subst id r. unfold Gateway.handleChat.
  destruct message as [[|?|?|question|?|?]|]; try done.
  destruct (String.eqb question EmptyString); [done|].
  pose proof (finalSessionId_sessions sessionId g) as [Hsessions _].
  destruct (finalSessionId sessionId g) as [id g0]. cbn [fst snd] in *.
  assert (forall session g1,
             let r := chat_in_session fuel question id session g1 in
             (forall details,
                 r.1 <> Return (Gateway.mkReply 500
                                  (Gateway.ErrorBody "Failed to initialize MCP client" details)))
             /\ (exists session', Gateway.Map_get id (Gateway.sessions r.2) = Some session')
             /\ (forall b,
                    r.1 = Return (Gateway.mkReply 200 b) ->
                    exists response session',
                      Gateway.Map_get id (Gateway.sessions r.2) = Some session'
                      /\ b = Gateway.ChatBody response id
                               (List.length (conversationHistory (Gateway.client session')))
                               (map Tool.name (availableTools (Gateway.client session')))))
    as Hchat.
  { intros session g1 r.
    destruct (chat_in_session_facts fuel question id session g1)
      as (session' & Hget & _ & _ & Hcases). fold r in Hget, Hcases.
    split; [|split; [by eexists|]].
    - intros details Heq.
      destruct Hcases as [[response Hr] | [[details' Hr] | Hr]]; rewrite Hr in Heq; done.
    - intros b Heq. destruct Hcases as [[response Hr] | [[details' Hr] | Hr]];
        rewrite Hr in Heq; try done.
      injection Heq as <-. by eexists _, _. }
  destruct (Gateway.Map_get id (Gateway.sessions g0)) as [session|] eqn:Hget.
  { destruct (Hchat session g0) as (Hno & Hkept & Hok).
    split; [intros details Heq; by destruct (Hno details)|]. split; [by intros|done]. }
  rewrite Hsessions in Hget.
  unfold Gateway.createMCPAssistant, Gateway.on_client.
  destruct (connect _) as [[[]|error|] s]; cbn [fst snd].
  - destruct (tick _) as [created g2]. destruct (tick g2) as [used g3].
    match goal with |- context [chat_in_session fuel question id ?session ?g1] =>
      destruct (Hchat session g1) as (Hno & Hkept & Hok) end.
    split; [intros details Heq; by destruct (Hno details)|]. split; [by intros|done].
  - cbn [Gateway.sessions]. split; [by rewrite Hsessions|]. split; [|done].
    intros details [= Hd]; done.
  - done.
Qed.

(** X22. A chat drives the client of its own session only: the other
    sessions are as they were, and every external call made is a call
    of the client of this session. *)
Theorem handleChat_touches_one_session fuel (message : option value) sessionId config g :
  let id := (finalSessionId sessionId g).1 in
  let r := handleChat fuel message sessionId config g in
  (forall id', id' <> id ->
      Gateway.Map_get id' (Gateway.sessions r.2) = Gateway.Map_get id' (Gateway.sessions g))
  /\ exists evs, Gateway.log r.2 = Gateway.log g ++ map (pair id) evs.
Proof.
  intros id r. subst id r. unfold Gateway.handleChat.
  assert (exists evs : list (event Req),
             Gateway.log g = Gateway.log g ++ map (pair (finalSessionId sessionId g).1) evs)
    as Hnone by (exists []; cbn; by rewrite app_nil_r).
  destruct message as [[|?|?|question|?|?]|]; try done.
  destruct (String.eqb question EmptyString); [done|].
  pose proof (finalSessionId_sessions sessionId g) as [Hsessions Hlog].
  destruct (finalSessionId sessionId g) as [id g0]. cbn [fst snd] in *. clear Hnone.
  destruct (Gateway.Map_get id (Gateway.sessions g0)) as [session|] eqn:Hget.
  { destruct (chat_in_session_facts fuel question id session g0)
      as (session' & _ & Hframe & Hcalls & _).
    rewrite Hsessions, Hlog in *. done. }
  unfold Gateway.createMCPAssistant, Gateway.on_client.
  destruct (connect _) as [[[]|error|] s]; cbn [fst snd].
  - destruct (tick _) as [created g2] eqn:Hc. destruct (tick g2) as [used g3] eqn:Hu.
    pose proof (tick_sessions g2) as [Hs3 Hl3]. rewrite Hu in Hs3, Hl3.
    match type of Hc with tick ?g1 = _ =>
      pose proof (tick_sessions g1) as [Hs2 Hl2]; rewrite Hc in Hs2, Hl2 end.
    cbn [fst snd Gateway.sessions Gateway.log] in *.
    match goal with |- context [chat_in_session fuel question id ?session ?g1] =>
      destruct (chat_in_session_facts fuel question id session g1)
        as (session' & _ & Hframe & [evs Hcalls] & _) end.
    cbn [Gateway.set_sessions Gateway.sessions Gateway.log] in *.
    split.
    + intros id' Hne. rewrite (Hframe id' Hne), Map_get_set, Hs3, Hs2, Hsessions.
      by destruct (String.eqb_spec id' id).
    + exists (calls s ++ evs). by rewrite Hcalls, Hl3, Hl2, Hlog, map_app, app_assoc.
  - cbn [Gateway.sessions Gateway.log]. rewrite Hsessions, Hlog. split; [done | by eexists].
  - cbn [Gateway.sessions Gateway.log]. rewrite Hsessions, Hlog. split; [done | by eexists].
Qed.

Lemma set_client_same session : Gateway.set_client (Gateway.client session) session = session.
Proof. by destruct session. Qed.

Lemma Map_set_same id session m :
  Gateway.Map_get id m = Some session -> Gateway.Map_set id session m = m.
Proof.
  induction m as [|[k v] m IH]; cbn; [done|].
  destruct (String.eqb_spec id k) as [-> | Hne].
  - by intros [= ->].
  - intros Hget. by rewrite IH.
Qed.

(** X23. [deleteSession].
    - An unknown identifier gets 404 and nothing changes.
    - A session whose client is not connected, or whose client closes,
      is removed; the SDK is asked to close in the second case only.
    - When closing fails the reply is 500 and the session stays in the
      map as it was, its client still marked connected.
    - No other session is touched. *)
Theorem deleteSession_outcomes id g :
  let r := Gateway.deleteSession id g in
  (Gateway.Map_get id (Gateway.sessions g) = None ->
   r = (Return Gateway.not_found, g))
  /\ (forall session,
         Gateway.Map_get id (Gateway.sessions g) = Some session ->
         isConnected (Gateway.client session) = false ->
         r.1 = Return (Gateway.mkReply 200 (Gateway.MessageBody "Session deleted successfully"))
         /\ Gateway.Map_get id (Gateway.sessions r.2) = None
         /\ Gateway.log r.2 = Gateway.log g)
  /\ (forall session w,
         Gateway.Map_get id (Gateway.sessions g) = Some session ->
         isConnected (Gateway.client session) = true ->
         sdk_close (Gateway.outside g) = (w, Normal tt) ->
         r.1 = Return (Gateway.mkReply 200 (Gateway.MessageBody "Session deleted successfully"))
         /\ Gateway.Map_get id (Gateway.sessions r.2) = None
         /\ Gateway.log r.2 = Gateway.log g ++ [(id, EvClose)])
  /\ (forall session w e,
         Gateway.Map_get id (Gateway.sessions g) = Some session ->
         isConnected (Gateway.client session) = true ->
         sdk_close (Gateway.outside g) = (w, Thrown e) ->
         r = (Return (Gateway.mkReply 500 (Gateway.ErrorBody "Failed to delete session" None)),
              Gateway.mkApi (Gateway.sessions g) w (Gateway.log g ++ [(id, EvClose)])))
  /\ (forall id', id' <> id ->
         Gateway.Map_get id' (Gateway.sessions r.2)
         = Gateway.Map_get id' (Gateway.sessions g)).
Proof.
  intros r. subst r. unfold Gateway.deleteSession.
  destruct (Gateway.Map_get id (Gateway.sessions g)) as [session|] eqn:Hget.
  2:{ repeat split; try done. }
  unfold Gateway.on_session, Gateway.on_client. rewrite disconnect_run.
  cbn [this world calls].
  split; [done|]. split; [|split; [|split]].
  - intros ? [= <-] Hc. rewrite Hc. cbn.
    rewrite Map_get_delete, String.eqb_refl. by rewrite app_nil_r.
  - intros ? w [= <-] Hc Hclose. rewrite Hc, Hclose. cbn.
    by rewrite Map_get_delete, String.eqb_refl.
  - intros ? w e [= <-] Hc Hclose. rewrite Hc, Hclose. cbn.
    by rewrite set_client_same, (Map_set_same _ _ _ Hget).
  - intros id' Hne.
    assert (forall session' m,
               Gateway.Map_get id' (Gateway.Map_delete id (Gateway.Map_set id session' m))
               = Gateway.Map_get id' m) as Hdeleted.
    { intros session' m. rewrite Map_get_delete, Map_get_set.
      by destruct (String.eqb_spec id' id). }
    assert (forall session' m,
               Gateway.Map_get id' (Gateway.Map_set id session' m)
               = Gateway.Map_get id' m) as Hset.
    { intros session' m. rewrite Map_get_set. by destruct (String.eqb_spec id' id). }
    destruct (isConnected (Gateway.client session)); cbn; [|apply Hdeleted].
    destruct (sdk_close (Gateway.outside g)) as [w [[]|e]]; cbn; [apply Hdeleted | apply Hset].
Qed.

(** X24. [clearSession] empties the history of the session, which
    [getSessionHistory] then reports as empty, in agreement with the 0
    of the reply; the catalog of the session, the other sessions and
    the tool server are not touched. *)
Theorem clearSession_then_history id session g :
  Gateway.Map_get id (Gateway.sessions g) = Some session ->
  let r := Gateway.clearSession Date_now id g in
  r.1 = Return (Gateway.mkReply 200 (Gateway.ClearedBody "Session history cleared" id 0))
  /\ (Gateway.getSessionHistory id r.2).1
     = Return (Gateway.mkReply 200 (Gateway.HistoryBody id [] 0))
  /\ (Gateway.getSessionTools id r.2).1 = (Gateway.getSessionTools id g).1
  /\ Gateway.log r.2 = Gateway.log g
  /\ (forall id', id' <> id ->
         Gateway.Map_get id' (Gateway.sessions r.2)
         = Gateway.Map_get id' (Gateway.sessions g)).
Proof.
  intros Hget r. subst r.
  unfold Gateway.clearSession, Gateway.getSessionHistory, Gateway.getSessionTools.
  rewrite Hget.
  unfold Gateway.on_session, Gateway.on_client, clearHistory, modify_this, Gateway.tick.
  cbn. destruct (Date_now (Gateway.outside g)) as [w now]. cbn.
  rewrite Map_set_set, Map_get_set, String.eqb_refl. cbn.
  repeat split; try done; [by rewrite app_nil_r|].
  intros id' Hne. rewrite Map_get_set. by destruct (String.eqb_spec id' id).
Qed.

Lemma on_session_disconnect id session g :
  let r := Gateway.on_session id session disconnect g in
  (forall id', id' <> id ->
      Gateway.Map_get id' (Gateway.sessions r.2) = Gateway.Map_get id' (Gateway.sessions g))
  /\ Gateway.log r.2
     = Gateway.log g ++ (if isConnected (Gateway.client session) then [(id, EvClose)] else [])
  /\ (r.1.1 <> Diverge)
  /\ ((forall w, (sdk_close w).2 = Normal tt) -> r.1.1 = Return tt).
Proof.
  intros r. subst r. unfold Gateway.on_session, Gateway.on_client.
  rewrite disconnect_run. cbn [this world calls].
  assert (forall id' session' m,
             id' <> id ->
             Gateway.Map_get id' (Gateway.Map_set id session' m) = Gateway.Map_get id' m)
    as Hset.
  { intros id' session' m Hne. rewrite Map_get_set. by destruct (String.eqb_spec id' id). }
  destruct (isConnected (Gateway.client session)); cbn.
  2:{ rewrite app_nil_r. repeat split; try done. intros; by apply Hset. }
  pose proof (fun Hall : forall w, (sdk_close w).2 = Normal tt => Hall (Gateway.outside g))
    as Hhere.
  destruct (sdk_close (Gateway.outside g)) as [w [[]|e]]; cbn in *.
  - repeat split; try done. intros; by apply Hset.
  - repeat split; try done; [intros; by apply Hset|]. intros Hall. by specialize (Hhere Hall).
Qed.

Lemma cleanup_session_facts g id :
  let g' := Gateway.cleanup_session g id in
  (forall id', id' <> id ->
      Gateway.Map_get id' (Gateway.sessions g') = Gateway.Map_get id' (Gateway.sessions g))
  /\ (Gateway.Map_get id (Gateway.sessions g) = None ->
      Gateway.Map_get id (Gateway.sessions g') = None)
  /\ ((forall w, (sdk_close w).2 = Normal tt) ->
      Gateway.Map_get id (Gateway.sessions g') = None).
Proof.
  intros g'. subst g'. unfold Gateway.cleanup_session.
  destruct (Gateway.Map_get id (Gateway.sessions g)) as [session|] eqn:Hget; [|done].
  pose proof (on_session_disconnect id session g) as (Hframe & _ & _ & Hok).
  cbn zeta in *.
  destruct (Gateway.on_session id session disconnect g) as [[r session'] g1].
  cbn [fst snd] in *.
  assert (forall id', id' <> id ->
          Gateway.Map_get id' (Gateway.Map_delete id (Gateway.sessions g1))
          = Gateway.Map_get id' (Gateway.sessions g)) as Hdeleted.
  { intros id' Hne. rewrite Map_get_delete, <- (Hframe id' Hne).
    by destruct (String.eqb_spec id' id). }
  split; [|split; [done|]].
  - destruct r as [[]| |]; cbn; done.
  - intros Hall. rewrite (Hok Hall). cbn. by rewrite Map_get_delete, String.eqb_refl.
Qed.

Lemma fold_cleanup_other ids g id :
  id ∉ ids ->
  Gateway.Map_get id (Gateway.sessions (fold_left Gateway.cleanup_session ids g))
  = Gateway.Map_get id (Gateway.sessions g).
Proof.
  revert g. induction ids as [|id0 ids IH]; intros g Hnot; [done|].
  apply not_elem_of_cons in Hnot as [Hne Hnot].
  cbn [fold_left]. rewrite IH by done.
  by apply cleanup_session_facts.
Qed.

Lemma fold_cleanup_gone ids g id :
  Gateway.Map_get id (Gateway.sessions g) = None ->
  Gateway.Map_get id (Gateway.sessions (fold_left Gateway.cleanup_session ids g)) = None.
Proof.
  revert g. induction ids as [|id0 ids IH]; intros g Hnone; [done|].
  cbn [fold_left]. apply IH.
  destruct (cleanup_session_facts g id0) as (Hother & Hsame & _). cbn zeta in *.
  destruct (String.eqb_spec id id0) as [-> | Hne]; [by apply Hsame|].
  by rewrite Hother.
Qed.

Lemma fold_cleanup_listed ids g id :
  (forall w, (sdk_close w).2 = Normal tt) ->
  id ∈ ids ->
  Gateway.Map_get id (Gateway.sessions (fold_left Gateway.cleanup_session ids g)) = None.
Proof.
  intros Hall. revert g. induction ids as [|id0 ids IH]; intros g Hin.
  { by apply elem_of_nil in Hin. }
  cbn [fold_left].
  apply elem_of_cons in Hin as [-> | Hin].
  - apply fold_cleanup_gone. by apply cleanup_session_facts.
  - by apply IH.
Qed.

Lemma Map_get_elem_of id session m :
  Gateway.Map_get id m = Some session -> (id, session) ∈ m.
Proof.
  induction m as [|[k v] m IH]; cbn; [done|].
  destruct (String.eqb_spec id k) as [-> | Hne].
  - intros [= ->]. apply list_elem_of_here.
  - intros Hget. apply list_elem_of_further. auto.
Qed.

(** X25. The periodic clean-up reads the clock once.  A session used
    within the last 30 minutes, 30 minutes exactly included, is left as
    it is; when closing never fails, every session idle for longer is
    removed. *)
Theorem cleanup_removes_idle_sessions_only id g w now :
  Date_now (Gateway.outside g) = (w, now) ->
  ((forall session,
       (id, session) ∈ Gateway.sessions g ->
       (now - Gateway.lastUsed session <= 30 * 60 * 1000)%Z) ->
   Gateway.Map_get id (Gateway.sessions (Gateway.cleanup Date_now g))
   = Gateway.Map_get id (Gateway.sessions g))
  /\ ((forall w', (sdk_close w').2 = Normal tt) ->
      forall session,
        Gateway.Map_get id (Gateway.sessions g) = Some session ->
        (30 * 60 * 1000 < now - Gateway.lastUsed session)%Z ->
        Gateway.Map_get id (Gateway.sessions (Gateway.cleanup Date_now g)) = None).
Proof.
  intros Hnow. unfold Gateway.cleanup, Gateway.tick. rewrite Hnow.
  cbn [Gateway.sessions]. split.
  - intros Hactive. rewrite fold_cleanup_other; [done|].
    unfold Gateway.sessionsToDelete. intros Hin.
    apply list_elem_of_fmap in Hin as ([k session] & -> & Hin).
    apply list_elem_of_filter in Hin as [Hexpired Hin]. cbn in *.
    specialize (Hactive session Hin).
    unfold Gateway.expired, Gateway.sessionTimeout in Hexpired.
    apply Is_true_true in Hexpired. apply Z.ltb_lt in Hexpired. lia.
  - intros Hall session Hget Hidle. apply fold_cleanup_listed; [done|].
    unfold Gateway.sessionsToDelete.
    apply list_elem_of_fmap. exists (id, session). split; [done|].
    apply list_elem_of_filter. split; [|by apply Map_get_elem_of].
    unfold Gateway.expired, Gateway.sessionTimeout. cbn.
    apply Is_true_true. apply Z.ltb_lt. lia.
Qed.

Lemma fold_shutdown l g :
  Gateway.log
    (fold_left (fun (g : api) (entry : string * SessionInfo) =>
                  (Gateway.on_session entry.1 entry.2 disconnect g).2) l g)
  = Gateway.log g
    ++ map (fun entry => (entry.1, EvClose))
         (filter (fun entry => isConnected (Gateway.client entry.2) = true) l).
Proof.
  revert g. induction l as [|[id session] l IH]; intros g.
  { cbn. by rewrite app_nil_r. }
  cbn [fold_left]. rewrite IH. cbn [fst snd].
  destruct (on_session_disconnect id session g) as (_ & -> & _).
  rewrite filter_cons. cbn [snd].
  destruct (isConnected (Gateway.client session)).
  - rewrite decide_True by done. cbn. by rewrite <- app_assoc.
  - rewrite decide_False by done. by rewrite app_nil_r.
Qed.

(** X26. [shutdown] asks the SDK to close once for every session whose
    client is connected, in the order the sessions were made, whether
    or not closing fails on the way, and leaves no session. *)
Theorem shutdown_closes_every_connected_client g :
  Gateway.sessions (Gateway.shutdown g) = []
  /\ Gateway.log (Gateway.shutdown g)
     = Gateway.log g
       ++ map (fun entry => (entry.1, EvClose))
            (filter (fun entry => isConnected (Gateway.client entry.2) = true)
               (Gateway.sessions g)).
Proof.
  unfold Gateway.shutdown. cbn [Gateway.sessions Gateway.log]. split; [done|].
  apply fold_shutdown.
Qed.

End GatewayFacts.

Section AnthropicGateway.
Context {H : Host} {Config PartialConfig : Type}.
Variable fetch :
  World -> AnthropicRequest.t -> World * completion (Response AnthropicResponse.t).
Variable spread : Config -> option PartialConfig -> Config.
Variable new_MCPClient : Config -> MCPClient AnthropicMessage.t.
Variable uuidv4 : World -> World * string.
Variable Date_now : World -> World * Z.
Variable defaultConfig : Config.

(** X27. With the client of part_001 behind the gateway, a chat in a
    session whose client is connected adds the question to the history
    of the session whatever becomes of the chat: answered, failed with
    a 500, or never answered.  The catalog is not changed and the
    client stays connected. *)
Theorem chat_question_stays_in_the_session
        (fuel : nat) (question id : string) (session : Gateway.SessionInfo)
        (config : option PartialConfig) (g : Gateway.api) :
  question <> EmptyString ->
  id <> EmptyString ->
  Gateway.Map_get id (Gateway.sessions g) = Some session ->
  isConnected (Gateway.client session) = true ->
  let r := Gateway.handleChat spread new_MCPClient (AnthropicClient.ask fetch) uuidv4
             Date_now defaultConfig fuel (Some (JStr question)) (Some id) config g in
  exists session' more,
    Gateway.Map_get id (Gateway.sessions r.2) = Some session'
    /\ conversationHistory (Gateway.client session')
       = conversationHistory (Gateway.client session)
           ++ AnthropicMessage.mk AnthropicMessage.user (AnthropicMessage.Str question)
           :: more
    /\ availableTools (Gateway.client session') = availableTools (Gateway.client session)
    /\ isConnected (Gateway.client session') = true
    /\ Gateway.createdAt session' = Gateway.createdAt session.
Proof.
  intros Hq Hid Hget Hc r. subst r. unfold Gateway.handleChat, Gateway.finalSessionId.
  destruct (String.eqb_spec question EmptyString) as [? | _]; [done|].
  destruct (String.eqb_spec id EmptyString) as [? | _]; [done|]. cbn [negb].
  rewrite Hget.
  destruct (chat_in_session_run (AnthropicClient.ask fetch) Date_now fuel question id session g)
    as (now & w & Hrun).
  cbn zeta in Hrun. rewrite Hrun. clear Hrun.
  set (s := mkMachine (Gateway.client session) w []).
  destruct (anthropic_ask_extends fetch fuel question s Hc) as (more & new & Hthis & _).
  cbn zeta in Hthis.
  set (a := AnthropicClient.ask fetch fuel question s) in *.
  eexists (Gateway.mkSession (this a.2) _ _ now), more.
  assert (forall g0 : @Gateway.api H AnthropicMessage.t AnthropicRequest.t Config,
             Gateway.sessions (Gateway.tick Date_now g0).2 = Gateway.sessions g0) as Htick.
  { intros g0. apply (tick_sessions Date_now g0). }
  split.
  { destruct a.1; cbn [snd]; rewrite ?Htick; cbn [Gateway.sessions];
      by rewrite Map_get_set, String.eqb_refl. }
  cbn [Gateway.client Gateway.createdAt]. rewrite Hthis.
  unfold history, s. cbn. by rewrite Hc.
Qed.
End AnthropicGateway.
(** ** The gateway at work *)

Lemma greets_never_diverges {H : Host} fuel question
      (s : machine AnthropicMessage.t AnthropicRequest.t) :
  (AnthropicClient.ask DemoGateway.greets fuel question s).1 <> Diverge.
Proof.
  destruct (isConnected (this s)) eqn:Hc.
  - destruct (anthropic_ask_final DemoGateway.greets fuel question s (world s)
                (Demo.success DemoGateway.hello) DemoGateway.hello Hc eq_refl eq_refl eq_refl)
      as [[_ Hrun] | [Htool _]]; [|done].
    cbn zeta in Hrun. by rewrite Hrun.
  - unfold AnthropicClient.ask, mbind, M_bind, read_this. cbn. by rewrite Hc.
Qed.

Lemma gateway_handlers_always_reply_witness :
  exists r,
    (DemoGateway.handleChat (H := Demo.host) DemoGateway.greets 0
       (Some (JStr "hello")) None None (DemoGateway.none Demo.host 0%nat)).1
    = Return r.
Proof.
  destruct (gateway_handlers_always_reply (H := Demo.host)
              DemoGateway.spread DemoGateway.new_MCPClient
              (AnthropicClient.ask DemoGateway.greets) DemoGateway.uuidv4
              DemoGateway.Date_now tt 0 (Some (JStr "hello")) None None "s1"
              (DemoGateway.none Demo.host 0%nat)) as (_ & Hreplies & _).
  apply Hreplies. intros question s. apply greets_never_diverges.
Defined.

Lemma handleChat_refuses_bad_message_witness :
  DemoGateway.handleChat (H := Demo.host) DemoGateway.greets 0
    (Some (JNum 5)) (Some "s1") None (DemoGateway.two Demo.host 0%nat)
  = (Return (Gateway.mkReply 400
               (Gateway.ErrorBody "Message is required and must be a string" None)),
     DemoGateway.two Demo.host 0%nat).
Proof.
  destruct (handleChat_refuses_bad_message (H := Demo.host)
              DemoGateway.spread DemoGateway.new_MCPClient
              (AnthropicClient.ask DemoGateway.greets) DemoGateway.uuidv4
              DemoGateway.Date_now tt 0 (Some (JNum 5)) (Some "s1") None
              (DemoGateway.two Demo.host 0%nat)) as [Hbad _].
  apply Hbad. intros question Heq. discriminate Heq.
Defined.

Lemma handleChat_reply_and_session_witness :
  (DemoGateway.handleChat (H := DemoGateway.down) DemoGateway.greets 0
     (Some (JStr "hello")) None None (DemoGateway.none DemoGateway.down tt)).1
  = Return (Gateway.mkReply 500
              (Gateway.ErrorBody "Failed to initialize MCP client"
                 (Some "Failed to connect to MCP server: Error: spawn node ENOENT")))
  /\ Gateway.sessions
       (DemoGateway.handleChat (H := DemoGateway.down) DemoGateway.greets 0
          (Some (JStr "hello")) None None (DemoGateway.none DemoGateway.down tt)).2
     = [].
Proof.
  assert ((DemoGateway.handleChat (H := DemoGateway.down) DemoGateway.greets 0
             (Some (JStr "hello")) None None (DemoGateway.none DemoGateway.down tt)).1
          = Return (Gateway.mkReply 500
                      (Gateway.ErrorBody "Failed to initialize MCP client"
                         (Some "Failed to connect to MCP server: Error: spawn node ENOENT"))))
    as Hreply by reflexivity.
  split; [exact Hreply|].
  destruct (handleChat_reply_and_session (H := DemoGateway.down)
              DemoGateway.spread DemoGateway.new_MCPClient
              (AnthropicClient.ask DemoGateway.greets) DemoGateway.uuidv4
              DemoGateway.Date_now tt 0 (Some (JStr "hello")) None None
              (DemoGateway.none DemoGateway.down tt)) as (Hstart & _).
  exact (proj1 (Hstart _ Hreply)).
Defined.

Lemma handleChat_touches_one_session_witness :
  "s2" <> "s1"
  /\ Gateway.Map_get "s2"
       (Gateway.sessions
          (DemoGateway.handleChat (H := Demo.host) DemoGateway.unauthorized 0
             (Some (JStr "hello")) (Some "s1") None (DemoGateway.two Demo.host 0%nat)).2)
     = Some (DemoGateway.session [] (-1)).
Proof.
  assert ("s2" <> "s1") as Hne by done.
  split; [exact Hne|].
  destruct (handleChat_touches_one_session (H := Demo.host)
              DemoGateway.spread DemoGateway.new_MCPClient
              (AnthropicClient.ask DemoGateway.unauthorized) DemoGateway.uuidv4
              DemoGateway.Date_now tt 0 (Some (JStr "hello")) (Some "s1") None
              (DemoGateway.two Demo.host 0%nat)) as (Hframe & _).
  exact (Hframe "s2" Hne).
Defined.

Lemma deleteSession_outcomes_witness :
  Gateway.deleteSession (H := DemoMore.listing_host) "s1" (DemoGateway.two DemoMore.listing_host 1%nat)
  = (Return (Gateway.mkReply 500 (Gateway.ErrorBody "Failed to delete session" None)),
     @Gateway.mkApi DemoMore.listing_host _ _ _
       (Gateway.sessions (DemoGateway.two DemoMore.listing_host 1%nat))
       1%nat [("s1", EvClose)]).
Proof.
  destruct (deleteSession_outcomes (H := DemoMore.listing_host) "s1"
              (DemoGateway.two DemoMore.listing_host 1%nat)) as (_ & _ & _ & Hfails & _).
  exact (Hfails (DemoGateway.session [DemoGateway.earlier] 0) 1%nat
           (mkError "Error" "Not connected") eq_refl eq_refl eq_refl).
Defined.

Lemma clearSession_then_history_witness :
  (Gateway.getSessionHistory "s1" (DemoGateway.two Demo.host 0%nat)).1
  = Return (Gateway.mkReply 200 (Gateway.HistoryBody "s1" [DemoGateway.earlier] 1))
  /\ (Gateway.getSessionHistory "s1"
        (Gateway.clearSession (H := Demo.host) DemoGateway.Date_now "s1"
           (DemoGateway.two Demo.host 0%nat)).2).1
     = Return (Gateway.mkReply 200 (Gateway.HistoryBody "s1" [] 0)).
Proof.
  split; [reflexivity|].
  destruct (clearSession_then_history (H := Demo.host) DemoGateway.Date_now "s1"
              (DemoGateway.session [DemoGateway.earlier] 0) (DemoGateway.two Demo.host 0%nat)
              eq_refl) as (_ & Hhistory & _).
  exact Hhistory.
Defined.

Lemma cleanup_removes_idle_sessions_only_witness :
  Gateway.Map_get "s1"
    (Gateway.sessions
       (Gateway.cleanup (H := Demo.host) DemoGateway.Date_now (DemoGateway.two Demo.host 0%nat)))
  = Some (DemoGateway.session [DemoGateway.earlier] 0)
  /\ Gateway.Map_get "s2"
       (Gateway.sessions
          (Gateway.cleanup (H := Demo.host) DemoGateway.Date_now (DemoGateway.two Demo.host 0%nat)))
     = None.
Proof.
  destruct (cleanup_removes_idle_sessions_only (H := Demo.host) DemoGateway.Date_now
              "s1" (DemoGateway.two Demo.host 0%nat) 0%nat 1800000%Z eq_refl) as [Hkept _].
  destruct (cleanup_removes_idle_sessions_only (H := Demo.host) DemoGateway.Date_now
              "s2" (DemoGateway.two Demo.host 0%nat) 0%nat 1800000%Z eq_refl) as [_ Hgone].
  split.
  - rewrite Hkept; [reflexivity|].
    intros session Hin. cbn in Hin.
    apply elem_of_cons in Hin as [Heq | Hin]; [injection Heq as ->; cbn; lia|].
    apply elem_of_cons in Hin as [Heq | Hin]; [discriminate Heq|].
    by apply elem_of_nil in Hin.
  - apply (Hgone (fun w => eq_refl) (DemoGateway.session [] (-1)) eq_refl). cbn. lia.
Defined.

Lemma chat_question_stays_in_the_session_witness :
  (DemoGateway.handleChat (H := Demo.host) DemoGateway.unauthorized 0
     (Some (JStr "hello")) (Some "s1") None (DemoGateway.two Demo.host 0%nat)).1
  = Return (Gateway.mkReply 500
              (Gateway.ErrorBody "Failed to process message"
                 (Some "Anthropic API error: 401 invalid x-api-key")))
  /\ exists session' more,
      Gateway.Map_get "s1"
        (Gateway.sessions
           (DemoGateway.handleChat (H := Demo.host) DemoGateway.unauthorized 0
              (Some (JStr "hello")) (Some "s1") None (DemoGateway.two Demo.host 0%nat)).2)
      = Some session'
      /\ conversationHistory (Gateway.client session')
         = [DemoGateway.earlier]
             ++ AnthropicMessage.mk AnthropicMessage.user (AnthropicMessage.Str "hello")
             :: more.
Proof.
  split; [reflexivity|].
  destruct (chat_question_stays_in_the_session (H := Demo.host) DemoGateway.unauthorized
              DemoGateway.spread DemoGateway.new_MCPClient DemoGateway.uuidv4
              DemoGateway.Date_now tt 0 "hello" "s1"
              (DemoGateway.session [DemoGateway.earlier] 0) None (DemoGateway.two Demo.host 0%nat))
    as (session' & more & Hget & Hhistory & _); try done.
  by exists session', more.
Defined.
